(** * CC1101 bridge: line reassembly, command parsing, dispatch, responses

    A shallow embedding of the Flipper application under [flipper_app/]:
    - [cc1101_bridge_uart.c]     (line reassembler over USB CDC),
    - [cc1101_bridge_protocol.c] (command scanner and response encoders),
    - [cc1101_bridge_cc1101.c]   (register backend over the SubGHz HAL),
    - [cc1101_bridge_app.c]      (command execution).

    Conventions.  A [char] is an [ascii]; a C string is the [list ascii]
    of the characters in front of its terminating NUL; a [uint8_t] value is
    a [Z] in [0, 256) and every narrowing conversion is written out as
    [Z.modulo _ 256]; fixed arrays are lists updated by index.  Calls into
    the firmware HAL are recorded, in order, in a trace. *)

From Stdlib Require Import ZArith Lia List Ascii String Bool.
From stdpp Require Import list.
Import ListNotations.

Local Open Scope Z_scope.

(* ================================================================= *)
(** ** Characters and C strings *)

Definition NUL : ascii := "000"%char.
Definition LF : ascii := "010"%char.
Definition CR : ascii := "013"%char.
Definition DQUOTE : ascii := "034"%char.

(** A string literal as the characters of a C string. *)
Definition lit (s : string) : list ascii := list_ascii_of_string s.

(** [c_str mem]: the C string stored at the start of [mem], that is the
    characters in front of the first NUL. *)
Fixpoint c_str (mem : list ascii) : list ascii :=
  match mem with
  | [] => []
  | c :: mem' => if (c =? NUL)%char then [] else c :: c_str mem'
  end.

(* ================================================================= *)
(** ** cc1101_bridge_uart.c *)

Definition RX_BUFFER_SIZE : nat := 512.
Definition LINE_BUFFER_SIZE : nat := 1024.

(** [struct UartContext].  [rx_buffer] is scratch space that every call of
    [furi_hal_cdc_receive] overwrites: its live content is the chunk that
    call returned, which the functions below take as an argument. *)
Record UartContext := mkUart {
  line_buffer : list ascii;
  line_pos : nat
}.

(** [uart_init]: the context is fresh heap memory [mem] (LINE_BUFFER_SIZE
    characters of unspecified content); only [line_pos] is set. *)
Definition uart_init (mem : list ascii) : UartContext :=
  {| line_buffer := mem; line_pos := 0 |}.

(** [c == '\n' || c == '\r'] *)
Definition is_line_end (c : ascii) : bool :=
  ((c =? LF) || (c =? CR))%char.

(** The [for] loop of [uart_receive_line] over the [available] bytes [rx]
    of one [furi_hal_cdc_receive].  A completed line returns at once: the
    bytes of [rx] behind the terminator are not looked at again. *)
Fixpoint uart_scan (ctx : UartContext) (rx : list ascii)
  : UartContext * option (list ascii) :=
  match rx with
  | [] => (ctx, None)
  | c :: rx' =>
      if is_line_end c then
        if (0 <? line_pos ctx)%nat then
          let buf := <[line_pos ctx := NUL]> (line_buffer ctx) in
          ({| line_buffer := buf; line_pos := 0 |}, Some (c_str buf))
        else uart_scan ctx rx'
      else if (line_pos ctx <? LINE_BUFFER_SIZE - 1)%nat then
        uart_scan {| line_buffer := <[line_pos ctx := c]> (line_buffer ctx);
                     line_pos := S (line_pos ctx) |} rx'
      else
        uart_scan {| line_buffer := line_buffer ctx; line_pos := 0 |} rx'
  end.

(** [uart_receive_line].  [polls] lists what the successive calls of
    [furi_hal_cdc_receive] return until the timeout elapses (an empty chunk
    when nothing is available); the tick arithmetic itself is not modelled.
    The result is the context, the line when one completed ([true]) or
    [None] on timeout ([false]), and the polls not yet performed. *)
Fixpoint uart_receive_line (ctx : UartContext) (polls : list (list ascii))
  : UartContext * option (list ascii) * list (list ascii) :=
  match polls with
  | [] => (ctx, None, [])
  | rx :: polls' =>
      match uart_scan ctx rx with
      | (ctx', Some line) => (ctx', Some line, polls')
      | (ctx', None) => uart_receive_line ctx' polls'
      end
  end.

(** The lines the main loop of [cc1101_bridge_app] obtains from its
    successive calls of [uart_receive_line] while the transport delivers
    [polls]: a call that times out leaves the context as it is, and the
    next call goes on from there. *)
Fixpoint uart_lines (ctx : UartContext) (polls : list (list ascii))
  : list (list ascii) :=
  match polls with
  | [] => []
  | rx :: polls' =>
      match uart_scan ctx rx with
      | (ctx', Some line) => line :: uart_lines ctx' polls'
      | (ctx', None) => uart_lines ctx' polls'
      end
  end.

(* ================================================================= *)
(** ** C library functions used by the scanner *)

(** The character as an [unsigned char]. *)
Definition char_code (c : ascii) : Z := Z.of_N (N_of_ascii c).

Definition isdigit (c : ascii) : bool :=
  (48 <=? char_code c) && (char_code c <=? 57).

(** Space, and the controls from tab to carriage return. *)
Definition isspace (c : ascii) : bool :=
  (char_code c =? 32) || ((9 <=? char_code c) && (char_code c <=? 13)).

(** [starts_with s t]: the characters of [t] are at the start of [s]. *)
Fixpoint starts_with (s t : list ascii) {struct t} : bool :=
  match t, s with
  | [], _ => true
  | _ :: _, [] => false
  | b :: t', a :: s' => (a =? b)%char && starts_with s' t'
  end.

(** [strstr]: the suffix at the first occurrence of [needle], or [None]
    for the null pointer. *)
Fixpoint strstr (haystack needle : list ascii) : option (list ascii) :=
  if starts_with haystack needle then Some haystack
  else match haystack with
       | [] => None
       | _ :: haystack' => strstr haystack' needle
       end.

(** [strchr] for a character other than NUL. *)
Fixpoint strchr (s : list ascii) (c : ascii) : option (list ascii) :=
  match s with
  | [] => None
  | a :: s' => if (a =? c)%char then Some s else strchr s' c
  end.

(** [strncmp]: the difference of the first characters that differ within
    the first [n], each as an [unsigned char], the end of a string counting
    as the NUL that stands there. *)
Fixpoint strncmp (s1 s2 : list ascii) (n : nat) {struct n} : Z :=
  match n with
  | O => 0
  | S n' =>
      match s1, s2 with
      | [], [] => 0
      | [], b :: _ => 0 - char_code b
      | a :: _, [] => char_code a
      | a :: s1', b :: s2' =>
          if (a =? b)%char then strncmp s1' s2' n'
          else char_code a - char_code b
      end
  end.

Definition INT_MAX : Z := 2147483647.
Definition INT_MIN : Z := -2147483648.

(** The run of decimal digits at the start of [s], read onto [acc]. *)
Fixpoint atoi_digits (s : list ascii) (acc : Z) : Z :=
  match s with
  | [] => acc
  | c :: s' =>
      if isdigit c then atoi_digits s' (acc * 10 + (char_code c - 48))
      else acc
  end.

Fixpoint skip_spaces (s : list ascii) : list ascii :=
  match s with
  | [] => []
  | c :: s' => if isspace c then skip_spaces s' else s
  end.

(** [atoi], which the C library defines as [(int)strtol(s, NULL, 10)]:
    leading white space, an optional sign, then digits up to the first
    character that is not one; no digit gives 0.  A value outside [int]
    (for which ISO C leaves [atoi] undefined) is clamped the way [strtol]
    does. *)
Definition atoi (s : list ascii) : Z :=
  let clamp v := Z.max INT_MIN (Z.min INT_MAX v) in
  match skip_spaces s with
  | c :: s' =>
      if (c =? "-")%char then clamp (- atoi_digits s' 0)
      else if (c =? "+")%char then clamp (atoi_digits s' 0)
      else clamp (atoi_digits (c :: s') 0)
  | [] => 0
  end.

(** Conversion of an [int] to [uint8_t]. *)
Definition to_uint8 (v : Z) : Z := v mod 256.

(* ================================================================= *)
(** ** cc1101_bridge_protocol.h *)

Definition MAX_BULK_REGISTERS : nat := 47.

Inductive CommandType :=
| CMD_UNKNOWN
| CMD_WRITE_REGISTER
| CMD_WRITE_BULK
| CMD_READ_REGISTER
| CMD_PING.

Inductive ErrorCode :=
| ERR_INVALID_JSON
| ERR_UNKNOWN_COMMAND
| ERR_INVALID_ADDRESS
| ERR_DEVICE_NOT_AVAILABLE
| ERR_WRITE_FAILED.

(** The enumerators' values. *)
Definition error_code (e : ErrorCode) : Z :=
  match e with
  | ERR_INVALID_JSON => 1
  | ERR_UNKNOWN_COMMAND => 2
  | ERR_INVALID_ADDRESS => 3
  | ERR_DEVICE_NOT_AVAILABLE => 4
  | ERR_WRITE_FAILED => 5
  end.

(** [RegisterPair]: the fields [addr] and [value]. *)
Record RegisterPair := mkPair {
  reg_addr : Z;
  reg_value : Z
}.

(** [Command].  The two counts are [uint8_t] in the source; they index the
    arrays and are [nat] here. *)
Record Command := mkCommand {
  type : CommandType;
  addr : Z;
  value : Z;
  bulk_regs : list RegisterPair;
  bulk_count : nat;
  pa_table : list Z;
  pa_table_count : nat
}.

Definition CommandType_eqb (a b : CommandType) : bool :=
  match a, b with
  | CMD_UNKNOWN, CMD_UNKNOWN
  | CMD_WRITE_REGISTER, CMD_WRITE_REGISTER
  | CMD_WRITE_BULK, CMD_WRITE_BULK
  | CMD_READ_REGISTER, CMD_READ_REGISTER
  | CMD_PING, CMD_PING => true
  | _, _ => false
  end.

(** Assignments to single fields. *)
Definition set_type (cmd : Command) (t : CommandType) : Command :=
  mkCommand t (addr cmd) (value cmd) (bulk_regs cmd) (bulk_count cmd)
            (pa_table cmd) (pa_table_count cmd).
Definition set_addr (cmd : Command) (a : Z) : Command :=
  mkCommand (type cmd) a (value cmd) (bulk_regs cmd) (bulk_count cmd)
            (pa_table cmd) (pa_table_count cmd).
Definition set_value (cmd : Command) (v : Z) : Command :=
  mkCommand (type cmd) (addr cmd) v (bulk_regs cmd) (bulk_count cmd)
            (pa_table cmd) (pa_table_count cmd).

(** [bulk_regs[bulk_count] = {a, v}; bulk_count++] *)
Definition push_bulk (cmd : Command) (a v : Z) : Command :=
  mkCommand (type cmd) (addr cmd) (value cmd)
            (<[bulk_count cmd := mkPair a v]> (bulk_regs cmd))
            (S (bulk_count cmd)) (pa_table cmd) (pa_table_count cmd).

(** [pa_table[pa_table_count++] = v] *)
Definition push_pa (cmd : Command) (v : Z) : Command :=
  mkCommand (type cmd) (addr cmd) (value cmd) (bulk_regs cmd) (bulk_count cmd)
            (<[pa_table_count cmd := v]> (pa_table cmd))
            (S (pa_table_count cmd)).

Definition set_pa_table_count (cmd : Command) (n : nat) : Command :=
  mkCommand (type cmd) (addr cmd) (value cmd) (bulk_regs cmd) (bulk_count cmd)
            (pa_table cmd) n.

(** [memset(cmd, 0, sizeof(Command))]: whatever [cmd] held is gone. *)
Definition memset_Command (cmd : Command) : Command :=
  mkCommand CMD_UNKNOWN 0 0 (repeat (mkPair 0 0) MAX_BULK_REGISTERS) 0
            (repeat 0 8) 0.

(* ================================================================= *)
(** ** cc1101_bridge_protocol.c: the command scanner *)

(** How a scan ends.  The scanner steps its pointer with [p++] in places
    where [*p] may already be the terminating NUL; the next [*p] then reads
    behind the string, memory that the line does not determine and that C
    gives no meaning to: [OverRead].  [OutOfFuel] is the loop bound of the
    embedding running out; it does not occur (lemma
    [protocol_parse_command_fuel]). *)
Inductive outcome (A : Type) :=
| Done (a : A)
| OverRead
| OutOfFuel.
Arguments Done {A} a.
Arguments OverRead {A}.
Arguments OutOfFuel {A}.

(** A literal in which the apostrophe stands for the double quote. *)
Definition jlit (s : string) : list ascii :=
  map (fun c => if (c =? "'")%char then DQUOTE else c) (lit s).

(** The loop that steps [value_start] over spaces and double quotes. *)
Fixpoint skip_space_quote (s : list ascii) : list ascii :=
  match s with
  | [] => []
  | c :: s' =>
      if ((c =? " ") || (c =? DQUOTE))%char then skip_space_quote s' else s
  end.

(** The loop that steps [p] up to the next colon or to the NUL. *)
Fixpoint skip_to_colon (p : list ascii) : list ascii :=
  match p with
  | [] => []
  | c :: p' => if (c =? ":")%char then p else skip_to_colon p'
  end.

(** The loop that steps [p] over a run of digits. *)
Fixpoint skip_digits (p : list ascii) : list ascii :=
  match p with
  | [] => []
  | c :: p' => if isdigit c then skip_digits p' else p
  end.

(** The loop over the [registers] object, entered with [p] behind its
    opening brace.  [skip_to_colon] stops at a colon or at the NUL: when
    what it returns is not empty, [*p] is the colon, the pair is stored,
    and [p2] is the text behind the colon.  Each of the two [OverRead]s is
    the final [p++] of the loop body taken at the NUL. *)
Fixpoint parse_registers (fuel : nat) (p : list ascii) (cmd : Command)
  : outcome Command :=
  match fuel with
  | O => OutOfFuel
  | S fuel' =>
      match p with
      | [] => Done cmd
      | c :: p1 =>
          if (c =? "}")%char then Done cmd
          else if (MAX_BULK_REGISTERS <=? bulk_count cmd)%nat then Done cmd
          else if (c =? DQUOTE)%char then
            let a := to_uint8 (atoi p1) in
            match skip_to_colon p1 with
            | _ :: p2 =>
                let v := to_uint8 (atoi p2) in
                match p2 with
                | [] => OverRead
                | _ :: p3 => parse_registers fuel' p3 (push_bulk cmd a v)
                end
            | [] => OverRead
            end
          else parse_registers fuel' p1 cmd
      end
  end.

(** The loop over the [pa_table] array, entered with [p] behind its
    opening bracket.  [OverRead] is the final [p++] of the loop body taken
    at the NUL, where a run of digits ends the string. *)
Fixpoint parse_pa_table (fuel : nat) (p : list ascii) (cmd : Command)
  : outcome Command :=
  match fuel with
  | O => OutOfFuel
  | S fuel' =>
      match p with
      | [] => Done cmd
      | c :: p1 =>
          if (c =? "]")%char then Done cmd
          else if (8 <=? pa_table_count cmd)%nat then Done cmd
          else if isdigit c then
            match skip_digits p with
            | [] => OverRead
            | _ :: p2 => parse_pa_table fuel' p2 (push_pa cmd (to_uint8 (atoi p)))
            end
          else parse_pa_table fuel' p1 cmd
      end
  end.

(** An integer field: [strstr] for the quoted key over the whole line,
    [strchr] for the colon, [atoi] behind it.  [None] when either search
    gives the null pointer. *)
Definition find_int (json key : list ascii) : option Z :=
  match strstr json key with
  | None => None
  | Some key_pos =>
      match strchr key_pos ":" with
      | None => None
      | Some val => Some (to_uint8 (atoi (tl val)))
      end
  end.

(** [protocol_parse_command(json, cmd)]: [cmd0] is what [*cmd] holds on
    entry; the result is the return value and [*cmd] on return. *)
Definition protocol_parse_command (json : list ascii) (cmd0 : Command)
  : outcome (bool * Command) :=
  let cmd := set_type (memset_Command cmd0) CMD_UNKNOWN in
  match strstr json (jlit "'cmd'") with
  | None => Done (false, cmd)
  | Some cmd_pos =>
  match strchr cmd_pos ":" with
  | None => Done (false, cmd)
  | Some colon =>
  let value_start := skip_space_quote (tl colon) in
  let returned (c : Command) :=
    Done (negb (CommandType_eqb (type c) CMD_UNKNOWN), c) in
  if strncmp value_start (lit "write_register") 14 =? 0 then
    let cmd := set_type cmd CMD_WRITE_REGISTER in
    let cmd := match find_int json (jlit "'addr'") with
               | Some a => set_addr cmd a
               | None => cmd
               end in
    let cmd := match find_int json (jlit "'value'") with
               | Some v => set_value cmd v
               | None => cmd
               end in
    returned cmd
  else if strncmp value_start (lit "write_bulk") 10 =? 0 then
    let cmd := set_type cmd CMD_WRITE_BULK in
    let regs :=
      match strstr json (jlit "'registers'") with
      | None => Done cmd
      | Some regs_pos =>
          match strchr regs_pos "{" with
          | None => Done cmd
          | Some regs_obj =>
              parse_registers (length regs_obj) (tl regs_obj) cmd
          end
      end in
    match regs with
    | Done cmd =>
        match strstr json (jlit "'pa_table'") with
        | None => returned cmd
        | Some pa_pos =>
            match strchr pa_pos "[" with
            | None => returned cmd
            | Some pa_arr =>
                match parse_pa_table (length pa_arr) (tl pa_arr)
                                     (set_pa_table_count cmd 0) with
                | Done cmd => returned cmd
                | OverRead => OverRead
                | OutOfFuel => OutOfFuel
                end
            end
        end
    | OverRead => OverRead
    | OutOfFuel => OutOfFuel
    end
  else if strncmp value_start (lit "read_register") 13 =? 0 then
    let cmd := set_type cmd CMD_READ_REGISTER in
    let cmd := match find_int json (jlit "'addr'") with
               | Some a => set_addr cmd a
               | None => cmd
               end in
    returned cmd
  else if strncmp value_start (lit "ping") 4 =? 0 then
    returned (set_type cmd CMD_PING)
  else returned cmd
  end
  end.

(* ================================================================= *)
(** ** cc1101_bridge_protocol.c: the response encoders *)

Definition digit_char (d : Z) : ascii := ascii_of_N (Z.to_N (48 + d)).

(** Upper-case hexadecimal digit. *)
Definition hex_char (d : Z) : ascii :=
  if d <? 10 then digit_char d else ascii_of_N (Z.to_N (65 + (d - 10))).

(** The digits of [n >= 0] in [base], most significant first, in front of
    [acc]; [fuel] bounds the number of digits. *)
Fixpoint fmt_digits (fuel : nat) (base : Z) (digit : Z -> ascii) (n : Z)
                    (acc : list ascii) : list ascii :=
  match fuel with
  | O => acc
  | S fuel' =>
      if n <? base then digit n :: acc
      else fmt_digits fuel' base digit (n / base) (digit (n mod base) :: acc)
  end.

(** The conversion [%u]. *)
Definition fmt_u (n : Z) : list ascii :=
  fmt_digits (S (Z.to_nat (Z.log2 n))) 10 digit_char n [].

(** The conversion [%d]. *)
Definition fmt_d (n : Z) : list ascii :=
  if n <? 0 then "-"%char :: fmt_u (- n) else fmt_u n.

(** The conversion [%02X]. *)
Definition fmt_02X (n : Z) : list ascii :=
  let s := fmt_digits (S (Z.to_nat (Z.log2 n))) 16 hex_char n [] in
  if (length s <? 2)%nat then "0"%char :: s else s.

(** [snprintf(buffer, size, ...)] keeps at most [size - 1] characters of
    the formatted text. *)
Definition snprintf (size : nat) (text : list ascii) : list ascii :=
  take (size - 1) text.

(** [protocol_generate_ack]: the response is set to the fixed line. *)
Definition protocol_generate_ack : list ascii :=
  jlit "{'type':'ack','success':true}".

(** [protocol_generate_error]: [buffer] has 256 characters. *)
Definition protocol_generate_error (code : ErrorCode) (msg : list ascii)
  : list ascii :=
  snprintf 256 (jlit "{'type':'error','code':" ++ fmt_d (error_code code)
                ++ jlit ",'msg':'" ++ msg ++ jlit "'}").

(** [protocol_generate_data]: [buffer] has 64 characters. *)
Definition protocol_generate_data (v : Z) : list ascii :=
  snprintf 64 (jlit "{'type':'data','value':" ++ fmt_u v ++ lit "}").

(* ================================================================= *)
(** ** The firmware HAL *)

(** The calls the application makes into the HAL, with their arguments.
    Functions that call the HAL return the calls they made, in order. *)
Inductive HalCall :=
| furi_hal_subghz_reset
| furi_hal_subghz_load_registers (data : list Z)
| furi_hal_subghz_load_patable (data : list Z)
| furi_hal_subghz_sleep
| furi_hal_cdc_send (data : list ascii).

(** [uart_send_response]: the text, then a line feed. *)
Definition uart_send_response (json : list ascii) : list HalCall :=
  [furi_hal_cdc_send json; furi_hal_cdc_send [LF]].

(* ================================================================= *)
(** ** cc1101_bridge_cc1101.c *)

Definition CC1101_MAX_REGISTER : Z := 46.
Definition PA_TABLE_SIZE : nat := 8.

Record Cc1101Context := mkCc1101 {
  initialized : bool
}.

Definition cc1101_init : bool * Cc1101Context * list HalCall :=
  (true, {| initialized := true |}, [furi_hal_subghz_reset]).

Definition cc1101_write_register (ctx : Cc1101Context) (a v : Z)
  : bool * list HalCall :=
  if negb (initialized ctx) then (false, [])
  else if CC1101_MAX_REGISTER <? a then (false, [])
  else (true, [furi_hal_subghz_load_registers [a; v; 0; 0]]).

(** The loop of [cc1101_write_bulk] over the pairs it is given: [reg_data]
    is the part of the array filled so far; [None] is the [return false]
    inside the loop. *)
Fixpoint bulk_reg_data (regs : list RegisterPair) (reg_data : list Z)
  : option (list Z) :=
  match regs with
  | [] => Some reg_data
  | r :: regs' =>
      if CC1101_MAX_REGISTER <? reg_addr r then None
      else bulk_reg_data regs' (reg_data ++ [reg_addr r; reg_value r])
  end.

(** [cc1101_write_bulk(ctx, regs, count)] reads [regs[0]] to
    [regs[count - 1]]; its caller passes an array of at least [count]
    pairs. *)
Definition cc1101_write_bulk (ctx : Cc1101Context) (regs : list RegisterPair)
                             (count : nat) : bool * list HalCall :=
  if negb (initialized ctx) then (false, [])
  else match bulk_reg_data (take count regs) [] with
       | None => (false, [])
       | Some reg_data =>
           (true, [furi_hal_subghz_load_registers (reg_data ++ [0; 0])])
       end.

(** The copy loop of [cc1101_write_patable], [n] iterations from index
    [i] on. *)
Fixpoint patable_copy (pa : list Z) (full_pa : list Z) (i n : nat) : list Z :=
  match n with
  | O => full_pa
  | S n' => patable_copy pa (<[i := nth i pa 0]> full_pa) (S i) n'
  end.

Definition cc1101_write_patable (ctx : Cc1101Context) (pa : list Z)
                                (count : nat) : bool * list HalCall :=
  if negb (initialized ctx) then (false, [])
  else
    let count := if (PA_TABLE_SIZE <? count)%nat then PA_TABLE_SIZE else count in
    let full_pa := patable_copy pa (repeat 0 8) 0 count in
    (true, [furi_hal_subghz_load_patable full_pa]).

(** No HAL call: every path returns 0. *)
Definition cc1101_read_register (ctx : Cc1101Context) (a : Z) : Z :=
  if negb (initialized ctx) then 0
  else if CC1101_MAX_REGISTER <? a then 0
  else 0.

(* ================================================================= *)
(** ** cc1101_bridge_app.c *)

(** [App], without the GUI handles.  [commands_processed] is a
    [uint32_t].  The [FURI_LOG] lines of the file write to the firmware
    log only and are left out. *)
Record App := mkApp {
  uart : UartContext;
  cc1101 : Cc1101Context;
  running : bool;
  commands_processed : Z;
  status_text : list ascii
}.

Definition set_status_text (app : App) (text : list ascii) : App :=
  mkApp (uart app) (cc1101 app) (running app) (commands_processed app) text.

(** [if(success) app->commands_processed++;] *)
Definition count_command (app : App) (success : bool) : App :=
  if success then
    mkApp (uart app) (cc1101 app) (running app)
          ((commands_processed app + 1) mod 2 ^ 32) (status_text app)
  else app.

(** The [switch] of [app_process_command] and what follows it: the
    command is carried out, the response sent and the command counted. *)
Definition app_execute (app : App) (cmd : Command) : App * list HalCall :=
  match type cmd with
  | CMD_WRITE_REGISTER =>
      let '(success, hal) := cc1101_write_register (cc1101 app) (addr cmd) (value cmd) in
      if success then
        let app := set_status_text app
          (snprintf 64 (lit "Wrote 0x" ++ fmt_02X (addr cmd) ++ lit "->0x"
                        ++ fmt_02X (value cmd))) in
        (count_command app true,
         hal ++ uart_send_response protocol_generate_ack)
      else
        (count_command app false,
         hal ++ uart_send_response
                  (protocol_generate_error ERR_WRITE_FAILED (lit "Write failed")))
  | CMD_WRITE_BULK =>
      let '(success, hal1) :=
        cc1101_write_bulk (cc1101 app) (bulk_regs cmd) (bulk_count cmd) in
      let '(success, hal2) :=
        if success && (0 <? pa_table_count cmd)%nat
        then cc1101_write_patable (cc1101 app) (pa_table cmd) (pa_table_count cmd)
        else (success, []) in
      if success then
        let app := set_status_text app
          (snprintf 64 (lit "Bulk: " ++ fmt_u (Z.of_nat (bulk_count cmd))
                        ++ lit " regs")) in
        (count_command app true,
         hal1 ++ hal2 ++ uart_send_response protocol_generate_ack)
      else
        (count_command app false,
         hal1 ++ hal2 ++ uart_send_response
           (protocol_generate_error ERR_WRITE_FAILED (lit "Bulk write failed")))
  | CMD_READ_REGISTER =>
      let reg_value := cc1101_read_register (cc1101 app) (addr cmd) in
      let app := set_status_text app
        (snprintf 64 (lit "Read 0x" ++ fmt_02X (addr cmd) ++ lit "=0x"
                      ++ fmt_02X reg_value)) in
      (count_command app true,
       uart_send_response (protocol_generate_data reg_value))
  | CMD_PING =>
      let app := set_status_text app (snprintf 64 (lit "Ping OK")) in
      (count_command app true, uart_send_response protocol_generate_ack)
  | CMD_UNKNOWN =>
      (count_command app false,
       uart_send_response
         (protocol_generate_error ERR_UNKNOWN_COMMAND (lit "Unknown command")))
  end.

(** [app_process_command(app, json_str)].  [cmd0] is the content of the
    uninitialised local [cmd]. *)
Definition app_process_command (app : App) (json_str : list ascii)
                               (cmd0 : Command) : outcome (App * list HalCall) :=
  match protocol_parse_command json_str cmd0 with
  | Done (false, _) =>
      Done (app, uart_send_response
                   (protocol_generate_error ERR_INVALID_JSON (lit "Invalid JSON")))
  | Done (true, cmd) => Done (app_execute app cmd)
  | OverRead => OverRead
  | OutOfFuel => OutOfFuel
  end.

(** The application as [cc1101_bridge_app] has set it up when its main
    loop starts; [mem] is the memory of the UART context. *)
Definition cc1101_bridge_app_start (mem : list ascii) : App :=
  {| uart := uart_init mem;
     cc1101 := snd (fst cc1101_init);
     running := true;
     commands_processed := 0;
     status_text := snprintf 64 (lit "Waiting for commands...") |}.

(** The text of the response among the HAL calls of a command: the
    argument of the last but one [furi_hal_cdc_send], the last being the
    line feed. *)
Definition response_of (hal : list HalCall) : option (list ascii) :=
  match rev hal with
  | furi_hal_cdc_send _ :: furi_hal_cdc_send json :: _ => Some json
  | _ => None
  end.

(* ================================================================= *)
(** ** cc1101_bridge_app.c: the main loop *)

Definition set_uart (app : App) (ctx : UartContext) : App :=
  mkApp ctx (cc1101 app) (running app) (commands_processed app) (status_text app).

(** The main loop of [cc1101_bridge_app], for the chunks [polls] that the
    successive calls of [furi_hal_cdc_receive] return.  The flag [running]
    is tested at the head of each round, and a round is entered only when
    it is set.  In a round, a line that completes is handed to
    [app_process_command], and the loop goes on with the next call of
    [uart_receive_line]; as in [uart_lines], a call that times out leaves
    the context to the next one.  The only code that clears the flag is
    [app_input_callback], on a press of the Back key that the view
    dispatcher hands to it: input is no part of the model, so that [polls]
    are the chunks of a stretch of the session without such a press, and
    the calls into the view dispatcher between two rounds are left out.  [cmd0] is the
    content of the local [cmd] at each call.  The result is the
    application behind the last round and the HAL calls of all the
    commands, in order. *)
Fixpoint cc1101_bridge_app_loop (app : App) (polls : list (list ascii))
                                (cmd0 : Command) : outcome (App * list HalCall) :=
  match polls with
  | [] => Done (app, [])
  | rx :: polls' =>
      if running app then
        match uart_scan (uart app) rx with
        | (ctx, Some line) =>
            match app_process_command (set_uart app ctx) line cmd0 with
            | Done (app', hal) =>
                match cc1101_bridge_app_loop app' polls' cmd0 with
                | Done (app'', hal') => Done (app'', hal ++ hal')
                | OverRead => OverRead
                | OutOfFuel => OutOfFuel
                end
            | OverRead => OverRead
            | OutOfFuel => OutOfFuel
            end
        | (ctx, None) => cc1101_bridge_app_loop (set_uart app ctx) polls' cmd0
        end
      else Done (app, [])
  end.

(* ================================================================= *)
(** * Notions used in the statements *)

(** ** The line reassembler *)

(** The accumulated part of the line buffer. *)
Definition live (ctx : UartContext) : list ascii :=
  take (line_pos ctx) (line_buffer ctx).

(** Text without CR and LF. *)
Definition no_line_end (s : list ascii) : Prop :=
  Forall (fun c => is_line_end c = false) s.

(** ** Commands *)

(** The range of a [uint8_t]. *)
Definition uint8 (v : Z) : Prop := 0 <= v < 256.

(** A [Command] as the scanner leaves it: both arrays at their declared
    sizes, the counts within them, every integer a [uint8_t]. *)
Definition Command_wf (cmd : Command) : Prop :=
  length (bulk_regs cmd) = MAX_BULK_REGISTERS
  /\ (bulk_count cmd <= MAX_BULK_REGISTERS)%nat
  /\ length (pa_table cmd) = 8%nat
  /\ (pa_table_count cmd <= 8)%nat
  /\ uint8 (addr cmd) /\ uint8 (value cmd)
  /\ Forall (fun r => uint8 (reg_addr r) /\ uint8 (reg_value r)) (bulk_regs cmd)
  /\ Forall uint8 (pa_table cmd).

(** The cleared command with a type and the two integer fields. *)
Definition blank_cmd (t : CommandType) (a v : Z) : Command :=
  mkCommand t a v (repeat (mkPair 0 0) 47) 0 (repeat 0 8) 0.

(** A register pair as it is stored: both integers as [uint8_t]. *)
Definition stored_pair (p : Z * Z) : RegisterPair :=
  mkPair (to_uint8 (fst p)) (to_uint8 (snd p)).

(** Storing pairs one after the other. *)
Definition push_pairs (cmd : Command) (pairs : list (Z * Z)) : Command :=
  fold_left (fun c p => push_bulk c (to_uint8 (fst p)) (to_uint8 (snd p)))
            pairs cmd.

(** Storing power-amplifier entries one after the other. *)
Definition push_pas (cmd : Command) (pa : list Z) : Command :=
  fold_left (fun c v => push_pa c (to_uint8 v)) pa cmd.

(** ** The command a line names *)

(** The four command words of the protocol. *)
Definition command_words : list (list ascii) :=
  [lit "write_register"; lit "write_bulk"; lit "read_register"; lit "ping"].

(** What the scanner skips in front of the command word. *)
Definition is_blank (c : ascii) : Prop := c = " "%char \/ c = DQUOTE.

(** [names_command json word], in the words of the protocol description:
    behind the first occurrence of the key label for the command comes a
    colon, and behind the first such colon, after spaces and double quotes
    only, the word. *)
Definition names_command (json word : list ascii) : Prop :=
  exists before between blanks rest,
    json = before ++ jlit "'cmd'" ++ between
           ++ (":"%char :: blanks ++ word ++ rest)
    /\ (forall b r, json = b ++ jlit "'cmd'" ++ r ->
                    (length before <= length b)%nat)
    /\ (":"%char ∉ between)
    /\ Forall is_blank blanks.

(** The command type that goes with the word the line names, or
    [CMD_UNKNOWN] when it names none of the four. *)
Definition command_named (json : list ascii) (t : CommandType) : Prop :=
  match t with
  | CMD_UNKNOWN =>
      forall word, word ∈ command_words -> ~ names_command json word
  | CMD_WRITE_REGISTER => names_command json (lit "write_register")
  | CMD_WRITE_BULK => names_command json (lit "write_bulk")
  | CMD_READ_REGISTER => names_command json (lit "read_register")
  | CMD_PING => names_command json (lit "ping")
  end.

(** ** Request lines in the shapes of the wire format *)

(** The characters [%d] prints. *)
Definition is_numchar (c : ascii) : Prop := isdigit c = true \/ c = "-"%char.

(** What follows a number in the line: the end, or no digit. *)
Definition ends_number (rest : list ascii) : Prop :=
  match rest with
  | [] => True
  | c :: _ => isdigit c = false
  end.

(** The integers of a request are printed in decimal. *)
Definition write_register_line (a v : Z) : list ascii :=
  jlit "{'cmd':'write_register','addr':" ++ fmt_d a
  ++ jlit ",'value':" ++ fmt_d v ++ lit "}".

Definition read_register_line (a : Z) : list ascii :=
  jlit "{'cmd':'read_register','addr':" ++ fmt_d a ++ lit "}".

(** One entry of a [registers] object, and the entries of an object,
    separated by commas. *)
Definition register_entry (p : Z * Z) : list ascii :=
  DQUOTE :: fmt_d (fst p) ++ DQUOTE :: ":"%char :: fmt_d (snd p).

Fixpoint register_entries (pairs : list (Z * Z)) : list ascii :=
  match pairs with
  | [] => []
  | p :: more =>
      register_entry p
      ++ match more with
         | [] => []
         | _ :: _ => ","%char :: register_entries more
         end
  end.

(** The entries of a [pa_table] array. *)
Fixpoint pa_entries (pa : list Z) : list ascii :=
  match pa with
  | [] => []
  | v :: more =>
      fmt_u v
      ++ match more with
         | [] => []
         | _ :: _ => ","%char :: pa_entries more
         end
  end.

Definition write_bulk_line (pairs : list (Z * Z)) (pa : list Z) : list ascii :=
  jlit "{'cmd':'write_bulk','registers':{" ++ register_entries pairs
  ++ jlit "},'pa_table':[" ++ pa_entries pa ++ lit "]}".

(** ** A state and requests to try the properties on *)

(** The application at the start of its main loop. *)
Definition app_example : App := cc1101_bridge_app_start (repeat NUL 1024).

(** A local [cmd] that still holds an earlier request. *)
Definition stale_cmd : Command :=
  mkCommand CMD_WRITE_BULK 7 9 (repeat (mkPair 5 5) 47) 3 (repeat 1 8) 2.

(** Fifty register pairs, several for each of ten addresses. *)
Definition fifty_pairs : list (Z * Z) :=
  map (fun i => (Z.of_nat (i mod 10), Z.of_nat i)) (seq 0 50).

(** ** Streams of lines *)

(** A line that holds at least one byte. *)
Definition nonempty (l : list ascii) : bool :=
  match l with
  | [] => false
  | _ :: _ => true
  end.

(** The chunks [polls] bring the bytes of [l] and then one line end, which
    closes the last chunk. *)
Definition brings_line (polls : list (list ascii)) (l : list ascii) : Prop :=
  exists e, is_line_end e = true /\ concat polls = l ++ [e].

(** What the reassembler makes of the bytes [s] between two line ends,
    from an empty accumulator: every full block of [LINE_BUFFER_SIZE] bytes
    is dropped, and what is left is delivered as a C string, if anything is
    left. *)
Definition kept_of (s : list ascii) : option (list ascii) :=
  if (length s mod LINE_BUFFER_SIZE =? 0)%nat then None
  else Some (c_str (drop (length s - length s mod LINE_BUFFER_SIZE) s)).

(** What holds of the context between any two bytes: the buffer has its
    declared size, the position is inside it, and no line end has been
    accumulated. *)
Definition uart_inv (ctx : UartContext) : Prop :=
  length (line_buffer ctx) = LINE_BUFFER_SIZE
  /\ (line_pos ctx < LINE_BUFFER_SIZE)%nat
  /\ no_line_end (live ctx).

(** A line as the reassembler may deliver it. *)
Definition delivered_line (line : list ascii) : Prop :=
  (length line < LINE_BUFFER_SIZE)%nat
  /\ Forall (fun c => is_line_end c = false /\ c <> NUL) line.

(** ** Numbers in a text *)

(** Text in which numbers stand between other characters: an item is the
    characters in front of a number, the number, and the character right
    behind it. *)
Fixpoint numbers_text (items : list (list ascii * Z * ascii)) : list ascii :=
  match items with
  | [] => []
  | (junk, v, sep) :: more => junk ++ fmt_u v ++ sep :: numbers_text more
  end.

(** Characters that the loop over the power-amplifier array steps over:
    neither a digit nor the closing bracket. *)
Definition pa_junk (s : list ascii) : Prop :=
  Forall (fun c => isdigit c = false /\ c <> "]"%char) s.

(** An item of [numbers_text] that the loop reads as the number [v]. *)
Definition pa_item (item : list ascii * Z * ascii) : Prop :=
  pa_junk (fst (fst item))
  /\ 0 <= snd (fst item) <= INT_MAX
  /\ isdigit (snd item) = false.

(** The write_bulk line with the array in front of the object. *)
Definition write_bulk_line_pa_first (pairs : list (Z * Z)) (pa : list Z)
  : list ascii :=
  jlit "{'cmd':'write_bulk','pa_table':[" ++ pa_entries pa
  ++ jlit "],'registers':{" ++ register_entries pairs ++ lit "}}".

(** ** Sessions *)

(** The texts handed to [furi_hal_cdc_send] among the calls [hal]. *)
Fixpoint cdc_sent (hal : list HalCall) : list (list ascii) :=
  match hal with
  | [] => []
  | furi_hal_cdc_send data :: hal' => data :: cdc_sent hal'
  | _ :: hal' => cdc_sent hal'
  end.

(** The lines [lines] handled one after the other by
    [app_process_command]. *)
Fixpoint process_lines (app : App) (lines : list (list ascii)) (cmd0 : Command)
  : outcome (App * list HalCall) :=
  match lines with
  | [] => Done (app, [])
  | line :: lines' =>
      match app_process_command app line cmd0 with
      | Done (app', hal) =>
          match process_lines app' lines' cmd0 with
          | Done (app'', hal') => Done (app'', hal ++ hal')
          | OverRead => OverRead
          | OutOfFuel => OutOfFuel
          end
      | OverRead => OverRead
      | OutOfFuel => OutOfFuel
      end
  end.

(** The response lines that report success. *)
Definition is_success (text : list ascii) : bool :=
  starts_with text (jlit "{'type':'ack'")
  || starts_with text (jlit "{'type':'data'").

(** The number of successful responses among the calls [hal]. *)
Definition successes (hal : list HalCall) : nat :=
  length (List.filter is_success (cdc_sent hal)).

(** Two upper-case hexadecimal digits. *)
Definition hex2 (n : Z) : list ascii := [hex_char (n / 16); hex_char (n mod 16)].

(** ** Further request lines *)

(** The write_register line with its members in the reverse order. *)
Definition write_register_line_reversed (a v : Z) : list ascii :=
  jlit "{'value':" ++ fmt_d v ++ jlit ",'addr':" ++ fmt_d a
  ++ jlit ",'cmd':'write_register'}".

(** The write_register line with its two numbers written as strings. *)
Definition write_register_line_quoted (a v : Z) : list ascii :=
  jlit "{'cmd':'write_register','addr':'" ++ fmt_d a
  ++ jlit "','value':'" ++ fmt_d v ++ jlit "'}".

(** The entries of a [pa_table] array printed with their signs. *)
Fixpoint pa_entries_signed (pa : list Z) : list ascii :=
  match pa with
  | [] => []
  | v :: more =>
      fmt_d v
      ++ match more with
         | [] => []
         | _ :: _ => ","%char :: pa_entries_signed more
         end
  end.

(** The write_bulk line with the entries of its array printed with their
    signs. *)
Definition write_bulk_line_signed (pairs : list (Z * Z)) (pa : list Z)
  : list ascii :=
  jlit "{'cmd':'write_bulk','registers':{" ++ register_entries pairs
  ++ jlit "},'pa_table':[" ++ pa_entries_signed pa ++ lit "]}".

(** The status text that goes with a command carried out with success
    (none goes with [CMD_UNKNOWN]). *)
Definition status_of (cmd : Command) : list ascii :=
  match type cmd with
  | CMD_WRITE_REGISTER =>
      lit "Wrote 0x" ++ hex2 (addr cmd) ++ lit "->0x" ++ hex2 (value cmd)
  | CMD_WRITE_BULK =>
      lit "Bulk: " ++ fmt_u (Z.of_nat (bulk_count cmd)) ++ lit " regs"
  | CMD_READ_REGISTER => lit "Read 0x" ++ hex2 (addr cmd) ++ lit "=0x00"
  | CMD_PING => lit "Ping OK"
  | CMD_UNKNOWN => []
  end.

(* ================================================================= *)
(** * Properties *)

(* ================================================================= *)
(** ** The line reassembler *)

Section LineReassembler.

Lemma c_str_app_nul (l rest : list ascii) :
  c_str (l ++ NUL :: rest) = c_str l.
Proof.
  induction l as [|c l IH]; simpl; [reflexivity|].
  destruct (c =? NUL)%char; [reflexivity|]. now rewrite IH.
Qed.

Lemma c_str_terminated (buf : list ascii) (pos : nat) :
  (pos < length buf)%nat ->
  c_str (<[pos := NUL]> buf) = c_str (take pos buf).
Proof.
  intros Hlt. rewrite insert_take_drop by exact Hlt.
  apply c_str_app_nul.
Qed.

Lemma uart_scan_app (s1 s2 : list ascii) : forall ctx,
  uart_scan ctx (s1 ++ s2) =
  match uart_scan ctx s1 with
  | (ctx1, None) => uart_scan ctx1 s2
  | done => done
  end.
Proof.
  induction s1 as [|c s1 IH]; intros ctx; simpl; [reflexivity|].
  destruct (is_line_end c).
  - destruct (0 <? line_pos ctx)%nat; [reflexivity | apply IH].
  - destruct (Nat.ltb (line_pos ctx) _); apply IH.
Qed.

Lemma uart_scan_fits (s : list ascii) : forall ctx,
  no_line_end s ->
  length (line_buffer ctx) = LINE_BUFFER_SIZE ->
  (line_pos ctx + length s <= LINE_BUFFER_SIZE - 1)%nat ->
  exists ctx', uart_scan ctx s = (ctx', None)
    /\ line_pos ctx' = (line_pos ctx + length s)%nat
    /\ live ctx' = live ctx ++ s
    /\ length (line_buffer ctx') = LINE_BUFFER_SIZE.
Proof.
  induction s as [|c s IH]; intros ctx Hs Hlen Hfit.
  - exists ctx. simpl. rewrite Nat.add_0_r, app_nil_r. auto.
  - inversion Hs as [|? ? Hc Hs']; subst. simpl in Hfit |- *. rewrite Hc.
    change (LINE_BUFFER_SIZE - 1)%nat with 1023%nat in *.
    destruct (Nat.ltb_spec (line_pos ctx) 1023) as [Hlt|Hge]; [|exfalso; lia].
    destruct (IH {| line_buffer := <[line_pos ctx := c]> (line_buffer ctx);
                    line_pos := S (line_pos ctx) |}) as (ctx' & E & Hp & Hl & Hn);
      simpl; try assumption; try lia.
    { now rewrite length_insert. }
    exists ctx'. split; [exact E|]. split; [simpl in Hp; lia|]. split; [|exact Hn].
    rewrite Hl. unfold live; simpl.
    assert (Hin : (line_pos ctx < length (line_buffer ctx))%nat)
      by (rewrite Hlen; unfold LINE_BUFFER_SIZE; lia).
    rewrite (take_S_r _ _ c) by (now apply list_lookup_insert_eq).
    rewrite take_insert_ge by lia. now rewrite <- app_assoc.
Qed.


Lemma uart_scan_block (s : list ascii) (ctx : UartContext) :
  no_line_end s ->
  length (line_buffer ctx) = LINE_BUFFER_SIZE ->
  line_pos ctx = 0%nat ->
  length s = LINE_BUFFER_SIZE ->
  exists ctx', uart_scan ctx s = (ctx', None)
    /\ line_pos ctx' = 0%nat
    /\ length (line_buffer ctx') = LINE_BUFFER_SIZE.
Proof.
  intros Hs Hlen Hpos Hn.
  rewrite <- (take_drop 1023 s), uart_scan_app.
  destruct (uart_scan_fits (take 1023 s) ctx) as (ctx1 & E1 & Hp1 & _ & Hn1);
    [now apply Forall_take | exact Hlen | | ].
  { rewrite length_take, Hpos, Hn. unfold LINE_BUFFER_SIZE. lia. }
  rewrite E1.
  assert (Hd : length (drop 1023 s) = 1%nat)
    by (rewrite length_drop, Hn; unfold LINE_BUFFER_SIZE; lia).
  assert (Hs' : no_line_end (drop 1023 s)) by now apply Forall_drop.
  destruct (drop 1023 s) as [|c [|? ?]]; try discriminate.
  inversion Hs' as [|? ? Hc _]; subst. simpl. rewrite Hc.
  rewrite length_take, Hpos, Hn in Hp1.
  destruct (Nat.ltb_spec (line_pos ctx1) 1023) as [Hlt|_].
  { exfalso. unfold LINE_BUFFER_SIZE in *. lia. }
  eexists. split; [reflexivity|]. split; [reflexivity | exact Hn1].
Qed.

(** Scanning text without a line end from an empty accumulator drops
    it in blocks of [LINE_BUFFER_SIZE] and keeps the rest. *)
Lemma uart_scan_wraps (n : nat) : forall (s : list ascii) (ctx : UartContext),
  (length s < LINE_BUFFER_SIZE * S n)%nat ->
  no_line_end s ->
  length (line_buffer ctx) = LINE_BUFFER_SIZE ->
  line_pos ctx = 0%nat ->
  exists ctx', uart_scan ctx s = (ctx', None)
    /\ line_pos ctx' = (length s mod LINE_BUFFER_SIZE)%nat
    /\ live ctx' = drop (length s - length s mod LINE_BUFFER_SIZE) s
    /\ length (line_buffer ctx') = LINE_BUFFER_SIZE.
Proof.
  induction n as [|n IH]; intros s ctx Hn Hs Hlen Hpos.
  - destruct (uart_scan_fits s ctx) as (ctx' & E & Hp & Hl & Hb); try assumption.
    { unfold LINE_BUFFER_SIZE in *. lia. }
    exists ctx'. rewrite Nat.mod_small by lia.
    rewrite Nat.sub_diag, drop_0, Hp, Hl, Hpos. unfold live. rewrite Hpos.
    auto.
  - destruct (Nat.lt_ge_cases (length s) LINE_BUFFER_SIZE) as [Hlt|Hge].
    { apply (IH s ctx); try assumption. unfold LINE_BUFFER_SIZE in *. lia. }
    destruct (uart_scan_block (take LINE_BUFFER_SIZE s) ctx)
      as (ctx1 & E1 & Hp1 & Hb1); try assumption.
    { now apply Forall_take. }
    { rewrite length_take. lia. }
    destruct (IH (drop LINE_BUFFER_SIZE s) ctx1) as (ctx' & E & Hp & Hl & Hb);
      try assumption.
    { rewrite length_drop. unfold LINE_BUFFER_SIZE in *. lia. }
    { now apply Forall_drop. }
    rewrite length_drop in Hp, Hl.
    assert (Hm : ((length s - LINE_BUFFER_SIZE) mod LINE_BUFFER_SIZE
                  = length s mod LINE_BUFFER_SIZE)%nat).
    { unfold LINE_BUFFER_SIZE in *.
      pose proof (Nat.div_mod_eq (length s) 1024).
      pose proof (Nat.div_mod_eq (length s - 1024) 1024).
      pose proof (Nat.mod_upper_bound (length s) 1024).
      pose proof (Nat.mod_upper_bound (length s - 1024) 1024). lia. }
    exists ctx'. split.
    { rewrite <- (take_drop LINE_BUFFER_SIZE s), uart_scan_app, E1. exact E. }
    rewrite Hp, Hl, Hm, drop_drop.
    split; [reflexivity|]. split; [|exact Hb]. f_equal.
    unfold LINE_BUFFER_SIZE in *.
    pose proof (Nat.div_mod_eq (length s) 1024).
    pose proof (Nat.mod_upper_bound (length s) 1024). lia.
Qed.

(** A final line end delivers the accumulated text, if there is any. *)
Lemma uart_scan_line_end (ctx : UartContext) (e : ascii) :
  is_line_end e = true ->
  length (line_buffer ctx) = LINE_BUFFER_SIZE ->
  (line_pos ctx < LINE_BUFFER_SIZE)%nat ->
  uart_scan ctx [e] =
  if (0 <? line_pos ctx)%nat
  then ({| line_buffer := <[line_pos ctx := NUL]> (line_buffer ctx);
           line_pos := 0 |}, Some (c_str (live ctx)))
  else (ctx, None).
Proof.
  intros He Hlen Hpos. simpl. rewrite He.
  destruct (0 <? line_pos ctx)%nat; [|reflexivity].
  rewrite c_str_terminated by (rewrite Hlen; exact Hpos). reflexivity.
Qed.

Lemma uart_scan_no_line_end (s : list ascii) : forall ctx,
  no_line_end s -> snd (uart_scan ctx s) = None.
Proof.
  induction s as [|c s IH]; intros ctx Hs; [reflexivity|].
  inversion Hs as [|? ? Hc Hs']; subst. simpl. rewrite Hc.
  destruct (Nat.ltb (line_pos ctx) _); now apply IH.
Qed.

(** Polls that bring no byte change nothing. *)
Lemma uart_receive_line_idle (polls : list (list ascii)) (ctx : UartContext) :
  concat polls = [] ->
  uart_lines ctx polls = [] /\ uart_receive_line ctx polls = (ctx, None, []).
Proof.
  induction polls as [|rx polls IH]; intros Hc; [now split|].
  simpl in Hc. apply app_eq_nil in Hc as [-> Hc]. simpl. now apply IH.
Qed.

(** A call that times out leaves the context for the next call: the lines
    of the main loop do not depend on where the timeouts fall. *)
Lemma uart_lines_resume (polls1 polls2 : list (list ascii)) : forall ctx ctx',
  uart_receive_line ctx polls1 = (ctx', None, []) ->
  uart_lines ctx (polls1 ++ polls2) = uart_lines ctx' polls2.
Proof.
  induction polls1 as [|rx polls1 IH]; intros ctx ctx' H; simpl in *.
  - now inversion H.
  - destruct (uart_scan ctx rx) as [ctx1 [line|]]; [discriminate|].
    now apply IH.
Qed.

Lemma uart_lines_receive (polls : list (list ascii)) : forall ctx ctx' line rest,
  uart_receive_line ctx polls = (ctx', Some line, rest) ->
  uart_lines ctx polls = line :: uart_lines ctx' rest.
Proof.
  induction polls as [|rx polls IH]; intros ctx ctx' line rest H; simpl in *.
  - discriminate.
  - destruct (uart_scan ctx rx) as [ctx1 [l|]].
    + now inversion H.
    + now apply IH.
Qed.

(** When the only line end of the stream is its last byte, the polls
    deliver what one scan of the whole stream delivers, however the
    transport cuts the stream into chunks. *)
Lemma uart_receive_line_chunks (polls : list (list ascii)) :
  forall (ctx : UartContext) (s : list ascii) (e : ascii),
  concat polls = s ++ [e] ->
  no_line_end s ->
  exists rest, concat rest = []
    /\ uart_receive_line ctx polls =
       (fst (uart_scan ctx (s ++ [e])), snd (uart_scan ctx (s ++ [e])), rest)
    /\ uart_lines ctx polls =
       match snd (uart_scan ctx (s ++ [e])) with
       | Some line => [line]
       | None => []
       end.
Proof.
  induction polls as [|rx polls IH]; intros ctx s e Hc Hs.
  - destruct s; discriminate.
  - simpl in Hc. apply app_eq_app in Hc as [l [[-> Hl] | [-> Hl]]].
    + (* the chunk reaches to the line end or stops in front of it *)
      destruct l as [|e' l].
      * simpl in Hl. rewrite app_nil_r. simpl.
        pose proof (uart_scan_no_line_end s ctx Hs) as Hn.
        destruct (IH (fst (uart_scan ctx s)) [] e) as (rest & Hr & Hrl & Hul);
          [now rewrite <- Hl | constructor |].
        exists rest. rewrite uart_scan_app.
        destruct (uart_scan ctx s) as [ctx1 [line|]]; [discriminate|].
        simpl in *. auto.
      * simpl in Hl. inversion Hl as [[He Hnil]]. subst e'.
        symmetry in Hnil. apply app_eq_nil in Hnil as [-> Hnil].
        destruct (uart_receive_line_idle polls
                    (fst (uart_scan ctx (s ++ [e]))) Hnil) as [Hul Hrl].
        simpl. destruct (uart_scan ctx (s ++ [e])) as [ctx1 [line|]]; simpl in *.
        -- exists polls. rewrite Hul. auto.
        -- exists []. rewrite Hul, Hrl. auto.
    + apply Forall_app in Hs as [Hrx Hl'].
      pose proof (uart_scan_no_line_end rx ctx Hrx) as Hn.
      destruct (IH (fst (uart_scan ctx rx)) l e Hl Hl') as (rest & Hr & Hrl & Hul).
      exists rest. rewrite <- app_assoc, uart_scan_app. simpl.
      destruct (uart_scan ctx rx) as [ctx1 [line|]]; [discriminate|].
      simpl in *. auto.
Qed.

(** C1 (as amended).  From an empty accumulator, 2000 bytes without a
    line end followed by a command line of at most 47 bytes and a CR or LF
    deliver exactly one line, whatever the chunks in which the bytes
    arrive: the last 976 of the 2000 bytes followed by the command line (as
    a C string, so cut at a NUL).  The first 1024 bytes are gone, and the
    call that returns the line leaves the accumulator empty. *)
Theorem C1_overlong_line_keeps_its_tail
    (mem garbage line : list ascii) (e : ascii) (polls : list (list ascii)) :
  length mem = LINE_BUFFER_SIZE ->
  length garbage = 2000%nat ->
  (length line <= 47)%nat ->
  no_line_end (garbage ++ line) ->
  is_line_end e = true ->
  concat polls = garbage ++ line ++ [e] ->
  uart_lines (uart_init mem) polls = [c_str (drop 1024 garbage ++ line)]
  /\ exists ctx' rest,
       uart_receive_line (uart_init mem) polls
       = (ctx', Some (c_str (drop 1024 garbage ++ line)), rest)
       /\ line_pos ctx' = 0%nat /\ concat rest = [].
Proof.
  intros Hmem Hg Hl Hs He Hc. rewrite app_assoc in Hc.
  destruct (uart_receive_line_chunks polls (uart_init mem) _ _ Hc Hs)
    as (rest & Hr & Hrl & Hul).
  destruct (uart_scan_wraps 1 (garbage ++ line) (uart_init mem))
    as (ctx1 & E & Hp & Hlv & Hb); try assumption; try reflexivity.
  { rewrite length_app, Hg. unfold LINE_BUFFER_SIZE. lia. }
  assert (Hm : (length (garbage ++ line) mod LINE_BUFFER_SIZE
                = 976 + length line)%nat).
  { rewrite length_app, Hg. unfold LINE_BUFFER_SIZE.
    symmetry. apply (Nat.mod_unique _ _ 1); lia. }
  rewrite Hm in Hp, Hlv.
  assert (Hd : drop (length (garbage ++ line) - (976 + length line))
                    (garbage ++ line) = drop 1024 garbage ++ line).
  { rewrite length_app, Hg.
    replace (2000 + length line - (976 + length line))%nat with 1024%nat by lia.
    rewrite drop_app_le by lia. reflexivity. }
  rewrite Hd in Hlv.
  assert (Hscan : uart_scan (uart_init mem) ((garbage ++ line) ++ [e])
                  = ({| line_buffer := <[line_pos ctx1 := NUL]> (line_buffer ctx1);
                        line_pos := 0 |},
                     Some (c_str (drop 1024 garbage ++ line)))).
  { rewrite uart_scan_app, E, uart_scan_line_end; try assumption.
    - destruct (Nat.ltb_spec 0 (line_pos ctx1)); [now rewrite Hlv | lia].
    - unfold LINE_BUFFER_SIZE. lia. }
  rewrite Hscan in Hrl, Hul. simpl in Hrl, Hul.
  split; [exact Hul|]. eexists _, rest. split; [exact Hrl|]. now split.
Qed.

(** The theorem at work: 2000 letters in chunks of 500, then a ping. *)
Lemma C1_overlong_line_keeps_its_tail_witness :
  uart_lines (uart_init (repeat NUL 1024))
    [repeat "A"%char 500; repeat "A"%char 500; repeat "A"%char 500;
     repeat "A"%char 500; jlit "{'cmd':'ping'}" ++ [LF]]
  = [c_str (drop 1024 (repeat "A"%char 2000) ++ jlit "{'cmd':'ping'}")].
Proof.
  apply (C1_overlong_line_keeps_its_tail (repeat NUL 1024)
           (repeat "A"%char 2000) (jlit "{'cmd':'ping'}") LF).
  - reflexivity.
  - reflexivity.
  - vm_compute. lia.
  - apply Forall_app. split.
    + apply Forall_forall. intros c Hc.
      apply list_elem_of_In, repeat_spec in Hc. now subst.
    + repeat constructor.
  - reflexivity.
  - vm_compute. reflexivity.
Defined.

(** C1 as the specification words it fails: the line that arrives is not
    the command line, it carries 976 of the bytes sent in front of it. *)
Lemma C1_counterexample :
  let garbage := repeat "A"%char 2000 in
  let line := jlit "{'cmd':'ping'}" in
  let polls := [take 500 garbage; take 500 (drop 500 garbage);
                take 500 (drop 1000 garbage); drop 1500 garbage; line ++ [LF]] in
  concat polls = garbage ++ line ++ [LF]
  /\ uart_lines (uart_init (repeat NUL 1024)) polls
     = [repeat "A"%char 976 ++ line]
  /\ uart_lines (uart_init (repeat NUL 1024)) polls <> [line].
Proof.
  vm_compute. repeat split. discriminate.
Qed.

End LineReassembler.

(* ================================================================= *)
(** ** The C library functions *)

Section CLibrary.

Lemma starts_with_spec (t : list ascii) : forall s,
  starts_with s t = true <-> exists r, s = t ++ r.
Proof.
  induction t as [|b t IH]; intros s; simpl.
  - split; [intros _; now exists s | reflexivity].
  - destruct s as [|a s].
    + split; [discriminate | intros [r Hr]; discriminate].
    + rewrite andb_true_iff, Ascii.eqb_eq, IH. split.
      * intros [-> [r ->]]. eauto.
      * intros [r [= -> ->]]. eauto.
Qed.

Lemma strstr_Some (n : list ascii) (h : list ascii) : forall s,
  strstr h n = Some s ->
  exists b r, h = b ++ s /\ s = n ++ r
    /\ forall b' r', h = b' ++ n ++ r' -> (length b <= length b')%nat.
Proof.
  induction h as [|c h IH]; intros s; simpl.
  - destruct (starts_with [] n) eqn:E; [|discriminate].
    intros [= <-]. apply starts_with_spec in E as [r Hr].
    exists [], r. repeat split; auto. intros; simpl; lia.
  - destruct (starts_with (c :: h) n) eqn:E.
    + intros [= <-]. apply starts_with_spec in E as [r Hr].
      exists [], r. repeat split; auto. intros; simpl; lia.
    + intros H. destruct (IH _ H) as (b & r & -> & -> & Hmin).
      exists (c :: b), r. repeat split; auto.
      intros b' r' Hb'. destruct b' as [|c' b'].
      * simpl in Hb'. assert (starts_with (c :: b ++ n ++ r) n = true)
          by (apply starts_with_spec; eauto). congruence.
      * simpl in Hb'. injection Hb' as -> Hb'. simpl.
        specialize (Hmin _ _ Hb'). lia.
Qed.

Lemma strstr_None (n : list ascii) (h : list ascii) :
  strstr h n = None -> forall b r, h <> b ++ n ++ r.
Proof.
  induction h as [|c h IH]; simpl.
  - destruct (starts_with [] n) eqn:E; [discriminate|]. intros _ b r Hb.
    assert (starts_with [] n = true); [|congruence].
    apply starts_with_spec. destruct b; [eauto | discriminate].
  - destruct (starts_with (c :: h) n) eqn:E; [discriminate|].
    intros H b r Hb. destruct b as [|c' b].
    + assert (starts_with (c :: h) n = true); [|congruence].
      apply starts_with_spec. eauto.
    + injection Hb as -> Hb. exact (IH H _ _ Hb).
Qed.

(** [strstr] returns the first occurrence. *)
Lemma strstr_first (n b r : list ascii) :
  (forall b' r', b ++ n ++ r = b' ++ n ++ r' -> (length b <= length b')%nat) ->
  strstr (b ++ n ++ r) n = Some (n ++ r).
Proof.
  intros Hmin. destruct (strstr (b ++ n ++ r) n) as [s|] eqn:E.
  - apply strstr_Some in E as (b0 & r0 & Hh & -> & Hmin0).
    pose proof (Hmin _ _ Hh) as H1. pose proof (Hmin0 _ _ eq_refl) as H2.
    apply app_inj_1 in Hh as [_ ->]; [reflexivity | lia].
  - exfalso. exact (strstr_None _ _ E _ _ eq_refl).
Qed.

Lemma strchr_Some (c : ascii) (s : list ascii) : forall r,
  strchr s c = Some r ->
  exists b r', s = b ++ c :: r' /\ r = c :: r' /\ c ∉ b.
Proof.
  induction s as [|a s IH]; intros r; simpl; [discriminate|].
  destruct (Ascii.eqb_spec a c) as [->|Hne].
  - intros [= <-]. exists [], s. repeat split. apply not_elem_of_nil.
  - intros H. destruct (IH _ H) as (b & r' & -> & -> & Hb).
    exists (a :: b), r'. repeat split. apply not_elem_of_cons. auto.
Qed.

Lemma strchr_app (c : ascii) (b r : list ascii) :
  c ∉ b -> strchr (b ++ c :: r) c = Some (c :: r).
Proof.
  induction b as [|a b IH]; intros Hb; simpl.
  - now rewrite Ascii.eqb_refl.
  - apply not_elem_of_cons in Hb as [Hne Hb].
    destruct (Ascii.eqb_spec a c); [congruence | auto].
Qed.

Lemma strchr_None (c : ascii) (s : list ascii) :
  strchr s c = None -> c ∉ s.
Proof.
  induction s as [|a s IH]; simpl; [intros _; apply not_elem_of_nil|].
  destruct (Ascii.eqb_spec a c) as [->|Hne]; [discriminate|].
  intros H. apply not_elem_of_cons. auto.
Qed.

Lemma char_code_inj (a b : ascii) : char_code a = char_code b -> a = b.
Proof.
  unfold char_code. intros H. apply N2Z.inj in H.
  rewrite <- (ascii_N_embedding a), <- (ascii_N_embedding b). now rewrite H.
Qed.

(** Over the length of a word without NUL, [strncmp] gives 0 exactly for
    the strings that start with the word. *)
Lemma strncmp_starts_with (t : list ascii) : forall s,
  Forall (fun c => c <> NUL) t ->
  (strncmp s t (length t) =? 0) = starts_with s t.
Proof.
  induction t as [|b t IH]; intros s Ht; [reflexivity|].
  inversion Ht as [|? ? Hb Ht']; subst. simpl.
  destruct s as [|a s].
  - apply Z.eqb_neq. intros H. apply Hb, char_code_inj.
    change (char_code NUL) with 0. lia.
  - destruct (Ascii.eqb_spec a b) as [->|Hne]; [now apply IH|].
    apply Z.eqb_neq. intros H. apply Hne, char_code_inj. lia.
Qed.

Lemma skip_space_quote_spec (s : list ascii) :
  exists blanks, s = blanks ++ skip_space_quote s /\ Forall is_blank blanks.
Proof.
  induction s as [|c s (blanks & IH & Hb)]; [exists []; auto|].
  simpl. destruct (Ascii.eqb_spec c " ") as [->|H1].
  - exists (" "%char :: blanks). simpl. rewrite <- IH. split; [reflexivity|].
    constructor; [now left | assumption].
  - destruct (Ascii.eqb_spec c DQUOTE) as [->|H2]; simpl.
    + exists (DQUOTE :: blanks). simpl. rewrite <- IH. split; [reflexivity|].
      constructor; [now right | assumption].
    + exists []. auto.
Qed.

Lemma skip_space_quote_app (blanks s : list ascii) :
  Forall is_blank blanks -> skip_space_quote (blanks ++ s) = skip_space_quote s.
Proof.
  induction 1 as [|c blanks [->| ->] _ IH]; simpl; auto.
Qed.

End CLibrary.

(* ================================================================= *)
(** ** The command scanner *)

Section Scanner.

Lemma to_uint8_range (v : Z) : uint8 (to_uint8 v).
Proof. unfold uint8, to_uint8. apply Z.mod_pos_bound. lia. Qed.

Lemma skip_to_colon_length (p : list ascii) :
  (length (skip_to_colon p) <= length p)%nat.
Proof.
  induction p as [|c p IH]; simpl; [lia|].
  destruct (c =? ":")%char; simpl; lia.
Qed.

Lemma skip_digits_length (p : list ascii) :
  (length (skip_digits p) <= length p)%nat.
Proof.
  induction p as [|c p IH]; simpl; [lia|].
  destruct (isdigit c); simpl; lia.
Qed.

Lemma parse_registers_fuel (fuel : nat) : forall p cmd,
  (length p < fuel)%nat -> parse_registers fuel p cmd <> OutOfFuel.
Proof.
  induction fuel as [|fuel IH]; intros p cmd Hf; [lia|].
  cbn [parse_registers]. destruct p as [|c p1]; [discriminate|].
  destruct (c =? "}")%char; [discriminate|].
  destruct (MAX_BULK_REGISTERS <=? bulk_count cmd)%nat; [discriminate|].
  simpl in Hf.
  destruct (c =? DQUOTE)%char; [|apply IH; lia].
  pose proof (skip_to_colon_length p1) as Hs.
  destruct (skip_to_colon p1) as [|c2 [|c3 p3]]; try discriminate.
  apply IH. simpl in Hs. lia.
Qed.

Lemma parse_pa_table_fuel (fuel : nat) : forall p cmd,
  (length p < fuel)%nat -> parse_pa_table fuel p cmd <> OutOfFuel.
Proof.
  induction fuel as [|fuel IH]; intros p cmd Hf; [lia|].
  cbn [parse_pa_table skip_digits]. destruct p as [|c p1]; [discriminate|].
  destruct (c =? "]")%char; [discriminate|].
  destruct (8 <=? pa_table_count cmd)%nat; [discriminate|].
  simpl in Hf.
  destruct (isdigit c) eqn:Hd; [|apply IH; lia].
  cbn [skip_digits]. rewrite Hd.
  pose proof (skip_digits_length p1) as Hs.
  destruct (skip_digits p1) as [|c2 p2]; try discriminate.
  apply IH. simpl in Hs. lia.
Qed.

Lemma strchr_length (s : list ascii) (c : ascii) (r : list ascii) :
  strchr s c = Some r -> exists r', r = c :: r' /\ (length r <= length s)%nat.
Proof.
  induction s as [|a s IH]; simpl; [discriminate|].
  destruct (Ascii.eqb_spec a c) as [->|_].
  - intros [= <-]. eauto.
  - intros H. destruct (IH H) as (r' & -> & Hl). exists r'. split; [reflexivity|].
    simpl in *. lia.
Qed.

(** The loop bound of the embedding is never reached. *)
Lemma protocol_parse_command_fuel (json : list ascii) (cmd0 : Command) :
  protocol_parse_command json cmd0 <> OutOfFuel.
Proof.
  unfold protocol_parse_command.
  destruct (strstr json (jlit "'cmd'")) as [cmd_pos|]; [|discriminate].
  destruct (strchr cmd_pos ":") as [colon|]; [|discriminate].
  destruct (_ =? 0); [discriminate|].
  destruct (_ =? 0).
  - set (cmd := set_type _ CMD_WRITE_BULK).
    assert (Hregs : match strstr json (jlit "'registers'") with
      | None => Done cmd
      | Some regs_pos =>
          match strchr regs_pos "{" with
          | None => Done cmd
          | Some regs_obj =>
              parse_registers (length regs_obj) (tl regs_obj) cmd
          end
      end <> OutOfFuel).
    { destruct (strstr json (jlit "'registers'")) as [regs_pos|]; [|discriminate].
      destruct (strchr regs_pos "{") as [regs_obj|] eqn:E; [|discriminate].
      apply strchr_length in E as (r' & -> & _). apply parse_registers_fuel.
      simpl. lia. }
    destruct (match strstr json (jlit "'registers'") with None => _ | _ => _ end)
      as [cmd1| |]; [|discriminate|congruence].
    destruct (strstr json (jlit "'pa_table'")) as [pa_pos|]; [|discriminate].
    destruct (strchr pa_pos "[") as [pa_arr|] eqn:E; [|discriminate].
    apply strchr_length in E as (r' & -> & _).
    pose proof (parse_pa_table_fuel (length ("["%char :: r')) (tl ("["%char :: r'))
                  (set_pa_table_count cmd1 0)) as Hpa.
    destruct (parse_pa_table _ _ _); try discriminate.
    exfalso. apply Hpa; [simpl; lia | reflexivity].
  - destruct (_ =? 0); [discriminate|].
    destruct (_ =? 0); discriminate.
Qed.


Lemma memset_Command_wf (cmd0 : Command) : Command_wf (memset_Command cmd0).
Proof.
  unfold Command_wf, uint8; simpl. repeat apply conj; try lia.
  all: repeat constructor; simpl; lia.
Qed.

Lemma push_bulk_wf (cmd : Command) (a v : Z) :
  Command_wf cmd -> (bulk_count cmd < MAX_BULK_REGISTERS)%nat ->
  uint8 a -> uint8 v -> Command_wf (push_bulk cmd a v).
Proof.
  intros (H1 & H2 & H3 & H4 & H5 & H6 & H7 & H8) Hlt Ha Hv.
  unfold Command_wf; simpl. rewrite length_insert.
  repeat apply conj; try assumption; try apply H5; try apply H6; try lia.
  apply Forall_insert; [assumption | now split].
Qed.

Lemma push_pa_wf (cmd : Command) (v : Z) :
  Command_wf cmd -> (pa_table_count cmd < 8)%nat ->
  uint8 v -> Command_wf (push_pa cmd v).
Proof.
  intros (H1 & H2 & H3 & H4 & H5 & H6 & H7 & H8) Hlt Hv.
  unfold Command_wf; simpl. rewrite length_insert.
  repeat apply conj; try assumption; try apply H5; try apply H6; try lia.
  now apply Forall_insert.
Qed.

(** The registers loop keeps the command well formed and touches nothing
    but the bulk registers. *)
Lemma parse_registers_inv (fuel : nat) : forall p cmd cmd',
  parse_registers fuel p cmd = Done cmd' ->
  Command_wf cmd ->
  Command_wf cmd' /\ type cmd' = type cmd /\ addr cmd' = addr cmd
  /\ value cmd' = value cmd /\ pa_table cmd' = pa_table cmd
  /\ pa_table_count cmd' = pa_table_count cmd.
Proof.
  induction fuel as [|fuel IH]; intros p cmd cmd' H Hwf; [discriminate|].
  cbn [parse_registers] in H. destruct p as [|c p1]; [now inversion H; subst|].
  destruct (c =? "}")%char; [now inversion H; subst|].
  destruct (Nat.leb_spec MAX_BULK_REGISTERS (bulk_count cmd));
    [now inversion H; subst|].
  destruct (c =? DQUOTE)%char; [|now apply IH with p1].
  destruct (skip_to_colon p1) as [|c2 [|c3 p3]]; try discriminate.
  apply IH in H.
  - simpl in H. exact H.
  - apply push_bulk_wf; auto using to_uint8_range.
Qed.

(** The power-amplifier loop keeps the command well formed and touches
    nothing but the power-amplifier table. *)
Lemma parse_pa_table_inv (fuel : nat) : forall p cmd cmd',
  parse_pa_table fuel p cmd = Done cmd' ->
  Command_wf cmd ->
  Command_wf cmd' /\ type cmd' = type cmd /\ addr cmd' = addr cmd
  /\ value cmd' = value cmd /\ bulk_regs cmd' = bulk_regs cmd
  /\ bulk_count cmd' = bulk_count cmd.
Proof.
  induction fuel as [|fuel IH]; intros p cmd cmd' H Hwf; [discriminate|].
  cbn [parse_pa_table] in H. destruct p as [|c p1]; [now inversion H; subst|].
  destruct (c =? "]")%char; [now inversion H; subst|].
  destruct (Nat.leb_spec 8 (pa_table_count cmd)); [now inversion H; subst|].
  destruct (isdigit c); [|now apply IH with p1].
  destruct (skip_digits (c :: p1)) as [|c2 p2]; try discriminate.
  apply IH in H.
  - simpl in H. exact H.
  - apply push_pa_wf; auto using to_uint8_range.
Qed.

Lemma find_int_range (json key : list ascii) (v : Z) :
  find_int json key = Some v -> uint8 v.
Proof.
  unfold find_int. destruct (strstr json key); [|discriminate].
  destruct (strchr _ _); [|discriminate].
  intros [= <-]. apply to_uint8_range.
Qed.


Lemma set_addr_wf cmd a : Command_wf cmd -> uint8 a -> Command_wf (set_addr cmd a).
Proof.
  intros (H1 & H2 & H3 & H4 & H5 & H6 & H7 & H8) Ha.
  unfold Command_wf; simpl. auto 10.
Qed.

Lemma set_value_wf cmd v : Command_wf cmd -> uint8 v -> Command_wf (set_value cmd v).
Proof.
  intros (H1 & H2 & H3 & H4 & H5 & H6 & H7 & H8) Ha.
  unfold Command_wf; simpl. auto 10.
Qed.

(** What a returning parse hands back: a well-formed command, success
    exactly for a known type, and the two integer fields as the searches
    for their keys leave them. *)
Lemma protocol_parse_command_Done (json : list ascii) (cmd0 : Command)
                                  (ok : bool) (cmd : Command) :
  protocol_parse_command json cmd0 = Done (ok, cmd) ->
  Command_wf cmd
  /\ ok = negb (CommandType_eqb (type cmd) CMD_UNKNOWN)
  /\ addr cmd = match type cmd with
                | CMD_WRITE_REGISTER | CMD_READ_REGISTER =>
                    default 0 (find_int json (jlit "'addr'"))
                | _ => 0
                end
  /\ value cmd = match type cmd with
                 | CMD_WRITE_REGISTER =>
                     default 0 (find_int json (jlit "'value'"))
                 | _ => 0
                 end.
Proof.
  unfold protocol_parse_command.
  pose proof (memset_Command_wf cmd0) as Hz.
  destruct (strstr json (jlit "'cmd'")) as [cmd_pos|];
    [|intros [= <- <-]; auto].
  destruct (strchr cmd_pos ":") as [colon|]; [|intros [= <- <-]; auto].
  destruct (_ =? 0).
  { intros [= <- <-].
    destruct (find_int json (jlit "'addr'")) as [a|] eqn:Ea;
      destruct (find_int json (jlit "'value'")) as [v|] eqn:Ev; simpl;
      (split; [|auto]).
    - apply set_value_wf; [apply set_addr_wf|]; eauto using find_int_range.
    - apply set_addr_wf; eauto using find_int_range.
    - apply set_value_wf; eauto using find_int_range.
    - exact Hz. }
  destruct (_ =? 0).
  { set (cmd1 := set_type _ CMD_WRITE_BULK).
    assert (Hwf1 : Command_wf cmd1) by exact Hz.
    destruct (match strstr json (jlit "'registers'") with None => _ | _ => _ end)
      as [cmd2| |] eqn:Eregs; try discriminate.
    assert (H2 : Command_wf cmd2 /\ type cmd2 = CMD_WRITE_BULK
                 /\ addr cmd2 = 0 /\ value cmd2 = 0).
    { destruct (strstr json (jlit "'registers'")) as [regs_pos|];
        [|inversion Eregs; subst; auto].
      destruct (strchr regs_pos "{") as [regs_obj|];
        [|inversion Eregs; subst; auto].
      apply parse_registers_inv in Eregs as (W & T & A & V & _); auto. }
    destruct H2 as (Hwf2 & T2 & A2 & V2).
    assert (Hret : forall c, Command_wf c -> type c = CMD_WRITE_BULK ->
                     addr c = 0 -> value c = 0 ->
                     Done (negb (CommandType_eqb (type c) CMD_UNKNOWN), c)
                     = Done (ok, cmd) ->
                     Command_wf cmd
                     /\ ok = negb (CommandType_eqb (type cmd) CMD_UNKNOWN)
                     /\ addr cmd = match type cmd with
                                   | CMD_WRITE_REGISTER | CMD_READ_REGISTER =>
                                       default 0 (find_int json (jlit "'addr'"))
                                   | _ => 0
                                   end
                     /\ value cmd = match type cmd with
                                    | CMD_WRITE_REGISTER =>
                                        default 0 (find_int json (jlit "'value'"))
                                    | _ => 0
                                    end).
    { intros c W T A V [= <- <-]. rewrite T. auto. }
    destruct (strstr json (jlit "'pa_table'")) as [pa_pos|]; [|now apply Hret].
    destruct (strchr pa_pos "[") as [pa_arr|]; [|now apply Hret].
    destruct (parse_pa_table _ _ _) as [cmd3| |] eqn:Epa; try discriminate.
    apply parse_pa_table_inv in Epa as (W & T & A & V & _).
    - apply Hret; simpl in *; congruence.
    - destruct Hwf2 as (H1 & H2 & H3 & H4 & H5 & H6 & H7 & H8).
      unfold Command_wf; simpl. repeat apply conj; auto; try apply H5;
        try apply H6; lia. }
  destruct (_ =? 0).
  { intros [= <- <-].
    destruct (find_int json (jlit "'addr'")) as [a|] eqn:Ea; simpl;
      (split; [|auto]).
    - apply set_addr_wf; eauto using find_int_range.
    - exact Hz. }
  destruct (_ =? 0); intros [= <- <-]; simpl; auto.
Qed.

Lemma marker_no_colon : ":"%char ∉ jlit "'cmd'".
Proof.
  intros H. vm_compute in H.
  repeat (apply elem_of_cons in H as [H|H]; [discriminate|]).
  now apply elem_of_nil in H.
Qed.

(** What the scanner finds is a command word named in the line. *)
Lemma command_word_named (json cmd_pos colon word : list ascii) :
  strstr json (jlit "'cmd'") = Some cmd_pos ->
  strchr cmd_pos ":" = Some colon ->
  starts_with (skip_space_quote (tl colon)) word = true ->
  names_command json word.
Proof.
  intros Hs Hc Hw.
  apply strstr_Some in Hs as (before & r & -> & -> & Hmin).
  apply strchr_Some in Hc as (b1 & r' & Hb1 & -> & Hno).
  simpl in Hw. apply starts_with_spec in Hw as [rest Hrest].
  destruct (skip_space_quote_spec r') as (blanks & Hr' & Hblanks).
  rewrite Hrest in Hr'.
  apply app_eq_app in Hb1 as [l [[Hm Hl] | [-> ->]]].
  - destruct l as [|c l].
    + simpl in Hl. rewrite app_nil_r in Hm. subst b1 r.
      exists before, [], blanks, rest. subst r'. repeat split; auto.
      apply not_elem_of_nil.
    + exfalso. injection Hl as <- _. apply marker_no_colon. rewrite Hm.
      apply elem_of_app. right. apply elem_of_cons. now left.
  - exists before, l, blanks, rest. subst r'. repeat split; auto.
    intros Hl. apply Hno, elem_of_app. now right.
Qed.

(** A command word named in the line is where the scanner arrives. *)
Lemma names_command_scanned (json word : list ascii) :
  names_command json word ->
  exists cmd_pos colon rest,
    strstr json (jlit "'cmd'") = Some cmd_pos
    /\ strchr cmd_pos ":" = Some colon
    /\ skip_space_quote (tl colon) = skip_space_quote (word ++ rest).
Proof.
  intros (before & between & blanks & rest & -> & Hmin & Hno & Hblanks).
  eexists _, _, rest. split; [apply strstr_first, Hmin|]. split.
  - rewrite app_assoc. apply strchr_app.
    intros H. apply elem_of_app in H as [H|H]; [now apply marker_no_colon | auto].
  - simpl. now apply skip_space_quote_app.
Qed.


Lemma strncmp_word (s : list ascii) (word : string) (n : nat) :
  n = length (lit word) ->
  Forall (fun c => c <> NUL) (lit word) ->
  (strncmp s (lit word) n =? 0) = starts_with s (lit word).
Proof. intros ->. apply strncmp_starts_with. Qed.

(** The scanner takes the line for the command it names: the type of the
    command it returns goes with the word named, and only a write_bulk
    line can make it read behind the string. *)
Lemma protocol_parse_command_named (json : list ascii) (cmd0 : Command) :
  match protocol_parse_command json cmd0 with
  | Done (_, cmd) => command_named json (type cmd)
  | OverRead => names_command json (lit "write_bulk")
  | OutOfFuel => False
  end.
Proof.
  pose proof (protocol_parse_command_fuel json cmd0) as Hfuel.
  pose proof (memset_Command_wf cmd0) as Hz.
  unfold protocol_parse_command in *.
  destruct (strstr json (jlit "'cmd'")) as [cmd_pos|] eqn:Es.
  2:{ intros word _ Hn.
      apply names_command_scanned in Hn as (? & ? & ? & Hs & _). congruence. }
  destruct (strchr cmd_pos ":") as [colon|] eqn:Ec.
  2:{ intros word _ Hn.
      apply names_command_scanned in Hn as (? & ? & ? & Hs & Hc & _). congruence. }
  rewrite !strncmp_word in * by (try reflexivity; repeat constructor; discriminate).
  set (value_start := skip_space_quote (tl colon)) in *.
  destruct (starts_with value_start (lit "write_register")) eqn:E1.
  { destruct (find_int json (jlit "'addr'")), (find_int json (jlit "'value'"));
      exact (command_word_named _ _ _ _ Es Ec E1). }
  destruct (starts_with value_start (lit "write_bulk")) eqn:E2.
  { pose proof (command_word_named _ _ _ _ Es Ec E2) as Hn.
    set (cmd1 := set_type _ CMD_WRITE_BULK) in *.
    destruct (match strstr json (jlit "'registers'") with None => _ | _ => _ end)
      as [cmd2| |] eqn:Eregs; [|exact Hn|congruence].
    assert (T2 : Command_wf cmd2 /\ type cmd2 = CMD_WRITE_BULK).
    { destruct (strstr json (jlit "'registers'")) as [regs_pos|];
        [|inversion Eregs; subst; auto].
      destruct (strchr regs_pos "{") as [regs_obj|];
        [|inversion Eregs; subst; auto].
      apply parse_registers_inv in Eregs as (W & T & _); auto. }
    destruct T2 as [W2 T2].
    destruct (strstr json (jlit "'pa_table'")) as [pa_pos|];
      [|simpl; now rewrite T2].
    destruct (strchr pa_pos "[") as [pa_arr|]; [|simpl; now rewrite T2].
    destruct (parse_pa_table _ _ _) as [cmd3| |] eqn:Epa;
      [|exact Hn|congruence].
    apply parse_pa_table_inv in Epa as (_ & T & _).
    - simpl in T. simpl. now rewrite T, T2.
    - destruct W2 as (H1 & H2 & H3 & H4 & H5 & H6 & H7 & H8).
      unfold Command_wf; simpl. repeat apply conj; auto; try apply H5;
        try apply H6; lia. }
  destruct (starts_with value_start (lit "read_register")) eqn:E3.
  { destruct (find_int json (jlit "'addr'"));
      exact (command_word_named _ _ _ _ Es Ec E3). }
  destruct (starts_with value_start (lit "ping")) eqn:E4.
  { exact (command_word_named _ _ _ _ Es Ec E4). }
  intros word Hw Hn.
  apply names_command_scanned in Hn as (cmd_pos' & colon' & rest & Hs & Hc & Hv).
  rewrite Es in Hs. injection Hs as <-. rewrite Ec in Hc. injection Hc as <-.
  fold value_start in Hv.
  assert (Hword : skip_space_quote (word ++ rest) = word ++ rest
                  /\ (starts_with value_start word = true -> False)).
  { unfold command_words in Hw.
    repeat (apply elem_of_cons in Hw as [->|Hw]; [split; [reflexivity|congruence]|]).
    now apply elem_of_nil in Hw. }
  destruct Hword as [Hskip Hfalse]. apply Hfalse.
  rewrite Hv, Hskip. apply starts_with_spec. eauto.
Qed.


End Scanner.

(* ================================================================= *)
(** ** Command execution *)

Section Dispatch.

Lemma app_process_command_parsed app json cmd0 cmd :
  protocol_parse_command json cmd0 = Done (true, cmd) ->
  app_process_command app json cmd0 = Done (app_execute app cmd).
Proof. intros H. unfold app_process_command. now rewrite H. Qed.

Lemma bulk_reg_data_None (regs : list RegisterPair) : forall reg_data r,
  r ∈ regs -> CC1101_MAX_REGISTER < reg_addr r ->
  bulk_reg_data regs reg_data = None.
Proof.
  induction regs as [|r0 regs IH]; intros reg_data r Hin Hr.
  - inversion Hin.
  - simpl. destruct (Z.ltb_spec CC1101_MAX_REGISTER (reg_addr r0)); [reflexivity|].
    apply elem_of_cons in Hin as [->|Hin]; [lia|]. now apply IH with r.
Qed.


(** Execution of a write_register command on an initialised backend: one
    register load and the acknowledgment up to address 46, the error line
    with code 5 and no load beyond; the backend context stays as it is. *)
Lemma app_execute_write_register (app : App) (cmd : Command) :
  type cmd = CMD_WRITE_REGISTER ->
  initialized (cc1101 app) = true ->
  exists app',
    cc1101 app' = cc1101 app
    /\ app_execute app cmd =
       (app',
        if addr cmd <=? 46
        then [furi_hal_subghz_load_registers [addr cmd; value cmd; 0; 0]]
             ++ uart_send_response (jlit "{'type':'ack','success':true}")
        else uart_send_response
               (jlit "{'type':'error','code':5,'msg':'Write failed'}")).
Proof.
  intros Ht Hi.
  unfold app_execute, cc1101_write_register. rewrite Ht, Hi. simpl negb. cbv iota.
  unfold CC1101_MAX_REGISTER.
  destruct (Z.ltb_spec 46 (addr cmd)); destruct (Z.leb_spec (addr cmd) 46);
    try lia; eexists; (split; [|reflexivity]); reflexivity.
Qed.

(** A write_bulk command with an address beyond 46 among its pairs: the
    bulk write fails before its register load, the power table is not
    attempted, and the HAL sees nothing but the error line with code 5. *)
Lemma app_process_command_bulk_rejected
    (app : App) (json : list ascii) (cmd0 cmd : Command)
    (i : nat) (r : RegisterPair) :
  protocol_parse_command json cmd0 = Done (true, cmd) ->
  type cmd = CMD_WRITE_BULK ->
  (i < bulk_count cmd)%nat ->
  bulk_regs cmd !! i = Some r ->
  46 < reg_addr r ->
  cc1101_write_bulk (cc1101 app) (bulk_regs cmd) (bulk_count cmd) = (false, [])
  /\ app_process_command app json cmd0 =
     Done (app, uart_send_response
                  (jlit "{'type':'error','code':5,'msg':'Bulk write failed'}")).
Proof.
  intros Hp Ht Hi Hr Ha.
  assert (Hb : cc1101_write_bulk (cc1101 app) (bulk_regs cmd) (bulk_count cmd)
               = (false, [])).
  { unfold cc1101_write_bulk. destruct (negb _); [reflexivity|].
    rewrite (bulk_reg_data_None _ [] r); [reflexivity | | exact Ha].
    apply list_elem_of_lookup. exists i. now rewrite lookup_take_lt. }
  split; [exact Hb|].
  rewrite (app_process_command_parsed _ _ _ _ Hp).
  unfold app_execute. rewrite Ht, Hb. reflexivity.
Qed.

Lemma cc1101_read_register_zero (ctx : Cc1101Context) (a : Z) :
  cc1101_read_register ctx a = 0.
Proof. unfold cc1101_read_register. destruct (negb _); [reflexivity|]. now destruct (_ <? _). Qed.

(** Execution of a read_register command: the data line with value 0,
    and no other HAL call. *)
Lemma app_execute_read_register (app : App) (cmd : Command) :
  type cmd = CMD_READ_REGISTER ->
  exists app',
    app_execute app cmd
    = (app', uart_send_response (jlit "{'type':'data','value':0}")).
Proof.
  intros Ht. unfold app_execute. rewrite Ht, cc1101_read_register_zero.
  eexists. reflexivity.
Qed.

(** The copy loop fills the first [count] slots from the table and leaves
    the zeros behind them. *)
Lemma patable_copy_spec (pa : list Z) (n : nat) : forall i,
  length pa = 8%nat -> (i + n <= 8)%nat ->
  patable_copy pa (take i pa ++ repeat 0 (8 - i)) i n
  = take (i + n) pa ++ repeat 0 (8 - (i + n)).
Proof.
  induction n as [|n IH]; intros i Hlen Hin; simpl.
  - now rewrite Nat.add_0_r.
  - destruct (lookup_lt_is_Some_2 pa i) as [x Hx]; [lia|].
    rewrite (nth_lookup_Some _ _ _ _ Hx).
    assert (Hstep : <[i := x]> (take i pa ++ repeat 0 (8 - i))
                    = take (S i) pa ++ repeat 0 (8 - S i)).
    { rewrite insert_app_r_alt by (rewrite length_take; lia).
      rewrite length_take, Nat.min_l, Nat.sub_diag by lia.
      replace (8 - i)%nat with (S (8 - S i)) by lia. simpl.
      rewrite (take_S_r _ _ x Hx), <- app_assoc. reflexivity. }
    rewrite Hstep, IH by lia. now rewrite Nat.add_succ_r.
Qed.

Lemma cc1101_write_patable_spec (ctx : Cc1101Context) (pa : list Z) (count : nat) :
  initialized ctx = true -> length pa = 8%nat -> (count <= 8)%nat ->
  cc1101_write_patable ctx pa count
  = (true, [furi_hal_subghz_load_patable
              (take count pa ++ repeat 0 (8 - count))]).
Proof.
  intros Hi Hlen Hc. unfold cc1101_write_patable. rewrite Hi. simpl negb. cbv iota.
  unfold PA_TABLE_SIZE. destruct (Nat.ltb_spec 8 count); [lia|].
  pose proof (patable_copy_spec pa count 0 Hlen Hc) as Hcopy.
  change (take 0 pa ++ repeat 0 (8 - 0)) with (repeat 0 8) in Hcopy.
  cbv zeta. now rewrite Hcopy.
Qed.




Lemma response_of_send (hal : list HalCall) (json : list ascii) :
  response_of (hal ++ uart_send_response json) = Some json.
Proof.
  unfold response_of, uart_send_response. now rewrite rev_app_distr.
Qed.

(** The responses of command execution: the error line with code 2 only
    for [CMD_UNKNOWN]. *)
Lemma app_execute_response (app : App) (cmd : Command) :
  exists hal response,
    snd (app_execute app cmd) = hal ++ uart_send_response response
    /\ (response = jlit "{'type':'ack','success':true}"
        \/ response = jlit "{'type':'data','value':0}"
        \/ response = jlit "{'type':'error','code':5,'msg':'Write failed'}"
        \/ response = jlit "{'type':'error','code':5,'msg':'Bulk write failed'}"
        \/ (type cmd = CMD_UNKNOWN
            /\ response = jlit "{'type':'error','code':2,'msg':'Unknown command'}")).
Proof.
  unfold app_execute. destruct (type cmd).
  - eexists [], _. split; [reflexivity|]. do 4 right. now split.
  - destruct (cc1101_write_register _ _ _) as [[] hal]; simpl.
    + eexists hal, _. split; [reflexivity|]. now left.
    + eexists hal, _. split; [reflexivity|]. do 2 right. now left.
  - destruct (cc1101_write_bulk _ _ _) as [ok hal1].
    destruct (if ok && _ then _ else _) as [[] hal2]; simpl.
    + eexists (hal1 ++ hal2), _. rewrite <- app_assoc. split; [reflexivity|].
      now left.
    + eexists (hal1 ++ hal2), _. rewrite <- app_assoc. split; [reflexivity|].
      do 3 right. now left.
  - rewrite cc1101_read_register_zero. eexists [], _. split; [reflexivity|].
    right. now left.
  - eexists [], _. split; [reflexivity|]. now left.
Qed.

(** C5.  A line that names none of the four command words is answered by
    the error line with code 1 (ERR_INVALID_JSON).  The scanner reports
    success exactly for a command of known type, and failure exactly for
    a line that names no command word; so no line at all is answered by
    the error line with code 2 (ERR_UNKNOWN_COMMAND). *)
Theorem C5_unknown_command_unreachable
    (app : App) (json : list ascii) (cmd0 : Command) :
  ((forall word, word ∈ command_words -> ~ names_command json word) ->
   app_process_command app json cmd0 =
   Done (app, uart_send_response
                (jlit "{'type':'error','code':1,'msg':'Invalid JSON'}")))
  /\ (forall ok cmd,
        protocol_parse_command json cmd0 = Done (ok, cmd) ->
        (ok = true <-> type cmd <> CMD_UNKNOWN)
        /\ (ok = false <->
            forall word, word ∈ command_words -> ~ names_command json word))
  /\ (forall app' hal,
        app_process_command app json cmd0 = Done (app', hal) ->
        response_of hal
        <> Some (jlit "{'type':'error','code':2,'msg':'Unknown command'}")).
Proof.
  pose proof (protocol_parse_command_named json cmd0) as Hnamed.
  assert (Hwords : forall t, t <> CMD_UNKNOWN -> command_named json t ->
                     exists word, word ∈ command_words /\ names_command json word).
  { intros t Ht Hn. unfold command_words.
    destruct t; [congruence| | | |]; eexists; (split; [|exact Hn]);
      repeat first [apply list_elem_of_here | apply list_elem_of_further]. }
  assert (Hparse : forall ok cmd,
            protocol_parse_command json cmd0 = Done (ok, cmd) ->
            (ok = true <-> type cmd <> CMD_UNKNOWN)
            /\ (ok = false <->
                forall word, word ∈ command_words -> ~ names_command json word)).
  { intros ok cmd Hp. rewrite Hp in Hnamed.
    apply protocol_parse_command_Done in Hp as (_ & -> & _).
    destruct (type cmd) eqn:Et; simpl; split; split;
      try congruence; try discriminate; try (intros _; exact Hnamed);
      intros Hno; exfalso;
      (destruct (Hwords (type cmd)) as (word & Hw & Hn);
       [congruence | now rewrite Et | exact (Hno word Hw Hn)]). }
  split; [|split; [exact Hparse|]].
  - intros Hno. unfold app_process_command.
    destruct (protocol_parse_command json cmd0) as [[ok cmd]| |] eqn:Hp.
    + destruct (Hparse ok cmd eq_refl) as [_ [_ Hfalse]].
      now rewrite (Hfalse Hno).
    + exfalso. apply (Hno (lit "write_bulk")); [|exact Hnamed].
      unfold command_words.
      repeat first [apply list_elem_of_here | apply list_elem_of_further].
    + contradiction.
  - intros app' hal. unfold app_process_command.
    destruct (protocol_parse_command json cmd0) as [[[] cmd]| |] eqn:Hp;
      try discriminate.
    + intros [= Hexec]. destruct (Hparse true cmd eq_refl) as [[Ht _] _].
      destruct (app_execute_response app cmd) as (h & x & Hh & Hx).
      rewrite Hexec in Hh. simpl in Hh. rewrite Hh, response_of_send.
      intros [= ->].
      destruct Hx as [Hx|[Hx|[Hx|[Hx|[Hu _]]]]]; try discriminate Hx.
      now apply Ht.
    + intros [= _ <-]. discriminate.
Qed.

Lemma C5_unknown_command_unreachable_witness :
  app_process_command app_example (lit "not json at all") stale_cmd =
  Done (app_example,
        [furi_hal_cdc_send (jlit "{'type':'error','code':1,'msg':'Invalid JSON'}");
         furi_hal_cdc_send [LF]]).
Proof.
  apply (C5_unknown_command_unreachable app_example (lit "not json at all")
           stale_cmd).
  exact (protocol_parse_command_named (lit "not json at all") stale_cmd).
Defined.


End Dispatch.

(* ================================================================= *)
(** ** Decimal text: [%d] and [%u] against [atoi] *)

Section Decimal.

Lemma digit_char_spec (d : Z) :
  0 <= d <= 9 ->
  isdigit (digit_char d) = true /\ char_code (digit_char d) - 48 = d.
Proof.
  intros Hd.
  assert (H : d = 0 \/ d = 1 \/ d = 2 \/ d = 3 \/ d = 4 \/ d = 5 \/ d = 6
              \/ d = 7 \/ d = 8 \/ d = 9) by lia.
  repeat (destruct H as [->|H]; [now split|]). now subst.
Qed.

Lemma fmt_digits_app (fuel : nat) (base : Z) (digit : Z -> ascii) :
  forall n acc,
  fmt_digits fuel base digit n acc = fmt_digits fuel base digit n [] ++ acc.
Proof.
  induction fuel as [|fuel IH]; intros n acc; simpl; [reflexivity|].
  destruct (n <? base); [reflexivity|].
  rewrite IH, (IH _ [_]), <- app_assoc. reflexivity.
Qed.

(** Reading back the digits that [fmt_digits] wrote for [n]. *)
Lemma atoi_digits_fmt (fuel : nat) : forall n acc,
  0 <= n < 10 ^ Z.of_nat fuel ->
  exists e, 0 <= e /\ forall k,
    atoi_digits (fmt_digits fuel 10 digit_char n acc) k
    = atoi_digits acc (k * 10 ^ e + n).
Proof.
  induction fuel as [|fuel IH]; intros n acc Hn.
  - exists 0. split; [lia|]. intros k. simpl in *. f_equal. lia.
  - cbn [fmt_digits]. destruct (Z.ltb_spec n 10) as [Hlt|Hge].
    + exists 1. split; [lia|]. intros k. cbn [atoi_digits].
      destruct (digit_char_spec n) as [-> ->]; [lia|]. f_equal; lia.
    + assert (Hdiv : 0 <= n / 10 < 10 ^ Z.of_nat fuel).
      { rewrite Nat2Z.inj_succ, Z.pow_succ_r in Hn by lia.
        split; [apply Z.div_pos; lia|].
        apply Z.div_lt_upper_bound; lia. }
      destruct (IH (n / 10) (digit_char (n mod 10) :: acc) Hdiv) as (e & He & IHk).
      exists (e + 1). split; [lia|]. intros k. rewrite IHk. cbn [atoi_digits].
      destruct (digit_char_spec (n mod 10)) as [-> ->].
      { pose proof (Z.mod_pos_bound n 10). lia. }
      f_equal. rewrite Z.pow_add_r, Z.pow_1_r by lia.
      pose proof (Z.div_mod n 10). lia.
Qed.

Lemma fmt_u_fuel (n : Z) :
  0 <= n -> n < 10 ^ Z.of_nat (S (Z.to_nat (Z.log2 n))).
Proof.
  intros Hn. rewrite Nat2Z.inj_succ, Z2Nat.id by apply Z.log2_nonneg.
  destruct (Z.eq_dec n 0) as [->|Hne]; [reflexivity|].
  pose proof (Z.log2_spec n ltac:(lia)) as [_ Hlog].
  eapply Z.lt_le_trans; [exact Hlog|].
  apply Z.pow_le_mono_l. pose proof (Z.log2_nonneg n). lia.
Qed.

Lemma atoi_digits_end (rest : list ascii) (n : Z) :
  ends_number rest -> atoi_digits rest n = n.
Proof. destruct rest as [|c rest]; simpl; [reflexivity|]. now intros ->. Qed.

Lemma atoi_digits_fmt_u (n : Z) (rest : list ascii) :
  0 <= n -> ends_number rest -> atoi_digits (fmt_u n ++ rest) 0 = n.
Proof.
  intros Hn Hrest. unfold fmt_u. rewrite <- fmt_digits_app.
  destruct (atoi_digits_fmt _ n rest (conj Hn (fmt_u_fuel n Hn))) as (e & _ & Hk).
  rewrite Hk. simpl. now apply atoi_digits_end.
Qed.

(** The characters of a printed number: digits, behind a minus sign for a
    negative one. *)
Lemma fmt_digits_digits (fuel : nat) : forall n acc,
  0 <= n ->
  Forall (fun c => isdigit c = true) acc ->
  Forall (fun c => isdigit c = true) (fmt_digits fuel 10 digit_char n acc).
Proof.
  induction fuel as [|fuel IH]; intros n acc Hn Hacc; simpl; [assumption|].
  destruct (Z.ltb_spec n 10).
  - constructor; [|assumption]. apply digit_char_spec; lia.
  - apply IH; [apply Z.div_pos; lia|]. constructor; [|assumption].
    apply digit_char_spec. pose proof (Z.mod_pos_bound n 10). lia.
Qed.

Lemma fmt_u_digits (n : Z) :
  0 <= n ->
  exists d ds, fmt_u n = d :: ds /\ Forall (fun c => isdigit c = true) (d :: ds).
Proof.
  intros Hn. pose proof (fmt_digits_digits (S (Z.to_nat (Z.log2 n))) n [] Hn
                           (Forall_nil_2 _)) as Hall.
  fold (fmt_u n) in Hall. destruct (fmt_u n) as [|d ds] eqn:E; [|eauto].
  exfalso. unfold fmt_u in E. cbn [fmt_digits] in E.
  destruct (n <? 10); [discriminate|].
  rewrite fmt_digits_app in E. now destruct (fmt_digits _ _ _ _ []).
Qed.

(** [atoi] reads back what [%d] printed, for every [int]. *)
Lemma atoi_fmt_d (n : Z) (rest : list ascii) :
  INT_MIN <= n <= INT_MAX -> ends_number rest -> atoi (fmt_d n ++ rest) = n.
Proof.
  unfold INT_MIN, INT_MAX. intros Hn Hrest. unfold fmt_d, atoi.
  destruct (Z.ltb_spec n 0) as [Hneg|Hpos].
  - cbn [app skip_spaces]. change (isspace "-") with false. cbv iota.
    rewrite Ascii.eqb_refl, atoi_digits_fmt_u by (assumption || lia).
    unfold INT_MIN, INT_MAX. lia.
  - destruct (fmt_u_digits n Hpos) as (d & ds & E & Hall).
    pose proof (atoi_digits_fmt_u n rest Hpos Hrest) as Hread.
    rewrite E in *. apply Forall_cons in Hall as [Hd _].
    assert (Hsp : isspace d = false /\ (d =? "-")%char = false
                  /\ (d =? "+")%char = false).
    { unfold isdigit, isspace in *.
      apply andb_prop in Hd as [H1 H2].
      apply Z.leb_le in H1. apply Z.leb_le in H2.
      repeat split.
      - apply orb_false_intro; [apply Z.eqb_neq; lia|].
        apply andb_false_intro2. apply Z.leb_gt. lia.
      - apply Ascii.eqb_neq. intros ->. vm_compute in H1. now apply H1.
      - apply Ascii.eqb_neq. intros ->. vm_compute in H1. now apply H1. }
    destruct Hsp as (Hs1 & Hs2 & Hs3).
    cbn [app skip_spaces]. rewrite Hs1, Hs2, Hs3.
    change (d :: ds ++ rest) with ((d :: ds) ++ rest). rewrite Hread.
    unfold INT_MIN, INT_MAX. lia.
Qed.

End Decimal.

(* ================================================================= *)
(** ** Requests in the shapes of the wire format *)

Section WireFormat.

Lemma fmt_d_numchars (n : Z) :
  exists d ds, fmt_d n = d :: ds /\ Forall is_numchar (d :: ds).
Proof.
  unfold fmt_d. destruct (Z.ltb_spec n 0).
  - destruct (fmt_u_digits (- n)) as (d & ds & E & Hall); [lia|].
    eexists _, _. split; [reflexivity|]. constructor; [now right|].
    rewrite E. eapply Forall_impl; [exact Hall|]. now left.
  - destruct (fmt_u_digits n) as (d & ds & E & Hall); [lia|].
    exists d, ds. split; [exact E|].
    eapply Forall_impl; [exact Hall|]. now left.
Qed.

(** A character [%d] prints is none of the marks of the line. *)
Lemma is_numchar_plain (c : ascii) :
  is_numchar c ->
  c <> DQUOTE /\ c <> ":"%char /\ c <> "}"%char /\ c <> ","%char
  /\ c <> "p"%char.
Proof.
  intros [Hd| ->]; [|repeat split; discriminate].
  repeat split; intros ->; discriminate.
Qed.

Lemma strstr_skip_plain (k0 : ascii) (key s rest : list ascii) :
  Forall (fun c => c <> k0) s ->
  strstr (s ++ rest) (k0 :: key) = strstr rest (k0 :: key).
Proof.
  induction 1 as [|c s Hc _ IH]; [reflexivity|].
  cbn [app strstr starts_with].
  destruct (Ascii.eqb_spec c k0); [contradiction | exact IH].
Qed.

(** A line in the shape of a write_register request, whatever stands in
    the places of the two integers (no double quote in the first). *)
Lemma protocol_parse_command_write_register_shape
    (ta tv : list ascii) (cmd0 : Command) :
  Forall (fun c => c <> DQUOTE) ta ->
  protocol_parse_command
    (jlit "{'cmd':'write_register','addr':" ++ ta ++ jlit ",'value':"
     ++ tv ++ lit "}") cmd0
  = Done (true,
          blank_cmd CMD_WRITE_REGISTER
            (to_uint8 (atoi (ta ++ jlit ",'value':" ++ tv ++ lit "}")))
            (to_uint8 (atoi (tv ++ lit "}")))).
Proof.
  intros Hta. unfold protocol_parse_command, find_int.
  cbn -[atoi to_uint8].
  rewrite (strstr_skip_plain DQUOTE _ ta _ Hta).
  cbn -[atoi to_uint8]. reflexivity.
Qed.

(** The write_register line for [a] and [v] is scanned into the command
    with both integers reduced modulo 256. *)
Lemma protocol_parse_command_write_register (a v : Z) (cmd0 : Command) :
  INT_MIN <= a <= INT_MAX -> INT_MIN <= v <= INT_MAX ->
  protocol_parse_command (write_register_line a v) cmd0
  = Done (true, blank_cmd CMD_WRITE_REGISTER (a mod 256) (v mod 256)).
Proof.
  intros Ha Hv. unfold write_register_line.
  rewrite protocol_parse_command_write_register_shape.
  - rewrite (atoi_fmt_d a) by (assumption || reflexivity).
    rewrite (atoi_fmt_d v) by (assumption || reflexivity). reflexivity.
  - destruct (fmt_d_numchars a) as (d & ds & -> & Hall).
    eapply Forall_impl; [exact Hall|]. intros c Hc. now apply is_numchar_plain.
Qed.

Lemma protocol_parse_command_read_register (a : Z) (cmd0 : Command) :
  INT_MIN <= a <= INT_MAX ->
  protocol_parse_command (read_register_line a) cmd0
  = Done (true, blank_cmd CMD_READ_REGISTER (a mod 256) 0).
Proof.
  intros Ha. unfold read_register_line, protocol_parse_command, find_int.
  cbn -[atoi to_uint8 fmt_d].
  rewrite (atoi_fmt_d a) by (assumption || reflexivity). reflexivity.
Qed.

Lemma strstr_absent (h n : list ascii) :
  (forall b r, h <> b ++ n ++ r) -> strstr h n = None.
Proof.
  intros Habs. destruct (strstr h n) as [s|] eqn:E; [|reflexivity].
  apply strstr_Some in E as (b & r & -> & -> & _). now destruct (Habs b r).
Qed.

Lemma find_int_absent (json key : list ascii) :
  (forall b r, json <> b ++ key ++ r) -> find_int json key = None.
Proof. intros H. unfold find_int. now rewrite strstr_absent. Qed.

End WireFormat.

(* ================================================================= *)
(** ** write_register requests, end to end *)

Section WriteRegister.

(** An application whose backend is initialised, and the content of the
    local command on entry. *)
Variable app : App.
Variable cmd0 : Command.
Hypothesis app_initialized : initialized (cc1101 app) = true.

Lemma uint8_int (v : Z) : 0 <= v <= 255 -> INT_MIN <= v <= INT_MAX.
Proof. unfold INT_MIN, INT_MAX. lia. Qed.

(** The wire-format line, for an address and a value from 0 to 255, is
    scanned into the command with just these. *)
Lemma write_register_line_parsed (a v : Z) (c : Command) :
  0 <= a <= 255 -> 0 <= v <= 255 ->
  protocol_parse_command (write_register_line a v) c
  = Done (true, blank_cmd CMD_WRITE_REGISTER a v).
Proof.
  intros Ha Hv.
  rewrite protocol_parse_command_write_register by (apply uint8_int; lia).
  now rewrite !Z.mod_small by lia.
Qed.

(** Any line scanned as a write_register command. *)
Lemma app_process_command_write_register (json : list ascii) (cmd : Command) :
  protocol_parse_command json cmd0 = Done (true, cmd) ->
  type cmd = CMD_WRITE_REGISTER ->
  exists app',
    cc1101 app' = cc1101 app
    /\ app_process_command app json cmd0 =
       Done (app',
             if addr cmd <=? 46
             then [furi_hal_subghz_load_registers [addr cmd; value cmd; 0; 0]]
                  ++ uart_send_response (jlit "{'type':'ack','success':true}")
             else uart_send_response
                    (jlit "{'type':'error','code':5,'msg':'Write failed'}")).
Proof.
  intros Hp Ht. rewrite (app_process_command_parsed _ _ _ _ Hp).
  destruct (app_execute_write_register app cmd Ht app_initialized)
    as (app' & Hc & E).
  exists app'. now rewrite E.
Qed.

(** C2.  On an initialised backend a write_register command with an
    address of at most 46 is answered by the acknowledgment line, after
    the one register load; with an address beyond 46 nothing is loaded and
    the answer is the error line with code 5 (ERR_WRITE_FAILED, not code
    3).  This holds for whatever line the scanner takes for such a
    command, and the request lines of the wire format are such lines for
    every address and value from 0 to 255. *)
Theorem C2_write_register_ack_or_write_failed :
  (forall (json : list ascii) (cmd : Command),
     protocol_parse_command json cmd0 = Done (true, cmd) ->
     type cmd = CMD_WRITE_REGISTER ->
     exists app',
       app_process_command app json cmd0 =
       Done (app',
             if addr cmd <=? 46
             then [furi_hal_subghz_load_registers [addr cmd; value cmd; 0; 0]]
                  ++ uart_send_response (jlit "{'type':'ack','success':true}")
             else uart_send_response
                    (jlit "{'type':'error','code':5,'msg':'Write failed'}")))
  /\ (forall a v : Z,
        0 <= a <= 46 -> 0 <= v <= 255 ->
        exists app',
          app_process_command app (write_register_line a v) cmd0 =
          Done (app',
                [furi_hal_subghz_load_registers [a; v; 0; 0];
                 furi_hal_cdc_send (jlit "{'type':'ack','success':true}");
                 furi_hal_cdc_send [LF]]))
  /\ (forall a v : Z,
        46 < a <= 255 -> 0 <= v <= 255 ->
        exists app',
          app_process_command app (write_register_line a v) cmd0 =
          Done (app',
                [furi_hal_cdc_send
                   (jlit "{'type':'error','code':5,'msg':'Write failed'}");
                 furi_hal_cdc_send [LF]])).
Proof.
  split; [|split]; [intros json cmd Hp Ht | intros a v Ha Hv ..].
  - destruct (app_process_command_write_register json cmd Hp Ht)
      as (app' & _ & Happ).
    now exists app'.
  - destruct (app_process_command_write_register (write_register_line a v)
                (blank_cmd CMD_WRITE_REGISTER a v))
      as (app' & _ & Happ);
      [apply write_register_line_parsed; lia | reflexivity |].
    exists app'. rewrite Happ. cbn [addr value blank_cmd].
    destruct (Z.leb_spec a 46); [reflexivity | lia].
  - destruct (app_process_command_write_register (write_register_line a v)
                (blank_cmd CMD_WRITE_REGISTER a v))
      as (app' & _ & Happ);
      [apply write_register_line_parsed; lia | reflexivity |].
    exists app'. rewrite Happ. cbn [addr value blank_cmd].
    destruct (Z.leb_spec a 46); [lia | reflexivity].
Qed.

(** What the local command holds when the second request comes in. *)
Variable cmd0' : Command.

(** C10.  The same write_register line processed twice in a row on an
    initialised backend is answered by the acknowledgment both times, with
    the same HAL calls: the scanner clears the command before it fills it,
    so what the command held before (the previous request, or anything
    else) does not reach the result, and the first request leaves the
    backend as it found it.  The request lines of the wire format with an
    address from 0 to 46 are such lines. *)
Theorem C10_write_register_twice :
  (forall json : list ascii,
     protocol_parse_command json cmd0' = protocol_parse_command json cmd0)
  /\ (forall (json : list ascii) (cmd : Command),
        protocol_parse_command json cmd0 = Done (true, cmd) ->
        type cmd = CMD_WRITE_REGISTER ->
        0 <= addr cmd <= 46 ->
        exists app1 app2 hal,
          app_process_command app json cmd0 = Done (app1, hal)
          /\ app_process_command app1 json cmd0' = Done (app2, hal)
          /\ response_of hal = Some (jlit "{'type':'ack','success':true}"))
  /\ (forall a v : Z,
        0 <= a <= 46 -> 0 <= v <= 255 ->
        exists app1 app2,
          app_process_command app (write_register_line a v) cmd0 =
          Done (app1,
                [furi_hal_subghz_load_registers [a; v; 0; 0];
                 furi_hal_cdc_send (jlit "{'type':'ack','success':true}");
                 furi_hal_cdc_send [LF]])
          /\ app_process_command app1 (write_register_line a v) cmd0' =
             Done (app2,
                   [furi_hal_subghz_load_registers [a; v; 0; 0];
                    furi_hal_cdc_send (jlit "{'type':'ack','success':true}");
                    furi_hal_cdc_send [LF]])).
Proof.
  assert (Hpure : forall json,
            protocol_parse_command json cmd0'
            = protocol_parse_command json cmd0) by reflexivity.
  assert (Htwice : forall json cmd,
            protocol_parse_command json cmd0 = Done (true, cmd) ->
            type cmd = CMD_WRITE_REGISTER ->
            0 <= addr cmd <= 46 ->
            exists app1 app2,
              app_process_command app json cmd0
              = Done (app1, [furi_hal_subghz_load_registers
                               [addr cmd; value cmd; 0; 0]]
                            ++ uart_send_response
                                 (jlit "{'type':'ack','success':true}"))
              /\ app_process_command app1 json cmd0'
                 = Done (app2, [furi_hal_subghz_load_registers
                                  [addr cmd; value cmd; 0; 0]]
                               ++ uart_send_response
                                    (jlit "{'type':'ack','success':true}"))).
  { intros json cmd Hp Ht Ha.
    destruct (app_process_command_write_register json cmd Hp Ht)
      as (app1 & Hc1 & E1).
    destruct (app_execute_write_register app1 cmd Ht) as (app2 & _ & E2);
      [now rewrite Hc1|].
    exists app1, app2. rewrite E1. unfold app_process_command.
    rewrite Hpure, Hp, E2.
    destruct (Z.leb_spec (addr cmd) 46); [now split | lia]. }
  split; [exact Hpure|]. split.
  - intros json cmd Hp Ht Ha.
    destruct (Htwice json cmd Hp Ht Ha) as (app1 & app2 & H1 & H2).
    eexists app1, app2, _. split; [exact H1|]. split; [exact H2|].
    apply response_of_send.
  - intros a v Ha Hv.
    destruct (Htwice (write_register_line a v)
                (blank_cmd CMD_WRITE_REGISTER a v))
      as (app1 & app2 & H1 & H2);
      [apply write_register_line_parsed; lia | reflexivity
      | cbn [addr blank_cmd]; lia |].
    now exists app1, app2.
Qed.

End WriteRegister.

(** The two request lines of the protocol description: address 15 with
    value 200, and address 99. *)
Lemma C2_write_register_ack_or_write_failed_witness :
  (exists app',
     app_process_command app_example
       (jlit "{'cmd':'write_register','addr':15,'value':200}") stale_cmd =
     Done (app', [furi_hal_subghz_load_registers [15; 200; 0; 0];
                  furi_hal_cdc_send (jlit "{'type':'ack','success':true}");
                  furi_hal_cdc_send [LF]]))
  /\ (exists app',
        app_process_command app_example
          (jlit "{'cmd':'write_register','addr':99,'value':1}") stale_cmd =
        Done (app', [furi_hal_cdc_send
                       (jlit "{'type':'error','code':5,'msg':'Write failed'}");
                     furi_hal_cdc_send [LF]])).
Proof.
  destruct (C2_write_register_ack_or_write_failed app_example stale_cmd eq_refl)
    as (_ & Hack & Herr).
  split.
  - apply (Hack 15 200); lia.
  - apply (Herr 99 1); lia.
Defined.

(** Address 15 with value 200, twice; the second time the local command
    still holds the first request. *)
Lemma C10_write_register_twice_witness :
  exists app1 app2,
    app_process_command app_example
      (jlit "{'cmd':'write_register','addr':15,'value':200}") stale_cmd =
    Done (app1, [furi_hal_subghz_load_registers [15; 200; 0; 0];
                 furi_hal_cdc_send (jlit "{'type':'ack','success':true}");
                 furi_hal_cdc_send [LF]])
    /\ app_process_command app1
         (jlit "{'cmd':'write_register','addr':15,'value':200}")
         (blank_cmd CMD_WRITE_REGISTER 15 200) =
       Done (app2, [furi_hal_subghz_load_registers [15; 200; 0; 0];
                    furi_hal_cdc_send (jlit "{'type':'ack','success':true}");
                    furi_hal_cdc_send [LF]]).
Proof.
  destruct (C10_write_register_twice app_example stale_cmd eq_refl
              (blank_cmd CMD_WRITE_REGISTER 15 200)) as (_ & _ & Hline).
  apply (Hline 15 200); lia.
Defined.

(* ================================================================= *)
(** ** The loop over the registers object *)

Section RegistersLoop.

(** Any fuel beyond the length of the text gives the same result. *)
Lemma parse_registers_fuel_irrelevant (f1 : nat) : forall f2 p cmd,
  (length p < f1)%nat -> (length p < f2)%nat ->
  parse_registers f1 p cmd = parse_registers f2 p cmd.
Proof.
  induction f1 as [|f1 IH]; intros f2 p cmd H1 H2; [lia|].
  destruct f2 as [|f2]; [lia|]. cbn [parse_registers].
  destruct p as [|c p1]; [reflexivity|]. simpl in H1, H2.
  destruct (c =? "}")%char; [reflexivity|].
  destruct (MAX_BULK_REGISTERS <=? bulk_count cmd)%nat; [reflexivity|].
  destruct (c =? DQUOTE)%char; [|apply IH; lia].
  pose proof (skip_to_colon_length p1) as Hs.
  destruct (skip_to_colon p1) as [|c2 [|c3 p3]]; try reflexivity.
  simpl in Hs. apply IH; lia.
Qed.

Lemma parse_registers_full (f : nat) (p : list ascii) (cmd : Command) :
  (MAX_BULK_REGISTERS <= bulk_count cmd)%nat -> (0 < f)%nat ->
  parse_registers f p cmd = Done cmd.
Proof.
  intros Hfull Hf. destruct f as [|f]; [lia|]. cbn [parse_registers].
  destruct p as [|c p1]; [reflexivity|].
  destruct (c =? "}")%char; [reflexivity|].
  destruct (Nat.leb_spec MAX_BULK_REGISTERS (bulk_count cmd)); [reflexivity | lia].
Qed.

Lemma parse_registers_skip (f : nat) (c : ascii) (p : list ascii) (cmd : Command) :
  c <> "}"%char -> c <> DQUOTE ->
  (length (c :: p) < f)%nat ->
  parse_registers f (c :: p) cmd
  = if (MAX_BULK_REGISTERS <=? bulk_count cmd)%nat then Done cmd
    else parse_registers f p cmd.
Proof.
  intros H1 H2 Hf. destruct f as [|f]; [simpl in Hf; lia|].
  set (rhs := parse_registers (S f) p cmd). cbn [parse_registers].
  destruct (Ascii.eqb_spec c "}"); [contradiction|].
  destruct (MAX_BULK_REGISTERS <=? bulk_count cmd)%nat; [reflexivity|].
  destruct (Ascii.eqb_spec c DQUOTE); [contradiction|].
  simpl in Hf. apply parse_registers_fuel_irrelevant; lia.
Qed.

Lemma parse_registers_skip_number (ds : list ascii) :
  forall (f : nat) (p : list ascii) (cmd : Command),
  Forall is_numchar ds ->
  (length (ds ++ p) < f)%nat ->
  parse_registers f (ds ++ p) cmd
  = if (MAX_BULK_REGISTERS <=? bulk_count cmd)%nat
    then match ds with [] => parse_registers f p cmd | _ => Done cmd end
    else parse_registers f p cmd.
Proof.
  induction ds as [|d ds IH]; intros f p cmd Hds Hf.
  - now destruct (_ <=? _)%nat.
  - apply Forall_cons in Hds as [Hd Hds].
    destruct (is_numchar_plain d Hd) as (H1 & _ & H2 & _).
    cbn [app]. rewrite parse_registers_skip by assumption.
    destruct (Nat.leb_spec MAX_BULK_REGISTERS (bulk_count cmd)) as [Hfull|Hlt];
      [reflexivity|].
    rewrite IH by (assumption || (simpl in Hf; lia)).
    destruct (Nat.leb_spec MAX_BULK_REGISTERS (bulk_count cmd)); [lia|reflexivity].
Qed.

Lemma skip_to_colon_plain (s rest : list ascii) :
  Forall (fun c => c <> ":"%char) s ->
  skip_to_colon (s ++ rest) = skip_to_colon rest.
Proof.
  induction 1 as [|c s Hc _ IH]; [reflexivity|].
  cbn [app skip_to_colon]. destruct (Ascii.eqb_spec c ":"); [contradiction|exact IH].
Qed.

(** One entry of the object, followed by a comma or the closing brace:
    the pair is stored, reduced modulo 256, and the loop goes on at the
    separator (where it stops at once when the array is full). *)
Lemma parse_registers_entry (f : nat) (p : Z * Z) (sep : ascii)
                            (rest : list ascii) (cmd : Command) :
  INT_MIN <= fst p <= INT_MAX -> INT_MIN <= snd p <= INT_MAX ->
  sep = ","%char \/ sep = "}"%char ->
  (bulk_count cmd < MAX_BULK_REGISTERS)%nat ->
  (length (register_entry p ++ sep :: rest) < f)%nat ->
  parse_registers f (register_entry p ++ sep :: rest) cmd
  = parse_registers f (sep :: rest) (push_bulk cmd (to_uint8 (fst p)) (to_uint8 (snd p))).
Proof.
  intros Ha Hv Hsep Hcount Hf. destruct p as [a v]. simpl fst in *. simpl snd in *.
  assert (Hsepd : isdigit sep = false) by (destruct Hsep as [-> | ->]; reflexivity).
  unfold register_entry in *. simpl fst in *. simpl snd in *.
  destruct (fmt_d_numchars a) as (da & das & Ea & Hda).
  destruct (fmt_d_numchars v) as (dv & dvs & Ev & Hdv).
  destruct f as [|f]; [lia|].
  set (rhs := parse_registers (S f) (sep :: rest) _).
  cbn [app parse_registers]. change (DQUOTE =? "}")%char with false. cbv iota.
  destruct (Nat.leb_spec MAX_BULK_REGISTERS (bulk_count cmd)) as [|_]; [lia|].
  rewrite Ascii.eqb_refl. rewrite <- app_assoc. cbn [app].
  rewrite (atoi_fmt_d a) by (assumption || reflexivity).
  rewrite skip_to_colon_plain.
  2:{ rewrite Ea. eapply Forall_impl; [exact Hda|].
      intros c Hc. now apply is_numchar_plain. }
  cbn [skip_to_colon]. change (DQUOTE =? ":")%char with false. cbv iota.
  rewrite Ascii.eqb_refl.
  rewrite (atoi_fmt_d v) by (assumption || exact Hsepd).
  rewrite Ev. cbn [app].
  apply Forall_cons in Hdv as [_ Hdvs].
  assert (Hlen : (length (dvs ++ sep :: rest) < f)%nat).
  { rewrite Ev in Hf. simpl in Hf. rewrite !length_app in Hf. simpl in Hf.
    rewrite length_app in *. simpl. lia. }
  rewrite parse_registers_skip_number by assumption. subst rhs.
  set (cmd' := push_bulk cmd _ _).
  destruct (Nat.leb_spec MAX_BULK_REGISTERS (bulk_count cmd')) as [Hfull|Hlt].
  - rewrite (parse_registers_full (S f)) by (assumption || lia).
    destruct dvs; [apply parse_registers_full; (assumption || lia) | reflexivity].
  - apply parse_registers_fuel_irrelevant; [|simpl]; rewrite length_app in Hlen;
      simpl in *; lia.
Qed.

Lemma register_entries_cons (p : Z * Z) (more : list (Z * Z)) :
  register_entries (p :: more)
  = register_entry p ++ match more with
                        | [] => []
                        | _ :: _ => ","%char :: register_entries more
                        end.
Proof. reflexivity. Qed.

(** The loop over a whole object: the pairs are stored in the order of
    the text until the array is full. *)
Lemma parse_registers_entries (pairs : list (Z * Z)) :
  forall (f : nat) (rest : list ascii) (cmd : Command),
  Forall (fun p => INT_MIN <= fst p <= INT_MAX /\ INT_MIN <= snd p <= INT_MAX)
         pairs ->
  (length (register_entries pairs ++ "}"%char :: rest) < f)%nat ->
  parse_registers f (register_entries pairs ++ "}"%char :: rest) cmd
  = Done (push_pairs cmd (take (MAX_BULK_REGISTERS - bulk_count cmd) pairs)).
Proof.
  induction pairs as [|p more IH]; intros f rest cmd Hall Hf.
  - rewrite take_nil. destruct f as [|f]; [simpl in Hf; lia|]. reflexivity.
  - apply Forall_cons in Hall as [[Ha Hv] Hall].
    destruct (Nat.leb_spec MAX_BULK_REGISTERS (bulk_count cmd)) as [Hfull|Hlt].
    { rewrite parse_registers_full by (assumption || lia).
      replace (MAX_BULK_REGISTERS - bulk_count cmd)%nat with 0%nat by lia.
      reflexivity. }
    replace (MAX_BULK_REGISTERS - bulk_count cmd)%nat
      with (S (MAX_BULK_REGISTERS - S (bulk_count cmd))) by lia.
    rewrite register_entries_cons in *. cbn [take push_pairs fold_left].
    fold (push_pairs (push_bulk cmd (to_uint8 (fst p)) (to_uint8 (snd p)))
            (take (MAX_BULK_REGISTERS - S (bulk_count cmd)) more)).
    rewrite <- app_assoc in *.
    destruct more as [|q more].
    + cbn [app] in *. rewrite parse_registers_entry by auto.
      rewrite take_nil. destruct f as [|f]; [lia|]. reflexivity.
    + cbn [app] in *. rewrite parse_registers_entry by auto.
      set (cmd' := push_bulk cmd _ _) in *.
      assert (Hf' : (length (","%char :: register_entries (q :: more)
                             ++ "}"%char :: rest) < f)%nat).
      { rewrite length_app in Hf. cbn [length] in Hf |- *. lia. }
      rewrite parse_registers_skip by (assumption || discriminate).
      destruct (Nat.leb_spec MAX_BULK_REGISTERS (bulk_count cmd')) as [Hfull|Hlt'].
      * replace (MAX_BULK_REGISTERS - S (bulk_count cmd))%nat with 0%nat
          by (subst cmd'; simpl in Hfull; lia).
        reflexivity.
      * rewrite IH by (assumption || (cbn [length] in Hf'; lia)). reflexivity.
Qed.

(** What storing pairs from the cleared command leaves in the array. *)
Lemma push_pairs_spec (pairs : list (Z * Z)) : forall cmd,
  length (bulk_regs cmd) = MAX_BULK_REGISTERS ->
  (bulk_count cmd + length pairs <= MAX_BULK_REGISTERS)%nat ->
  let cmd' := push_pairs cmd pairs in
  bulk_count cmd' = (bulk_count cmd + length pairs)%nat
  /\ take (bulk_count cmd') (bulk_regs cmd')
     = take (bulk_count cmd) (bulk_regs cmd) ++ map stored_pair pairs
  /\ drop (bulk_count cmd') (bulk_regs cmd')
     = drop (bulk_count cmd') (bulk_regs cmd)
  /\ type cmd' = type cmd /\ addr cmd' = addr cmd /\ value cmd' = value cmd
  /\ pa_table cmd' = pa_table cmd /\ pa_table_count cmd' = pa_table_count cmd.
Proof.
  induction pairs as [|p more IH]; intros cmd Hlen Hfit; cbn zeta.
  - simpl. rewrite Nat.add_0_r, app_nil_r. auto 10.
  - simpl in Hfit. unfold push_pairs. cbn [fold_left].
    set (cmd1 := push_bulk cmd _ _).
    destruct (IH cmd1) as (Hc & Ht & Hd & Hrest).
    { subst cmd1. simpl. now rewrite length_insert. }
    { subst cmd1. simpl. lia. }
    fold (push_pairs cmd1 more).
    assert (Hin : (bulk_count cmd < length (bulk_regs cmd))%nat) by lia.
    split; [rewrite Hc; subst cmd1; simpl; lia|].
    split; [|split; [|exact Hrest]].
    + rewrite Ht. subst cmd1. cbn [bulk_count bulk_regs push_bulk].
      rewrite (take_S_r _ _ (stored_pair p))
        by (now apply list_lookup_insert_eq).
      rewrite take_insert_ge by lia. now rewrite <- app_assoc.
    + rewrite Hd, Hc. subst cmd1. cbn [bulk_count bulk_regs push_bulk].
      rewrite drop_insert_lt by lia. reflexivity.
Qed.


End RegistersLoop.

(* ================================================================= *)
(** ** The loop over the power-amplifier array *)

Section PaTableLoop.

Lemma parse_pa_table_fuel_irrelevant (f1 : nat) : forall f2 p cmd,
  (length p < f1)%nat -> (length p < f2)%nat ->
  parse_pa_table f1 p cmd = parse_pa_table f2 p cmd.
Proof.
  induction f1 as [|f1 IH]; intros f2 p cmd H1 H2; [lia|].
  destruct f2 as [|f2]; [lia|]. cbn [parse_pa_table].
  destruct p as [|c p1]; [reflexivity|]. simpl in H1, H2.
  destruct (c =? "]")%char; [reflexivity|].
  destruct (8 <=? pa_table_count cmd)%nat; [reflexivity|].
  destruct (isdigit c) eqn:Hd; [|apply IH; lia].
  cbn [skip_digits]. rewrite Hd.
  pose proof (skip_digits_length p1) as Hs.
  destruct (skip_digits p1) as [|c2 p2]; [reflexivity|].
  simpl in Hs. apply IH; lia.
Qed.

Lemma parse_pa_table_full (f : nat) (p : list ascii) (cmd : Command) :
  (8 <= pa_table_count cmd)%nat -> (0 < f)%nat ->
  parse_pa_table f p cmd = Done cmd.
Proof.
  intros Hfull Hf. destruct f as [|f]; [lia|]. cbn [parse_pa_table].
  destruct p as [|c p1]; [reflexivity|].
  destruct (c =? "]")%char; [reflexivity|].
  destruct (Nat.leb_spec 8 (pa_table_count cmd)); [reflexivity | lia].
Qed.

Lemma parse_pa_table_skip (f : nat) (c : ascii) (p : list ascii) (cmd : Command) :
  c <> "]"%char -> isdigit c = false ->
  (length (c :: p) < f)%nat ->
  parse_pa_table f (c :: p) cmd
  = if (8 <=? pa_table_count cmd)%nat then Done cmd
    else parse_pa_table f p cmd.
Proof.
  intros H1 H2 Hf. destruct f as [|f]; [simpl in Hf; lia|].
  set (rhs := parse_pa_table (S f) p cmd). cbn [parse_pa_table].
  destruct (Ascii.eqb_spec c "]"); [contradiction|].
  destruct (8 <=? pa_table_count cmd)%nat; [reflexivity|].
  rewrite H2. simpl in Hf. apply parse_pa_table_fuel_irrelevant; lia.
Qed.

Lemma skip_digits_app (ds rest : list ascii) :
  Forall (fun c => isdigit c = true) ds ->
  skip_digits (ds ++ rest) = skip_digits rest.
Proof.
  induction 1 as [|d ds Hd _ IH]; [reflexivity|].
  cbn [app skip_digits]. now rewrite Hd.
Qed.

Lemma fmt_d_nonneg (v : Z) : 0 <= v -> fmt_d v = fmt_u v.
Proof. intros Hv. unfold fmt_d. now destruct (Z.ltb_spec v 0); [lia|]. Qed.

(** One entry of the array and the character behind it: the entry is
    stored, reduced modulo 256, and the loop goes on behind that
    character. *)
Lemma parse_pa_table_entry (f : nat) (v : Z) (sep : ascii)
                           (rest : list ascii) (cmd : Command) :
  0 <= v <= INT_MAX ->
  isdigit sep = false ->
  (pa_table_count cmd < 8)%nat ->
  (length (fmt_u v ++ sep :: rest) < f)%nat ->
  parse_pa_table f (fmt_u v ++ sep :: rest) cmd
  = parse_pa_table f rest (push_pa cmd (to_uint8 v)).
Proof.
  intros Hv Hsep Hcount Hf.
  assert (Hatoi : atoi (fmt_u v ++ sep :: rest) = v).
  { rewrite <- fmt_d_nonneg by lia. apply atoi_fmt_d; [|exact Hsep].
    unfold INT_MIN in *. lia. }
  assert (Hskip : skip_digits (fmt_u v ++ sep :: rest) = sep :: rest).
  { destruct (fmt_u_digits v) as (d & ds & -> & Hall); [lia|].
    rewrite skip_digits_app by assumption. cbn [skip_digits]. now rewrite Hsep. }
  destruct (fmt_u_digits v) as (d & ds & E & Hall); [lia|].
  rewrite E in *. apply Forall_cons in Hall as [Hd _].
  destruct f as [|f]; [lia|].
  set (rhs := parse_pa_table (S f) rest _).
  cbn [app] in *. cbn [parse_pa_table].
  destruct (Ascii.eqb_spec d "]") as [->|_]; [discriminate|].
  destruct (Nat.leb_spec 8 (pa_table_count cmd)); [lia|].
  rewrite Hd, Hskip, Hatoi. subst rhs.
  apply parse_pa_table_fuel_irrelevant; simpl in Hf; rewrite length_app in Hf;
    simpl in Hf; lia.
Qed.

Lemma pa_entries_cons (v : Z) (more : list Z) :
  pa_entries (v :: more)
  = fmt_u v ++ match more with
               | [] => []
               | _ :: _ => ","%char :: pa_entries more
               end.
Proof. reflexivity. Qed.

(** The loop over a whole array that closes the line: the entries are
    stored in the order of the text until the table is full. *)
Lemma parse_pa_table_entries (pa : list Z) :
  forall (f : nat) (cmd : Command),
  Forall (fun v => 0 <= v <= INT_MAX) pa ->
  (length (pa_entries pa ++ lit "]}") < f)%nat ->
  parse_pa_table f (pa_entries pa ++ lit "]}") cmd
  = Done (push_pas cmd (take (8 - pa_table_count cmd) pa)).
Proof.
  induction pa as [|v more IH]; intros f cmd Hall Hf.
  - rewrite take_nil. destruct f as [|f]; [simpl in Hf; lia|]. reflexivity.
  - apply Forall_cons in Hall as [Hv Hall].
    destruct (Nat.leb_spec 8 (pa_table_count cmd)) as [Hfull|Hlt].
    { rewrite parse_pa_table_full by (assumption || lia).
      replace (8 - pa_table_count cmd)%nat with 0%nat by lia. reflexivity. }
    replace (8 - pa_table_count cmd)%nat
      with (S (8 - S (pa_table_count cmd))) by lia.
    rewrite pa_entries_cons in *. cbn [take push_pas fold_left].
    fold (push_pas (push_pa cmd (to_uint8 v))
            (take (8 - S (pa_table_count cmd)) more)).
    rewrite <- app_assoc in *.
    destruct more as [|w more].
    + cbn [app] in *. change (lit "]}") with ["]"%char; "}"%char] in *.
      rewrite parse_pa_table_entry by (assumption || reflexivity).
      rewrite take_nil.
      assert (Hf' : (length ["}"%char] < f)%nat).
      { rewrite length_app in Hf. simpl in Hf |- *. lia. }
      rewrite parse_pa_table_skip by (assumption || discriminate || reflexivity).
      destruct (_ <=? _)%nat; [reflexivity|].
      destruct f as [|f]; [simpl in Hf'; lia|]. reflexivity.
    + cbn [app] in *.
      rewrite parse_pa_table_entry by (assumption || reflexivity).
      rewrite IH; [reflexivity | assumption |].
      rewrite length_app in Hf. cbn [length] in Hf. lia.
Qed.

(** What storing entries leaves in the table. *)
Lemma push_pas_spec (pa : list Z) : forall cmd,
  length (pa_table cmd) = 8%nat ->
  (pa_table_count cmd + length pa <= 8)%nat ->
  let cmd' := push_pas cmd pa in
  pa_table_count cmd' = (pa_table_count cmd + length pa)%nat
  /\ take (pa_table_count cmd') (pa_table cmd')
     = take (pa_table_count cmd) (pa_table cmd) ++ map to_uint8 pa
  /\ type cmd' = type cmd /\ addr cmd' = addr cmd /\ value cmd' = value cmd
  /\ bulk_regs cmd' = bulk_regs cmd /\ bulk_count cmd' = bulk_count cmd.
Proof.
  induction pa as [|v more IH]; intros cmd Hlen Hfit; cbn zeta.
  - simpl. rewrite Nat.add_0_r, app_nil_r. auto 10.
  - simpl in Hfit. unfold push_pas. cbn [fold_left].
    set (cmd1 := push_pa cmd _).
    destruct (IH cmd1) as (Hc & Ht & Hrest).
    { subst cmd1. simpl. now rewrite length_insert. }
    { subst cmd1. simpl. lia. }
    fold (push_pas cmd1 more).
    split; [rewrite Hc; subst cmd1; simpl; lia|].
    split; [|exact Hrest].
    rewrite Ht. subst cmd1. cbn [pa_table_count pa_table push_pa].
    rewrite (take_S_r _ _ (to_uint8 v))
      by (apply list_lookup_insert_eq; lia).
    rewrite take_insert_ge by lia. now rewrite <- app_assoc.
Qed.

End PaTableLoop.

(* ================================================================= *)
(** ** write_bulk requests *)

Section WriteBulk.

Lemma strstr_register_entry (p : Z * Z) (rest : list ascii) :
  strstr (register_entry p ++ rest) (jlit "'pa_table'")
  = strstr rest (jlit "'pa_table'").
Proof.
  unfold register_entry.
  destruct (fmt_d_numchars (fst p)) as (da & das & Ea & Hda).
  destruct (fmt_d_numchars (snd p)) as (dv & dvs & Ev & Hdv).
  assert (Hplain : forall ds, Forall is_numchar ds ->
                     Forall (fun c => c <> DQUOTE) ds).
  { intros ds Hds. eapply Forall_impl; [exact Hds|].
    intros c Hc. now apply is_numchar_plain. }
  rewrite Ea. rewrite <- Ev in Hdv. clear Ev.
  pose proof (Forall_inv Hda) as Hd.
  destruct (is_numchar_plain da Hd) as (_ & _ & _ & _ & Hp).
  change (jlit "'pa_table'") with (DQUOTE :: "p"%char :: lit "a_table" ++ [DQUOTE]).
  cbn [app]. rewrite <- app_assoc. cbn [app strstr starts_with].
  rewrite Ascii.eqb_refl.
  destruct (Ascii.eqb_spec da "p") as [|_]; [contradiction|]. cbn [andb].
  destruct (Ascii.eqb_spec da DQUOTE) as [->|_];
    [now apply is_numchar_plain in Hd|].
  rewrite (strstr_skip_plain DQUOTE _ das)
    by (apply Hplain; now apply Forall_inv_tail in Hda).
  cbn [strstr starts_with]. rewrite Ascii.eqb_refl.
  change (":" =? "p")%char with false. change (":" =? DQUOTE)%char with false.
  cbn [andb].
  apply (strstr_skip_plain DQUOTE), Hplain, Hdv.
Qed.

Lemma strstr_register_entries (pairs : list (Z * Z)) (rest : list ascii) :
  strstr (register_entries pairs ++ rest) (jlit "'pa_table'")
  = strstr rest (jlit "'pa_table'").
Proof.
  induction pairs as [|p more IH]; [reflexivity|].
  rewrite register_entries_cons, <- app_assoc, strstr_register_entry.
  destruct more as [|q more]; [reflexivity|]. exact IH.
Qed.

(** A line in the shape of a write_bulk request, whatever stands in the
    places of the object and of the array, as long as the key of the array
    cannot be found inside the object. *)
Lemma protocol_parse_command_write_bulk_shape
    (tr tp : list ascii) (cmd0 : Command) :
  (forall rest, strstr (tr ++ rest) (jlit "'pa_table'")
                = strstr rest (jlit "'pa_table'")) ->
  protocol_parse_command
    (jlit "{'cmd':'write_bulk','registers':{" ++ tr
     ++ jlit "},'pa_table':[" ++ tp ++ lit "]}") cmd0
  = match parse_registers
            (S (length (tr ++ jlit "},'pa_table':[" ++ tp ++ lit "]}")))
            (tr ++ jlit "},'pa_table':[" ++ tp ++ lit "]}")
            (blank_cmd CMD_WRITE_BULK 0 0) with
    | Done cmd1 =>
        match parse_pa_table (S (length (tp ++ lit "]}"))) (tp ++ lit "]}")
                             (set_pa_table_count cmd1 0) with
        | Done cmd2 =>
            Done (negb (CommandType_eqb (type cmd2) CMD_UNKNOWN), cmd2)
        | OverRead => OverRead
        | OutOfFuel => OutOfFuel
        end
    | OverRead => OverRead
    | OutOfFuel => OutOfFuel
    end.
Proof.
  intros Hskip. unfold protocol_parse_command.
  cbn -[parse_registers parse_pa_table length].
  rewrite Hskip. cbn -[parse_registers parse_pa_table length].
  reflexivity.
Qed.

(** The write_bulk line for [pairs] and [pa] is scanned into the command
    that holds the first 47 pairs and the first 8 entries. *)
Lemma protocol_parse_command_write_bulk
    (pairs : list (Z * Z)) (pa : list Z) (cmd0 : Command) :
  Forall (fun p => INT_MIN <= fst p <= INT_MAX /\ INT_MIN <= snd p <= INT_MAX)
         pairs ->
  Forall (fun v => 0 <= v <= INT_MAX) pa ->
  protocol_parse_command (write_bulk_line pairs pa) cmd0
  = Done (true,
          push_pas (set_pa_table_count
                      (push_pairs (blank_cmd CMD_WRITE_BULK 0 0)
                                  (take MAX_BULK_REGISTERS pairs)) 0)
                   (take 8 pa)).
Proof.
  intros Hpairs Hpa. unfold write_bulk_line.
  rewrite protocol_parse_command_write_bulk_shape
    by (intros rest; apply strstr_register_entries).
  change (jlit "},'pa_table':[" ++ pa_entries pa ++ lit "]}")
    with ("}"%char :: jlit ",'pa_table':[" ++ pa_entries pa ++ lit "]}").
  rewrite parse_registers_entries by (assumption || lia).
  rewrite parse_pa_table_entries by (assumption || lia).
  cbn [bulk_count blank_cmd pa_table_count set_pa_table_count].
  rewrite !Nat.sub_0_r.
  set (cmd1 := push_pairs _ _). set (cmd2 := set_pa_table_count cmd1 0).
  destruct (push_pas_spec (take 8 pa) cmd2) as (_ & _ & Ht & _).
  - subst cmd2 cmd1. cbn [pa_table set_pa_table_count].
    destruct (push_pairs_spec (take MAX_BULK_REGISTERS pairs)
                (blank_cmd CMD_WRITE_BULK 0 0)) as (_ & _ & _ & _ & _ & _ & -> & _);
      [reflexivity | rewrite length_take; unfold MAX_BULK_REGISTERS; cbn [bulk_count blank_cmd]; lia | reflexivity].
  - subst cmd2. cbn [pa_table_count set_pa_table_count]. rewrite length_take. lia.
  - cbn zeta in Ht. rewrite Ht. subst cmd2. cbn [type set_pa_table_count].
    subst cmd1.
    destruct (push_pairs_spec (take MAX_BULK_REGISTERS pairs)
                (blank_cmd CMD_WRITE_BULK 0 0)) as (_ & _ & _ & -> & _);
      [reflexivity | rewrite length_take; unfold MAX_BULK_REGISTERS; cbn [bulk_count blank_cmd]; lia | reflexivity].
Qed.

(** The command scanned from a write_bulk line, field by field. *)
Lemma write_bulk_line_parsed
    (pairs : list (Z * Z)) (pa : list Z) (cmd0 : Command) :
  Forall (fun p => INT_MIN <= fst p <= INT_MAX /\ INT_MIN <= snd p <= INT_MAX)
         pairs ->
  Forall (fun v => 0 <= v <= INT_MAX) pa ->
  exists cmd,
    protocol_parse_command (write_bulk_line pairs pa) cmd0 = Done (true, cmd)
    /\ type cmd = CMD_WRITE_BULK
    /\ bulk_count cmd = (47 `min` length pairs)%nat
    /\ take (bulk_count cmd) (bulk_regs cmd) = map stored_pair (take 47 pairs)
    /\ pa_table_count cmd = (8 `min` length pa)%nat
    /\ take (pa_table_count cmd) (pa_table cmd) = map to_uint8 (take 8 pa).
Proof.
  intros Hpairs Hpa. eexists. split.
  { now apply protocol_parse_command_write_bulk. }
  set (cmd1 := push_pairs _ _). set (cmd2 := set_pa_table_count cmd1 0).
  destruct (push_pairs_spec (take MAX_BULK_REGISTERS pairs)
              (blank_cmd CMD_WRITE_BULK 0 0))
    as (Hc1 & Ht1 & _ & Hty1 & _ & _ & Hpt1 & _);
    [reflexivity | rewrite length_take; unfold MAX_BULK_REGISTERS; cbn [bulk_count blank_cmd]; lia |].
  cbn zeta in *. fold cmd1 in Hc1, Ht1, Hty1, Hpt1.
  destruct (push_pas_spec (take 8 pa) cmd2)
    as (Hc2 & Ht2 & Hty2 & _ & _ & Hr2 & Hbc2).
  { subst cmd2. cbn [pa_table set_pa_table_count]. now rewrite Hpt1. }
  { subst cmd2. cbn [pa_table_count set_pa_table_count].
    rewrite length_take. lia. }
  cbn zeta in *. subst cmd2.
  cbn [type bulk_regs bulk_count pa_table pa_table_count set_pa_table_count] in *.
  rewrite Hty2, Hty1, Hr2, Hbc2, Ht1, Hc1, Ht2, Hc2.
  rewrite !length_take. unfold MAX_BULK_REGISTERS.
  cbn [type bulk_count blank_cmd take app]. repeat split; lia.
Qed.

(** C8.  Every command the scanner returns has at most 47 register
    entries and at most 8 power-amplifier entries, in arrays of 47 and 8
    slots.  The write_bulk line for any list of register pairs is scanned
    into the first 47 of them, each reduced modulo 256, in the order of
    the line and with repeated addresses kept, and into the first 8
    entries of its power-amplifier array; the pairs behind the 47th are
    ignored. *)
Theorem C8_bulk_counts_bounded :
  (forall (json : list ascii) (cmd0 : Command) (ok : bool) (cmd : Command),
     protocol_parse_command json cmd0 = Done (ok, cmd) ->
     (bulk_count cmd <= 47)%nat /\ (pa_table_count cmd <= 8)%nat
     /\ length (bulk_regs cmd) = 47%nat /\ length (pa_table cmd) = 8%nat)
  /\ (forall (pairs : list (Z * Z)) (pa : list Z) (cmd0 : Command),
        Forall (fun p => INT_MIN <= fst p <= INT_MAX
                         /\ INT_MIN <= snd p <= INT_MAX) pairs ->
        Forall (fun v => 0 <= v <= INT_MAX) pa ->
        exists cmd,
          protocol_parse_command (write_bulk_line pairs pa) cmd0
          = Done (true, cmd)
          /\ type cmd = CMD_WRITE_BULK
          /\ bulk_count cmd = (47 `min` length pairs)%nat
          /\ take (bulk_count cmd) (bulk_regs cmd)
             = map stored_pair (take 47 pairs)
          /\ pa_table_count cmd = (8 `min` length pa)%nat
          /\ take (pa_table_count cmd) (pa_table cmd)
             = map to_uint8 (take 8 pa)).
Proof.
  split.
  - intros json cmd0 ok cmd Hp.
    apply protocol_parse_command_Done in Hp as ((H1 & H2 & H3 & H4 & _) & _).
    auto.
  - exact write_bulk_line_parsed.
Qed.

(** Fifty pairs with ten addresses between them: 47 are stored. *)
Lemma C8_bulk_counts_bounded_witness :
  length fifty_pairs = 50%nat
  /\ exists cmd,
       protocol_parse_command (write_bulk_line fifty_pairs [192; 300]) stale_cmd
       = Done (true, cmd)
       /\ type cmd = CMD_WRITE_BULK
       /\ bulk_count cmd = 47%nat
       /\ take (bulk_count cmd) (bulk_regs cmd)
          = map stored_pair (take 47 fifty_pairs)
       /\ pa_table_count cmd = 2%nat
       /\ take (pa_table_count cmd) (pa_table cmd) = [192; 44].
Proof.
  split; [reflexivity|].
  apply (proj2 C8_bulk_counts_bounded fifty_pairs [192; 300] stale_cmd).
  - unfold fifty_pairs. apply Forall_forall. intros p Hp.
    apply list_elem_of_In, in_map_iff in Hp as (i & <- & Hi).
    apply in_seq in Hi. unfold INT_MIN, INT_MAX. simpl fst. simpl snd.
    pose proof (Nat.mod_upper_bound i 10). lia.
  - repeat constructor; unfold INT_MAX; lia.
Defined.

End WriteBulk.

(* ================================================================= *)
(** ** write_bulk requests, end to end *)

Section WriteBulkRequests.


(** C3.  A write_bulk command with an address beyond 46 among its pairs is
    answered by the error line with code 5, and the HAL sees nothing but
    that answer: the bulk write fails before its register load and the
    power table is not attempted, so none of the set is applied.  This
    holds for whatever line the scanner takes for such a command, and the
    request line of the wire format is such a line as soon as one of its
    first 47 pairs has an address that is beyond 46 as a [uint8_t]. *)
Theorem C3_bulk_invalid_address_loads_nothing (app : App) (cmd0 : Command) :
  (forall (json : list ascii) (cmd : Command) (i : nat) (r : RegisterPair),
     protocol_parse_command json cmd0 = Done (true, cmd) ->
     type cmd = CMD_WRITE_BULK ->
     (i < bulk_count cmd)%nat ->
     bulk_regs cmd !! i = Some r ->
     46 < reg_addr r ->
     cc1101_write_bulk (cc1101 app) (bulk_regs cmd) (bulk_count cmd) = (false, [])
     /\ app_process_command app json cmd0 =
        Done (app, uart_send_response
                     (jlit "{'type':'error','code':5,'msg':'Bulk write failed'}")))
  /\ (forall (pairs : list (Z * Z)) (pa : list Z) (p : Z * Z),
        Forall (fun p => INT_MIN <= fst p <= INT_MAX
                         /\ INT_MIN <= snd p <= INT_MAX) pairs ->
        Forall (fun v => 0 <= v <= INT_MAX) pa ->
        p ∈ take 47 pairs ->
        46 < to_uint8 (fst p) ->
        app_process_command app (write_bulk_line pairs pa) cmd0 =
        Done (app,
              [furi_hal_cdc_send
                 (jlit "{'type':'error','code':5,'msg':'Bulk write failed'}");
               furi_hal_cdc_send [LF]])).
Proof.
  split.
  - intros json cmd i r. apply app_process_command_bulk_rejected.
  - intros pairs pa p Hpairs Hpa Hin Hp.
    destruct (write_bulk_line_parsed pairs pa cmd0 Hpairs Hpa)
      as (cmd & Hparse & Ht & Hc & Htake & _).
    apply list_elem_of_lookup in Hin as [i Hi].
    assert (Hr : take (bulk_count cmd) (bulk_regs cmd) !! i
                 = Some (stored_pair p))
      by (now rewrite Htake, list_lookup_fmap, Hi).
    apply lookup_take_Some in Hr as [Hr Hlt].
    exact (proj2 (app_process_command_bulk_rejected app _ cmd0 cmd i _
                    Hparse Ht Hlt Hr Hp)).
Qed.

(** The second pair has address 47: nothing is loaded. *)
Lemma C3_bulk_invalid_address_loads_nothing_witness :
  app_process_command app_example
    (jlit "{'cmd':'write_bulk','registers':{'1':2,'47':4},'pa_table':[1,2]}")
    stale_cmd =
  Done (app_example,
        [furi_hal_cdc_send
           (jlit "{'type':'error','code':5,'msg':'Bulk write failed'}");
         furi_hal_cdc_send [LF]]).
Proof.
  apply (proj2 (C3_bulk_invalid_address_loads_nothing app_example stale_cmd)
           [(1, 2); (47, 4)] [1; 2] (47, 4)).
  - repeat constructor; vm_compute; discriminate.
  - repeat constructor; vm_compute; discriminate.
  - apply list_elem_of_further, list_elem_of_here.
  - vm_compute. reflexivity.
Defined.



End WriteBulkRequests.

(* ================================================================= *)
(** ** read_register requests, end to end *)

Section ReadRegister.

(** C4.  A read_register command is always answered by a data line with
    a value from 0 to 255, never by an error line, whatever its address
    and whether or not the backend is initialised; the backend gives 0 for
    an address beyond 46.  This holds for whatever line the scanner takes
    for such a command, and the request lines of the wire format are such
    lines for every [int] in the place of the address. *)
Theorem C4_read_register_always_data (app : App) (cmd0 : Command) :
  (forall (json : list ascii) (cmd : Command),
     protocol_parse_command json cmd0 = Done (true, cmd) ->
     type cmd = CMD_READ_REGISTER ->
     exists app' v,
       0 <= v <= 255
       /\ app_process_command app json cmd0 =
          Done (app', uart_send_response
                        (jlit "{'type':'data','value':" ++ fmt_u v ++ lit "}")))
  /\ (forall a : Z,
        INT_MIN <= a <= INT_MAX ->
        exists app' v,
          0 <= v <= 255
          /\ app_process_command app (read_register_line a) cmd0 =
             Done (app', uart_send_response
                           (jlit "{'type':'data','value':" ++ fmt_u v ++ lit "}")))
  /\ (forall a : Z, 46 < a -> cc1101_read_register (cc1101 app) a = 0).
Proof.
  assert (Hgen : forall json cmd,
            protocol_parse_command json cmd0 = Done (true, cmd) ->
            type cmd = CMD_READ_REGISTER ->
            exists app' v,
              0 <= v <= 255
              /\ app_process_command app json cmd0 =
                 Done (app', uart_send_response
                               (jlit "{'type':'data','value':" ++ fmt_u v
                                ++ lit "}"))).
  { intros json cmd Hp Ht. rewrite (app_process_command_parsed _ _ _ _ Hp).
    destruct (app_execute_read_register app cmd Ht) as (app' & ->).
    exists app', 0. split; [lia | reflexivity]. }
  split; [exact Hgen|]. split.
  - intros a Ha. eapply Hgen.
    + now apply protocol_parse_command_read_register.
    + reflexivity.
  - intros a _. apply cc1101_read_register_zero.
Qed.

(** Address 200, far beyond the last register. *)
Lemma C4_read_register_always_data_witness :
  exists app' v,
    0 <= v <= 255
    /\ app_process_command app_example
         (jlit "{'cmd':'read_register','addr':200}") stale_cmd =
       Done (app', uart_send_response
                     (jlit "{'type':'data','value':" ++ fmt_u v ++ lit "}")).
Proof.
  apply (proj1 (proj2 (C4_read_register_always_data app_example stale_cmd)) 200).
  vm_compute. split; discriminate.
Defined.

(** C9.  The backend reads 0 at every address, initialised or not, so a
    read_register command is answered by the data line with value 0, in
    whatever state earlier commands left the application.  This holds for
    whatever line the scanner takes for such a command, and for the
    request lines of the wire format. *)
Theorem C9_read_register_answers_zero (app : App) (cmd0 : Command) :
  (forall (ctx : Cc1101Context) (a : Z), cc1101_read_register ctx a = 0)
  /\ (forall (json : list ascii) (cmd : Command),
        protocol_parse_command json cmd0 = Done (true, cmd) ->
        type cmd = CMD_READ_REGISTER ->
        exists app',
          app_process_command app json cmd0 =
          Done (app', uart_send_response (jlit "{'type':'data','value':0}")))
  /\ (forall a : Z,
        INT_MIN <= a <= INT_MAX ->
        exists app',
          app_process_command app (read_register_line a) cmd0 =
          Done (app', uart_send_response (jlit "{'type':'data','value':0}"))).
Proof.
  assert (Hgen : forall json cmd,
            protocol_parse_command json cmd0 = Done (true, cmd) ->
            type cmd = CMD_READ_REGISTER ->
            exists app',
              app_process_command app json cmd0 =
              Done (app', uart_send_response
                            (jlit "{'type':'data','value':0}"))).
  { intros json cmd Hp Ht. rewrite (app_process_command_parsed _ _ _ _ Hp).
    destruct (app_execute_read_register app cmd Ht) as (app' & ->).
    now exists app'. }
  split; [exact cc1101_read_register_zero|]. split; [exact Hgen|].
  intros a Ha. eapply Hgen.
  - now apply protocol_parse_command_read_register.
  - reflexivity.
Qed.

(** The request of the protocol description, sent after a write of 60 to
    the same register. *)
Lemma C9_read_register_answers_zero_witness :
  exists app',
    app_process_command
      (fst (app_execute app_example (blank_cmd CMD_WRITE_REGISTER 10 60)))
      (jlit "{'cmd':'read_register','addr':10}") stale_cmd
    = Done (app', [furi_hal_cdc_send (jlit "{'type':'data','value':0}");
                   furi_hal_cdc_send [LF]]).
Proof.
  apply (proj2 (proj2 (C9_read_register_answers_zero
                         (fst (app_execute app_example
                                 (blank_cmd CMD_WRITE_REGISTER 10 60)))
                         stale_cmd)) 10).
  vm_compute. split; discriminate.
Defined.

End ReadRegister.

(* ================================================================= *)
(** ** The line reassembler on streams of lines *)

Section LineStreams.

Lemma uart_lines_idle (idle more : list (list ascii)) (ctx : UartContext) :
  concat idle = [] -> uart_lines ctx (idle ++ more) = uart_lines ctx more.
Proof.
  induction idle as [|rx idle IH]; intros Hc; [reflexivity|].
  simpl in Hc. apply app_eq_nil in Hc as [-> Hc]. simpl. now apply IH.
Qed.

(** The lines of a stream whose first polls are those of one call. *)
Lemma uart_lines_call (polls more : list (list ascii)) :
  forall ctx ctx' r rest,
  uart_receive_line ctx polls = (ctx', r, rest) ->
  concat rest = [] ->
  uart_lines ctx (polls ++ more)
  = match r with Some line => [line] | None => [] end ++ uart_lines ctx' more.
Proof.
  induction polls as [|rx polls IH]; intros ctx ctx' r rest H Hrest; simpl in *.
  - now inversion H; subst.
  - destruct (uart_scan ctx rx) as [ctx1 [line|]].
    + inversion H; subst. simpl. now rewrite uart_lines_idle.
    + now apply IH with rest.
Qed.

(** One run of bytes and its line end, scanned from an empty accumulator. *)
Lemma uart_scan_run (ctx : UartContext) (s : list ascii) (e : ascii) :
  no_line_end s -> is_line_end e = true ->
  length (line_buffer ctx) = LINE_BUFFER_SIZE -> line_pos ctx = 0%nat ->
  exists ctx',
    uart_scan ctx (s ++ [e]) = (ctx', kept_of s)
    /\ length (line_buffer ctx') = LINE_BUFFER_SIZE /\ line_pos ctx' = 0%nat.
Proof.
  intros Hs He Hlen Hpos.
  destruct (uart_scan_wraps (length s / LINE_BUFFER_SIZE) s ctx)
    as (ctx1 & E & Hp & Hlv & Hb); try assumption.
  { unfold LINE_BUFFER_SIZE.
    pose proof (Nat.div_mod_eq (length s) 1024).
    pose proof (Nat.mod_upper_bound (length s) 1024). lia. }
  assert (Hlt : (line_pos ctx1 < LINE_BUFFER_SIZE)%nat).
  { rewrite Hp. apply Nat.mod_upper_bound. discriminate. }
  rewrite uart_scan_app, E, uart_scan_line_end by assumption.
  unfold kept_of. rewrite Hlv, Hp.
  destruct (Nat.eqb_spec (length s mod LINE_BUFFER_SIZE) 0) as [H0|Hn0].
  - rewrite H0. exists ctx1. rewrite Hp. auto.
  - destruct (Nat.ltb_spec 0 (length s mod LINE_BUFFER_SIZE)); [|lia].
    eexists. split; [reflexivity|]. simpl.
    now rewrite length_insert.
Qed.

(** The lines of a stream of runs, each closed by a line end at the end of
    a chunk. *)
Lemma uart_lines_runs (ls : list (list ascii)) :
  forall (pollss : list (list (list ascii))) (ctx : UartContext),
  Forall2 brings_line pollss ls ->
  Forall no_line_end ls ->
  length (line_buffer ctx) = LINE_BUFFER_SIZE -> line_pos ctx = 0%nat ->
  uart_lines ctx (concat pollss) = omap kept_of ls.
Proof.
  induction ls as [|l ls IH]; intros pollss ctx H2 Hls Hlen Hpos.
  - apply Forall2_nil_inv_r in H2 as ->. reflexivity.
  - apply Forall2_cons_inv_r in H2 as (polls & pollss' & (e & He & Hc) & H2 & ->).
    apply Forall_cons in Hls as [Hl Hls].
    destruct (uart_receive_line_chunks polls ctx l e Hc Hl)
      as (rest & Hrest & Hcall & _).
    destruct (uart_scan_run ctx l e Hl He Hlen Hpos) as (ctx' & E & Hlen' & Hpos').
    rewrite E in Hcall. cbn [fst snd] in Hcall.
    cbn [concat]. rewrite (uart_lines_call _ _ _ _ _ _ Hcall Hrest).
    rewrite (IH pollss' ctx') by assumption.
    change (omap kept_of (l :: ls))
      with (match kept_of l with
            | Some line => line :: omap kept_of ls
            | None => omap kept_of ls
            end).
    now destruct (kept_of l).
Qed.


Lemma c_str_id (l : list ascii) : NUL ∉ l -> c_str l = l.
Proof.
  induction l as [|c l IH]; intros Hn; [reflexivity|].
  apply not_elem_of_cons in Hn as [Hc Hn]. simpl.
  destruct (Ascii.eqb_spec c NUL); [congruence|]. now rewrite IH.
Qed.

Lemma c_str_length (l : list ascii) : (length (c_str l) <= length l)%nat.
Proof.
  induction l as [|c l IH]; simpl; [lia|].
  destruct (c =? NUL)%char; simpl; lia.
Qed.

Lemma c_str_Forall (P : ascii -> Prop) (l : list ascii) :
  Forall P l -> Forall (fun c => P c /\ c <> NUL) (c_str l).
Proof.
  induction 1 as [|c l Hc _ IH]; simpl; [constructor|].
  destruct (Ascii.eqb_spec c NUL); [constructor|]. now constructor.
Qed.

Lemma kept_of_fits (l : list ascii) :
  (length l < LINE_BUFFER_SIZE)%nat ->
  kept_of l = if nonempty l then Some (c_str l) else None.
Proof.
  intros Hl. unfold kept_of. rewrite Nat.mod_small by exact Hl.
  rewrite Nat.sub_diag, drop_0. now destruct l.
Qed.

Lemma omap_kept_of_fits (ls : list (list ascii)) :
  Forall (fun l => no_line_end l /\ (length l < LINE_BUFFER_SIZE)%nat) ls ->
  omap kept_of ls = map c_str (List.filter nonempty ls).
Proof.
  induction 1 as [|l ls [_ Hl] _ IH]; [reflexivity|].
  change (omap kept_of (l :: ls))
    with (match kept_of l with
          | Some line => line :: omap kept_of ls
          | None => omap kept_of ls
          end).
  rewrite kept_of_fits, IH by exact Hl. simpl. now destruct (nonempty l).
Qed.

(** X1.  Lines that fit the buffer (at most 1023 bytes, none of them CR or
    LF), each closed by a line end that is the last byte of a chunk, are
    delivered one by one and in order, however the transport cuts them
    into chunks; a line without a byte (as the LF behind a CR) delivers
    nothing; a line is cut at its first NUL, and arrives as it was sent
    when it holds none. *)
Theorem uart_lines_reassembled
    (mem : list ascii) (ls : list (list ascii))
    (pollss : list (list (list ascii))) :
  length mem = LINE_BUFFER_SIZE ->
  Forall (fun l => no_line_end l /\ (length l < LINE_BUFFER_SIZE)%nat) ls ->
  Forall2 brings_line pollss ls ->
  uart_lines (uart_init mem) (concat pollss)
  = map c_str (List.filter nonempty ls)
  /\ (Forall (fun l => NUL ∉ l) ls ->
      uart_lines (uart_init mem) (concat pollss) = List.filter nonempty ls).
Proof.
  intros Hmem Hls Hpolls.
  assert (Hlines : uart_lines (uart_init mem) (concat pollss)
                   = map c_str (List.filter nonempty ls)).
  { rewrite (uart_lines_runs ls pollss);
      [now apply omap_kept_of_fits | exact Hpolls | | exact Hmem | reflexivity].
    eapply Forall_impl; [exact Hls | now intros l [H _]]. }
  split; [exact Hlines|]. intros Hnul. rewrite Hlines.
  clear Hlines Hpolls Hls. induction Hnul as [|l ls Hl _ IH]; [reflexivity|].
  simpl. destruct (nonempty l); [|exact IH].
  simpl. now rewrite IH, c_str_id.
Qed.

(** A ping cut in two chunks and closed by CR, the LF of the pair in a
    chunk of its own, then a read request. *)
Lemma uart_lines_reassembled_witness :
  uart_lines (uart_init (repeat NUL 1024))
    [jlit "{'cmd':"; jlit "'ping'}" ++ [CR]; [LF];
     jlit "{'cmd':'read_register','addr':3}" ++ [LF]]
  = [jlit "{'cmd':'ping'}"; jlit "{'cmd':'read_register','addr':3}"].
Proof.
  apply (uart_lines_reassembled (repeat NUL 1024)
           [jlit "{'cmd':'ping'}"; [];
            jlit "{'cmd':'read_register','addr':3}"]
           [[jlit "{'cmd':"; jlit "'ping'}" ++ [CR]]; [[LF]];
            [jlit "{'cmd':'read_register','addr':3}" ++ [LF]]]).
  - reflexivity.
  - repeat constructor; vm_compute; lia.
  - repeat constructor; eexists; (split; [|reflexivity]); reflexivity.
  - repeat constructor; vm_compute; intros H;
      repeat (apply elem_of_cons in H as [H|H]; [discriminate|]);
      now apply elem_of_nil in H.
Defined.

(** X2.  A run of bytes of any length without CR and LF, then a line end,
    from an empty accumulator: every full block of 1024 bytes is dropped
    without a trace, and the bytes behind the last full block are
    delivered as the line.  A run of exactly 1024 bytes (or a multiple)
    delivers nothing at all; a run of up to 1023 bytes arrives whole. *)
Theorem uart_lines_overlong
    (mem s : list ascii) (e : ascii) (polls : list (list ascii)) :
  length mem = LINE_BUFFER_SIZE ->
  no_line_end s ->
  is_line_end e = true ->
  concat polls = s ++ [e] ->
  uart_lines (uart_init mem) polls
  = if (length s mod 1024 =? 0)%nat then []
    else [c_str (drop (length s - length s mod 1024) s)].
Proof.
  intros Hmem Hs He Hc.
  pose proof (uart_lines_runs [s] [polls] (uart_init mem)) as H.
  cbn [concat] in H. rewrite app_nil_r in H. rewrite H; try reflexivity.
  - change (omap kept_of [s])
      with (match kept_of s with Some line => [line] | None => [] end).
    unfold kept_of. change LINE_BUFFER_SIZE with 1024%nat.
    now destruct (_ =? 0)%nat.
  - repeat constructor. now exists e.
  - now repeat constructor.
  - exact Hmem.
Qed.

(** A line of exactly 1024 letters is lost without a trace, and one of
    1030 letters arrives as its last six. *)
Lemma uart_lines_overlong_witness :
  uart_lines (uart_init (repeat NUL 1024)) [repeat "A"%char 1024 ++ [LF]] = []
  /\ uart_lines (uart_init (repeat NUL 1024))
       [repeat "A"%char 1024; lit "tail 6" ++ [CR]] = [lit "tail 6"].
Proof.
  assert (HA : no_line_end (repeat "A"%char 1024)).
  { apply Forall_forall. intros c Hc.
    apply list_elem_of_In, repeat_spec in Hc. now subst. }
  split.
  - apply (uart_lines_overlong (repeat NUL 1024) (repeat "A"%char 1024) LF);
      [reflexivity | exact HA | reflexivity | reflexivity].
  - apply (uart_lines_overlong (repeat NUL 1024)
             (repeat "A"%char 1024 ++ lit "tail 6") CR).
    + reflexivity.
    + apply Forall_app. split; [exact HA | repeat constructor].
    + reflexivity.
    + cbn [concat]. now rewrite app_nil_r, <- app_assoc.
Defined.

Lemma live_store (ctx : UartContext) (c : ascii) :
  (line_pos ctx < length (line_buffer ctx))%nat ->
  live {| line_buffer := <[line_pos ctx := c]> (line_buffer ctx);
          line_pos := S (line_pos ctx) |}
  = live ctx ++ [c].
Proof.
  intros Hlt. unfold live. simpl.
  rewrite (take_S_r _ _ c) by (now apply list_lookup_insert_eq).
  now rewrite take_insert_ge by lia.
Qed.

(** Whatever the bytes, a scan keeps the invariant, and the line it
    returns is short of the buffer's size and free of CR, LF and NUL. *)
Lemma uart_scan_inv (rx : list ascii) : forall ctx ctx' r,
  uart_inv ctx ->
  uart_scan ctx rx = (ctx', r) ->
  uart_inv ctx' /\ forall line, r = Some line -> delivered_line line.
Proof.
  induction rx as [|c rx IH]; intros ctx ctx' r (Hlen & Hpos & Hlive) H.
  - inversion H; subst. split; [now repeat split | discriminate].
  - simpl in H. destruct (is_line_end c) eqn:Hc.
    + destruct (0 <? line_pos ctx)%nat.
      * inversion H; subst. split.
        -- repeat split; simpl; [now rewrite length_insert | | constructor].
           unfold LINE_BUFFER_SIZE. lia.
        -- intros line [= <-].
           rewrite c_str_terminated by (rewrite Hlen; exact Hpos).
           split.
           ++ eapply Nat.le_lt_trans; [apply c_str_length|].
              rewrite length_take. lia.
           ++ now apply c_str_Forall.
      * now apply (IH ctx).
    + change (LINE_BUFFER_SIZE - 1)%nat with 1023%nat in H.
      destruct (Nat.ltb_spec (line_pos ctx) 1023) as [Hlt|Hge].
      * apply IH in H; [exact H|]. repeat split; simpl.
        -- now rewrite length_insert.
        -- unfold LINE_BUFFER_SIZE. lia.
        -- rewrite live_store by (rewrite Hlen; exact Hpos).
           apply Forall_app. split; [exact Hlive | now repeat constructor].
      * apply IH in H; [exact H|]. repeat split; simpl;
          [exact Hlen | unfold LINE_BUFFER_SIZE; lia | constructor].
Qed.

(** X3.  Whatever bytes arrive, in whatever chunks, every line that is
    delivered is shorter than the line buffer (at most 1023 characters)
    and holds no CR, no LF and no NUL. *)
Theorem uart_lines_delivered (mem : list ascii) (polls : list (list ascii)) :
  length mem = LINE_BUFFER_SIZE ->
  Forall (fun line =>
            (length line <= 1023)%nat
            /\ Forall (fun c => c <> CR /\ c <> LF /\ c <> NUL) line)
         (uart_lines (uart_init mem) polls).
Proof.
  intros Hmem.
  assert (Hinv : uart_inv (uart_init mem)).
  { repeat split; [exact Hmem | unfold LINE_BUFFER_SIZE; simpl; lia | constructor]. }
  revert Hinv. generalize (uart_init mem).
  induction polls as [|rx polls IH]; intros ctx Hinv; [constructor|].
  simpl. destruct (uart_scan ctx rx) as [ctx' r] eqn:E.
  destruct (uart_scan_inv rx ctx ctx' r Hinv E) as [Hinv' Hline].
  destruct r as [line|]; [|now apply IH].
  constructor; [|now apply IH].
  destruct (Hline line eq_refl) as [Hl Hcs]. split.
  - unfold LINE_BUFFER_SIZE in Hl. lia.
  - eapply Forall_impl; [exact Hcs|]. intros c [He Hn].
    unfold is_line_end in He. apply orb_false_elim in He as [H1 H2].
    apply Ascii.eqb_neq in H1. apply Ascii.eqb_neq in H2. auto.
Qed.

(** A 1500-byte run with a NUL and a stray CR inside. *)
Lemma uart_lines_delivered_witness :
  Forall (fun line =>
            (length line <= 1023)%nat
            /\ Forall (fun c => c <> CR /\ c <> LF /\ c <> NUL) line)
         (uart_lines (uart_init (repeat NUL 1024))
            [repeat "x"%char 1500; [NUL; "a"%char; CR; "b"%char; LF]]).
Proof.
  apply (uart_lines_delivered (repeat NUL 1024)). reflexivity.
Defined.

(** Two contexts with the same accumulated bytes behave alike, whatever
    the rest of their buffers holds. *)
Lemma uart_scan_live (rx : list ascii) : forall ctx1 ctx2,
  line_pos ctx1 = line_pos ctx2 -> live ctx1 = live ctx2 ->
  length (line_buffer ctx1) = LINE_BUFFER_SIZE ->
  length (line_buffer ctx2) = LINE_BUFFER_SIZE ->
  (line_pos ctx1 < LINE_BUFFER_SIZE)%nat ->
  snd (uart_scan ctx1 rx) = snd (uart_scan ctx2 rx)
  /\ line_pos (fst (uart_scan ctx1 rx)) = line_pos (fst (uart_scan ctx2 rx))
  /\ live (fst (uart_scan ctx1 rx)) = live (fst (uart_scan ctx2 rx))
  /\ length (line_buffer (fst (uart_scan ctx1 rx))) = LINE_BUFFER_SIZE
  /\ length (line_buffer (fst (uart_scan ctx2 rx))) = LINE_BUFFER_SIZE
  /\ (line_pos (fst (uart_scan ctx1 rx)) < LINE_BUFFER_SIZE)%nat.
Proof.
  induction rx as [|c rx IH]; intros ctx1 ctx2 Hp Hl H1 H2 Hlt; [simpl; auto 10|].
  simpl. rewrite <- Hp. destruct (is_line_end c).
  - destruct (0 <? line_pos ctx1)%nat; [|now apply IH].
    simpl. rewrite !length_insert.
    rewrite !c_str_terminated by (rewrite ?H1, ?H2, <- ?Hp; exact Hlt).
    fold (live ctx1). rewrite Hp. fold (live ctx2). rewrite Hl.
    unfold live. simpl. repeat split; auto. unfold LINE_BUFFER_SIZE. lia.
  - change (LINE_BUFFER_SIZE - 1)%nat with 1023%nat.
    destruct (Nat.ltb_spec (line_pos ctx1) 1023) as [Hs|Hge].
    + apply IH; simpl; rewrite ?length_insert; auto.
      * rewrite live_store by (rewrite H1; exact Hlt).
        rewrite Hp at 1 2.
        rewrite (live_store ctx2) by (rewrite H2, <- Hp; exact Hlt).
        now rewrite Hl.
      * unfold LINE_BUFFER_SIZE. lia.
    + apply IH; simpl; auto. unfold LINE_BUFFER_SIZE. lia.
Qed.

Lemma uart_lines_live (polls : list (list ascii)) : forall ctx1 ctx2,
  line_pos ctx1 = line_pos ctx2 -> live ctx1 = live ctx2 ->
  length (line_buffer ctx1) = LINE_BUFFER_SIZE ->
  length (line_buffer ctx2) = LINE_BUFFER_SIZE ->
  (line_pos ctx1 < LINE_BUFFER_SIZE)%nat ->
  uart_lines ctx1 polls = uart_lines ctx2 polls.
Proof.
  induction polls as [|rx polls IH]; intros ctx1 ctx2 Hp Hl H1 H2 Hlt;
    [reflexivity|].
  destruct (uart_scan_live rx ctx1 ctx2 Hp Hl H1 H2 Hlt)
    as (Hr & Hp' & Hl' & H1' & H2' & Hlt').
  simpl. destruct (uart_scan ctx1 rx) as [c1 r1], (uart_scan ctx2 rx) as [c2 r2].
  simpl in *. subst r2. rewrite (IH c1 c2) by assumption. reflexivity.
Qed.

(** X4.  The buffer of the reassembler is fresh heap memory that
    [uart_init] does not clear: none of what it holds ever reaches a
    delivered line, whatever bytes arrive. *)
Theorem uart_lines_fresh_memory
    (mem mem' : list ascii) (polls : list (list ascii)) :
  length mem = LINE_BUFFER_SIZE -> length mem' = LINE_BUFFER_SIZE ->
  uart_lines (uart_init mem) polls = uart_lines (uart_init mem') polls.
Proof.
  intros H1 H2. apply uart_lines_live; try assumption; try reflexivity.
  unfold LINE_BUFFER_SIZE. simpl. lia.
Qed.

Lemma uart_lines_fresh_memory_witness :
  uart_lines (uart_init (repeat "s"%char 1024)) [lit "ab"; [NUL; CR]]
  = uart_lines (uart_init (repeat NUL 1024)) [lit "ab"; [NUL; CR]].
Proof.
  apply uart_lines_fresh_memory; reflexivity.
Defined.

(** X5.  When a line completes inside a chunk, the bytes of the chunk
    behind its line end are never looked at: they are lost, complete lines
    among them included, and the next chunk starts a new line. *)
Theorem uart_lines_rest_of_chunk
    (mem l tail : list ascii) (e : ascii) (polls : list (list ascii)) :
  length mem = LINE_BUFFER_SIZE ->
  no_line_end l -> l <> [] -> (length l < LINE_BUFFER_SIZE)%nat ->
  is_line_end e = true ->
  uart_lines (uart_init mem) ((l ++ e :: tail) :: polls)
  = c_str l :: uart_lines (uart_init mem) polls.
Proof.
  intros Hmem Hl Hne Hlen He.
  destruct (uart_scan_run (uart_init mem) l e Hl He Hmem eq_refl)
    as (ctx' & E & Hlen' & Hpos').
  rewrite kept_of_fits in E by exact Hlen.
  destruct l as [|c l]; [congruence|]. cbn [nonempty] in E.
  cbn [uart_lines].
  change ((c :: l) ++ e :: tail) with ((c :: l) ++ [e] ++ tail).
  rewrite app_assoc, uart_scan_app, E. f_equal.
  apply uart_lines_live; try assumption.
  - unfold live. rewrite Hpos'. reflexivity.
  - rewrite Hpos'. unfold LINE_BUFFER_SIZE. lia.
Qed.

(** Two requests in one chunk: the second is never answered. *)
Lemma uart_lines_rest_of_chunk_witness :
  uart_lines (uart_init (repeat NUL 1024))
    [jlit "{'cmd':'ping'}" ++ LF :: jlit "{'cmd':'read_register','addr':3}"
     ++ [LF]]
  = [jlit "{'cmd':'ping'}"].
Proof.
  apply (uart_lines_rest_of_chunk (repeat NUL 1024) (jlit "{'cmd':'ping'}")
           (jlit "{'cmd':'read_register','addr':3}" ++ [LF]) LF []).
  - reflexivity.
  - repeat constructor.
  - discriminate.
  - vm_compute. lia.
  - reflexivity.
Defined.

End LineStreams.

(* ================================================================= *)
(** ** Where the scanner reads *)

Section ScannerReads.

Lemma skip_to_colon_none (t : list ascii) :
  ":"%char ∉ t -> skip_to_colon t = [].
Proof.
  intros Ht. rewrite <- (app_nil_r t). rewrite skip_to_colon_plain; [reflexivity|].
  apply Forall_forall. intros c Hc ->. contradiction.
Qed.

(** The array of a line that ends behind its last number. *)
Lemma parse_pa_table_cut (pa : list Z) : forall (f : nat) (cmd : Command),
  pa <> [] ->
  Forall (fun v => 0 <= v <= INT_MAX) pa ->
  (pa_table_count cmd + length pa <= 8)%nat ->
  (length (pa_entries pa) < f)%nat ->
  parse_pa_table f (pa_entries pa) cmd = OverRead.
Proof.
  induction pa as [|v more IH]; intros f cmd Hne Hall Hfit Hf; [congruence|].
  apply Forall_cons in Hall as [Hv Hall]. rewrite pa_entries_cons in *.
  destruct more as [|w more].
  - rewrite app_nil_r in *.
    destruct (fmt_u_digits v) as (d & ds & E & Hds); [lia|].
    assert (Hskip : skip_digits (fmt_u v) = []).
    { rewrite <- (app_nil_r (fmt_u v)), E. now rewrite skip_digits_app. }
    rewrite E in *. apply Forall_cons in Hds as [Hd _].
    destruct f as [|f]; [simpl in Hf; lia|]. cbn [parse_pa_table].
    destruct (Ascii.eqb_spec d "]") as [->|_]; [discriminate|].
    simpl in Hfit. destruct (Nat.leb_spec 8 (pa_table_count cmd)); [lia|].
    now rewrite Hd, Hskip.
  - simpl in Hfit. rewrite parse_pa_table_entry by (assumption || reflexivity || lia).
    apply IH; [discriminate | assumption | simpl; lia |].
    rewrite length_app in Hf. cbn [length] in Hf. lia.
Qed.

(** X6.  The scanner stays inside the line whenever the line does not
    name write_bulk, and whenever it holds neither of the keys of a bulk
    request: it then returns, with a command or with a failure.  Only the
    two loops over the registers object and the power-amplifier array can
    step behind the end of the line. *)
Theorem protocol_parse_command_returns (json : list ascii) (cmd0 : Command) :
  ~ names_command json (lit "write_bulk")
  \/ ((forall b r, json <> b ++ jlit "'registers'" ++ r)
      /\ (forall b r, json <> b ++ jlit "'pa_table'" ++ r)) ->
  exists ok cmd, protocol_parse_command json cmd0 = Done (ok, cmd).
Proof.
  intros H. pose proof (protocol_parse_command_named json cmd0) as Hnamed.
  destruct H as [Hbulk | [Hregs Hpa]].
  - destruct (protocol_parse_command json cmd0) as [[ok cmd]| |];
      [eauto | contradiction | contradiction].
  - clear Hnamed. unfold protocol_parse_command.
    rewrite (strstr_absent _ _ Hregs), (strstr_absent _ _ Hpa).
    destruct (strstr json (jlit "'cmd'")) as [cmd_pos|]; [|eauto].
    destruct (strchr cmd_pos ":") as [colon|]; [|eauto].
    repeat (destruct (_ =? 0); [eauto|]). eauto.
Qed.

(** A bulk request without its two keys. *)
Lemma protocol_parse_command_returns_witness :
  exists ok cmd,
    protocol_parse_command (jlit "{'cmd':'write_bulk'}") stale_cmd
    = Done (ok, cmd).
Proof.
  apply protocol_parse_command_returns. right. split; intros b r H.
  - assert (Hs : strstr (jlit "{'cmd':'write_bulk'}") (jlit "'registers'") = None)
      by reflexivity.
    exact (strstr_None _ _ Hs b r H).
  - assert (Hs : strstr (jlit "{'cmd':'write_bulk'}") (jlit "'pa_table'") = None)
      by reflexivity.
    exact (strstr_None _ _ Hs b r H).
Defined.

(** The characters of a power-amplifier array: digits and commas. *)
Lemma pa_entries_chars (pa : list Z) :
  Forall (fun v => 0 <= v <= INT_MAX) pa ->
  Forall (fun c => isdigit c = true \/ c = ","%char) (pa_entries pa).
Proof.
  induction 1 as [|v more Hv _ IH]; [constructor|].
  rewrite pa_entries_cons. apply Forall_app. split.
  - destruct (fmt_u_digits v) as (d & ds & -> & Hds); [lia|].
    eapply Forall_impl; [exact Hds|]. now left.
  - destruct more; [constructor|]. constructor; [now right | exact IH].
Qed.

Lemma strstr_pa_entries (pa : list Z) (key rest : list ascii) :
  Forall (fun v => 0 <= v <= INT_MAX) pa ->
  strstr (pa_entries pa ++ rest) (DQUOTE :: key) = strstr rest (DQUOTE :: key).
Proof.
  intros Hpa. apply strstr_skip_plain.
  eapply Forall_impl; [exact (pa_entries_chars pa Hpa)|].
  intros c [Hd| ->]; [intros ->|]; discriminate.
Qed.

(** X7.  Two shapes of write_bulk line on which the scanner reads behind
    the terminating NUL of the line: a registers object in which an
    opening double quote is followed by no colon up to the end of the line
    (a key without a value, or a line cut inside a key), and a
    power-amplifier array that ends the line right behind a number. *)
Theorem protocol_parse_command_over_read (cmd0 : Command) :
  (forall t : list ascii,
     ":"%char ∉ t ->
     protocol_parse_command (jlit "{'cmd':'write_bulk','registers':{'" ++ t) cmd0
     = OverRead)
  /\ (forall pa : list Z,
        pa <> [] -> (length pa <= 8)%nat ->
        Forall (fun v => 0 <= v <= INT_MAX) pa ->
        protocol_parse_command
          (jlit "{'cmd':'write_bulk','pa_table':[" ++ pa_entries pa) cmd0
        = OverRead).
Proof.
  split.
  - intros t Ht. unfold protocol_parse_command.
    cbn -[parse_registers parse_pa_table length].
    cbn [parse_registers length]. cbn.
    now rewrite (skip_to_colon_none t Ht).
  - intros pa Hne Hlen Hall.
    assert (Hregs : strstr (jlit "{'cmd':'write_bulk','pa_table':["
                            ++ pa_entries pa) (jlit "'registers'") = None).
    { transitivity (strstr (pa_entries pa ++ []) (jlit "'registers'"));
        [now rewrite app_nil_r|].
      exact (strstr_pa_entries pa (lit "registers" ++ [DQUOTE]) [] Hall). }
    unfold protocol_parse_command. rewrite Hregs.
    cbn -[parse_registers parse_pa_table length pa_entries].
    rewrite parse_pa_table_cut; auto.
Qed.

(** A key without a value, and an array cut behind its second entry. *)
Lemma protocol_parse_command_over_read_witness :
  protocol_parse_command (jlit "{'cmd':'write_bulk','registers':{'7'}}") stale_cmd
  = OverRead
  /\ protocol_parse_command (jlit "{'cmd':'write_bulk','pa_table':[192,3")
       stale_cmd = OverRead.
Proof.
  destruct (protocol_parse_command_over_read stale_cmd) as [Hkey Hcut]. split.
  - apply (Hkey (jlit "7'}}")). vm_compute. intros H.
    repeat (apply elem_of_cons in H as [H|H]; [discriminate|]).
    now apply elem_of_nil in H.
  - apply (Hcut [192; 3]); [discriminate | simpl; lia |].
    repeat constructor; vm_compute; discriminate.
Defined.

End ScannerReads.

(* ================================================================= *)
(** ** The power-amplifier loop behind the closing bracket *)

Section PaTableBracket.

Lemma parse_pa_table_junk (junk : list ascii) :
  forall (f : nat) (rest : list ascii) (cmd : Command),
  pa_junk junk ->
  (length (junk ++ rest) < f)%nat ->
  parse_pa_table f (junk ++ rest) cmd
  = if (8 <=? pa_table_count cmd)%nat then Done cmd
    else parse_pa_table f rest cmd.
Proof.
  induction junk as [|c junk IH]; intros f rest cmd Hj Hf.
  - destruct (Nat.leb_spec 8 (pa_table_count cmd)); [|reflexivity].
    apply parse_pa_table_full; [assumption | simpl in Hf; lia].
  - apply Forall_cons in Hj as [[Hd Hb] Hj]. cbn [app].
    rewrite parse_pa_table_skip by assumption.
    destruct (Nat.leb_spec 8 (pa_table_count cmd)) as [|Hlt]; [reflexivity|].
    rewrite IH by (assumption || (simpl in Hf; lia)).
    destruct (Nat.leb_spec 8 (pa_table_count cmd)); [lia | reflexivity].
Qed.

Lemma parse_pa_table_item (f : nat) (junk : list ascii) (v : Z) (sep : ascii)
                          (rest : list ascii) (cmd : Command) :
  pa_item (junk, v, sep) ->
  (pa_table_count cmd < 8)%nat ->
  (length (junk ++ fmt_u v ++ sep :: rest) < f)%nat ->
  parse_pa_table f (junk ++ fmt_u v ++ sep :: rest) cmd
  = parse_pa_table f rest (push_pa cmd (to_uint8 v)).
Proof.
  intros (Hj & Hv & Hsep) Hc Hf. simpl in Hj, Hv, Hsep.
  rewrite parse_pa_table_junk by assumption.
  destruct (Nat.leb_spec 8 (pa_table_count cmd)); [lia|].
  apply parse_pa_table_entry; try assumption.
  rewrite length_app in Hf. lia.
Qed.

(** The loop collects the numbers of the text, up to eight of them. *)
Lemma parse_pa_table_numbers (items : list (list ascii * Z * ascii)) :
  forall (f : nat) (tail : list ascii) (cmd : Command),
  Forall pa_item items -> pa_junk tail ->
  (length (numbers_text items ++ tail) < f)%nat ->
  parse_pa_table f (numbers_text items ++ tail) cmd
  = Done (push_pas cmd (take (8 - pa_table_count cmd)
                             (map (fun item => snd (fst item)) items))).
Proof.
  induction items as [|[[junk v] sep] items IH]; intros f tail cmd Hall Htail Hf.
  - cbn [numbers_text app map] in *. rewrite take_nil.
    rewrite <- (app_nil_r tail).
    rewrite parse_pa_table_junk by (rewrite ?app_nil_r; assumption).
    destruct (_ <=? _)%nat; [reflexivity|].
    destruct f as [|f]; [simpl in Hf; lia | reflexivity].
  - apply Forall_cons in Hall as [Hitem Hall].
    destruct (Nat.leb_spec 8 (pa_table_count cmd)) as [Hfull|Hlt].
    { rewrite parse_pa_table_full by (assumption || lia).
      replace (8 - pa_table_count cmd)%nat with 0%nat by lia. reflexivity. }
    cbn [numbers_text map fst snd] in *.
    replace (8 - pa_table_count cmd)%nat
      with (S (8 - S (pa_table_count cmd))) by lia.
    cbn [take push_pas fold_left].
    fold (push_pas (push_pa cmd (to_uint8 v))
            (take (8 - S (pa_table_count cmd))
                  (map (fun item => snd (fst item)) items))).
    rewrite <- !app_assoc in *. cbn [app] in *.
    rewrite parse_pa_table_item by assumption.
    rewrite IH; [reflexivity | assumption | assumption |].
    rewrite !length_app in Hf. cbn [length] in Hf. rewrite length_app in Hf.
    rewrite length_app. lia.
Qed.


Lemma numbers_text_app (items1 items2 : list (list ascii * Z * ascii)) :
  numbers_text (items1 ++ items2) = numbers_text items1 ++ numbers_text items2.
Proof.
  induction items1 as [|[[junk v] sep] items1 IH]; [reflexivity|].
  cbn [app numbers_text]. rewrite IH, <- !app_assoc. reflexivity.
Qed.

(** The entries of an array and its closing bracket, as numbers. *)
Lemma pa_entries_items (pa : list Z) (rest : list ascii) :
  pa <> [] ->
  Forall (fun v => 0 <= v <= INT_MAX) pa ->
  exists items,
    pa_entries pa ++ "]"%char :: rest = numbers_text items ++ rest
    /\ map (fun item => snd (fst item)) items = pa
    /\ Forall pa_item items.
Proof.
  induction pa as [|v more IH]; intros Hne Hall; [congruence|].
  apply Forall_cons in Hall as [Hv Hall]. rewrite pa_entries_cons.
  destruct more as [|w more].
  - exists [([], v, "]"%char)]. cbn [numbers_text map fst snd app].
    rewrite <- !app_assoc. repeat split; try apply Hv.
    repeat constructor; simpl; apply Hv.
  - destruct IH as (items & Etext & Emap & Hitems); [discriminate | assumption|].
    exists (([], v, ","%char) :: items). cbn [numbers_text map fst snd app].
    rewrite <- !app_assoc. cbn [app]. rewrite Etext, Emap.
    repeat split. constructor; [|exact Hitems].
    repeat split; simpl; try apply Hv. constructor.
Qed.

(** The entries of an object and its closing brace, as numbers. *)
Lemma register_entries_items (pairs : list (Z * Z)) (rest : list ascii) :
  pairs <> [] ->
  Forall (fun p => 0 <= fst p <= INT_MAX /\ 0 <= snd p <= INT_MAX) pairs ->
  exists items,
    register_entries pairs ++ "}"%char :: rest = numbers_text items ++ rest
    /\ map (fun item => snd (fst item)) items
       = concat (map (fun p => [fst p; snd p]) pairs)
    /\ Forall pa_item items.
Proof.
  induction pairs as [|[a v] more IH]; intros Hne Hall; [congruence|].
  apply Forall_cons in Hall as [[Ha Hv] Hall]. simpl in Ha, Hv.
  rewrite register_entries_cons. unfold register_entry. cbn [fst snd].
  rewrite !fmt_d_nonneg by lia.
  assert (Hitem : forall sep, isdigit sep = false ->
            Forall pa_item [([DQUOTE], a, DQUOTE); ([":"%char], v, sep)]).
  { intros sep Hsep. repeat constructor; simpl; try lia; try discriminate.
    exact Hsep. }
  destruct more as [|q more].
  - exists [([DQUOTE], a, DQUOTE); ([":"%char], v, "}"%char)].
    cbn [numbers_text map concat fst snd app].
    rewrite <- !app_assoc. cbn [app]. rewrite <- !app_assoc. cbn [app].
    repeat split. now apply Hitem.
  - destruct IH as (items & Etext & Emap & Hitems); [discriminate | assumption|].
    exists (([DQUOTE], a, DQUOTE) :: ([":"%char], v, ","%char) :: items).
    cbn [numbers_text map concat fst snd app].
    rewrite <- !app_assoc. cbn [app]. rewrite <- !app_assoc. cbn [app].
    rewrite Etext, Emap. repeat split.
    apply (Forall_app _ [_; _]). split; [now apply Hitem | exact Hitems].
Qed.


(** The loop over an array that is followed by the registers object: the
    bracket behind the last entry is stepped over with the entry, and the
    numbers of the object are read as further entries. *)
Lemma parse_pa_table_pa_first (pairs : list (Z * Z)) (pa : list Z)
                              (f : nat) (cmd : Command) :
  pa <> [] ->
  Forall (fun v => 0 <= v <= INT_MAX) pa ->
  Forall (fun p => 0 <= fst p <= INT_MAX /\ 0 <= snd p <= INT_MAX) pairs ->
  (length (pa_entries pa ++ jlit "],'registers':{" ++ register_entries pairs
           ++ lit "}}") < f)%nat ->
  parse_pa_table f (pa_entries pa ++ jlit "],'registers':{"
                    ++ register_entries pairs ++ lit "}}") cmd
  = Done (push_pas cmd
            (take (8 - pa_table_count cmd)
                  (pa ++ concat (map (fun p => [fst p; snd p]) pairs)))).
Proof.
  intros Hne Hpa Hpairs Hf.
  change (jlit "],'registers':{" ++ register_entries pairs ++ lit "}}")
    with ("]"%char :: jlit ",'registers':{" ++ register_entries pairs
          ++ "}"%char :: ["}"%char]) in *.
  assert (Hkey : pa_junk (jlit ",'registers':{"))
    by (repeat constructor; discriminate).
  destruct (pa_entries_items pa (jlit ",'registers':{" ++ register_entries pairs
                                 ++ "}"%char :: ["}"%char]) Hne Hpa)
    as (items1 & E1 & M1 & H1).
  rewrite E1 in *. clear E1.
  destruct pairs as [|p more].
  - cbn [register_entries map concat app] in *.
    rewrite parse_pa_table_numbers; [|exact H1| |exact Hf].
    + now rewrite M1, app_nil_r.
    + repeat constructor; discriminate.
  - destruct (register_entries_items (p :: more) ["}"%char])
      as (items2 & E2 & M2 & H2); [discriminate | exact Hpairs |].
    rewrite E2 in *. clear E2.
    destruct items2 as [|[[junk v] sep] items2]; [discriminate|].
    apply Forall_cons in H2 as [(Hj & Hv & Hsep) H2].
    assert (E : numbers_text items1 ++ jlit ",'registers':{"
                ++ numbers_text ((junk, v, sep) :: items2) ++ ["}"%char]
                = numbers_text (items1 ++ (jlit ",'registers':{" ++ junk, v, sep)
                                          :: items2) ++ ["}"%char]).
    { rewrite numbers_text_app. cbn [numbers_text].
      rewrite <- !app_assoc. reflexivity. }
    rewrite E in *. clear E.
    rewrite parse_pa_table_numbers; [| | |exact Hf].
    + rewrite map_app. cbn [map fst snd]. rewrite M1.
      change (v :: map (fun item => snd (fst item)) items2)
        with (map (fun item => snd (fst item)) ((junk, v, sep) :: items2)).
      now rewrite M2.
    + apply Forall_app. split; [exact H1|]. constructor; [|exact H2].
      simpl in Hj, Hv, Hsep.
      split; [apply Forall_app; now split | now split].
    + repeat constructor; discriminate.
Qed.

(** The fields of the command that holds the pairs and the entries. *)
Lemma bulk_command_fields (pairs : list (Z * Z)) (ns : list Z) :
  let cmd := push_pas (set_pa_table_count
                         (push_pairs (blank_cmd CMD_WRITE_BULK 0 0)
                                     (take MAX_BULK_REGISTERS pairs)) 0)
                      (take 8 ns) in
  type cmd = CMD_WRITE_BULK
  /\ bulk_count cmd = (47 `min` length pairs)%nat
  /\ take (bulk_count cmd) (bulk_regs cmd) = map stored_pair (take 47 pairs)
  /\ pa_table_count cmd = (8 `min` length ns)%nat
  /\ take (pa_table_count cmd) (pa_table cmd) = map to_uint8 (take 8 ns).
Proof.
  set (cmd1 := push_pairs _ _). set (cmd2 := set_pa_table_count cmd1 0).
  destruct (push_pairs_spec (take MAX_BULK_REGISTERS pairs)
              (blank_cmd CMD_WRITE_BULK 0 0))
    as (Hc1 & Ht1 & _ & Hty1 & _ & _ & Hpt1 & _);
    [reflexivity
    | rewrite length_take; unfold MAX_BULK_REGISTERS;
      cbn [bulk_count blank_cmd]; lia |].
  cbn zeta in *. fold cmd1 in Hc1, Ht1, Hty1, Hpt1.
  destruct (push_pas_spec (take 8 ns) cmd2)
    as (Hc2 & Ht2 & Hty2 & _ & _ & Hr2 & Hbc2).
  { subst cmd2. cbn [pa_table set_pa_table_count]. now rewrite Hpt1. }
  { subst cmd2. cbn [pa_table_count set_pa_table_count].
    rewrite length_take. lia. }
  cbn zeta in *. subst cmd2.
  cbn [type bulk_regs bulk_count pa_table pa_table_count set_pa_table_count] in *.
  rewrite Hty2, Hty1, Hr2, Hbc2, Ht1, Hc1, Ht2, Hc2.
  rewrite !length_take. unfold MAX_BULK_REGISTERS.
  cbn [type bulk_count blank_cmd take app]. repeat split; lia.
Qed.

(** X8.  In a write_bulk line that has the array in front of the
    registers object, the closing bracket behind the last entry does not
    end the array: the loop steps over it together with the entry, reads
    on, and takes the addresses and values of the object for further
    entries of the power-amplifier table, up to eight in all.  The
    registers themselves are scanned as usual. *)
Theorem pa_table_reads_behind_bracket
    (pairs : list (Z * Z)) (pa : list Z) (cmd0 : Command) :
  pa <> [] ->
  Forall (fun v => 0 <= v <= INT_MAX) pa ->
  Forall (fun p => 0 <= fst p <= INT_MAX /\ 0 <= snd p <= INT_MAX) pairs ->
  exists cmd,
    protocol_parse_command (write_bulk_line_pa_first pairs pa) cmd0
    = Done (true, cmd)
    /\ type cmd = CMD_WRITE_BULK
    /\ bulk_count cmd = (47 `min` length pairs)%nat
    /\ take (bulk_count cmd) (bulk_regs cmd) = map stored_pair (take 47 pairs)
    /\ pa_table_count cmd = (8 `min` (length pa + 2 * length pairs))%nat
    /\ take (pa_table_count cmd) (pa_table cmd)
       = map to_uint8
           (take 8 (pa ++ concat (map (fun p => [fst p; snd p]) pairs))).
Proof.
  intros Hne Hpa Hpairs.
  set (ns := pa ++ concat (map (fun p => [fst p; snd p]) pairs)).
  assert (Hns : length ns = (length pa + 2 * length pairs)%nat).
  { subst ns. rewrite length_app. f_equal. clear.
    induction pairs as [|p more IH]; [reflexivity|]. simpl. lia. }
  rewrite <- Hns.
  set (cmd := push_pas (set_pa_table_count
                          (push_pairs (blank_cmd CMD_WRITE_BULK 0 0)
                                      (take MAX_BULK_REGISTERS pairs)) 0)
                       (take 8 ns)).
  exists cmd. split; [|apply (bulk_command_fields pairs ns)].
  assert (Hint : Forall (fun p => INT_MIN <= fst p <= INT_MAX
                                  /\ INT_MIN <= snd p <= INT_MAX) pairs).
  { eapply Forall_impl; [exact Hpairs|]. unfold INT_MIN. intros p. lia. }
  assert (Hregs : strstr (write_bulk_line_pa_first pairs pa) (jlit "'registers'")
                  = Some (jlit "'registers':{" ++ register_entries pairs
                          ++ lit "}}")).
  { transitivity (strstr (pa_entries pa ++ jlit "],'registers':{"
                          ++ register_entries pairs ++ lit "}}")
                         (jlit "'registers'")); [reflexivity|].
    rewrite (strstr_pa_entries pa (lit "registers" ++ [DQUOTE]) _ Hpa).
    reflexivity. }
  unfold protocol_parse_command. rewrite Hregs. unfold write_bulk_line_pa_first.
  cbn -[parse_registers parse_pa_table length pa_entries register_entries
        char_code].
  change (char_code "b" - char_code "r" =? 0) with false. cbv iota.
  cbn -[parse_registers parse_pa_table length pa_entries register_entries].
  rewrite parse_registers_entries by (assumption || (simpl; lia)).
  pose proof (parse_pa_table_pa_first pairs pa
                (S (length (pa_entries pa ++ jlit "],'registers':{"
                            ++ register_entries pairs ++ lit "}}")))
                (set_pa_table_count
                   (push_pairs (blank_cmd CMD_WRITE_BULK 0 0)
                               (take MAX_BULK_REGISTERS pairs)) 0)
                Hne Hpa Hpairs (Nat.lt_succ_diag_r _)) as Hloop.
  fold ns in Hloop. cbn [pa_table_count set_pa_table_count] in Hloop.
  change (take (8 - 0) ns) with (take 8 ns) in Hloop. fold cmd in Hloop.
  transitivity (Done (negb (CommandType_eqb (type cmd) CMD_UNKNOWN), cmd)).
  - match goal with
    | |- match ?scan with Done _ => _ | OverRead => _ | OutOfFuel => _ end = _ =>
        change scan with (parse_pa_table
                (S (length (pa_entries pa ++ jlit "],'registers':{"
                            ++ register_entries pairs ++ lit "}}")))
                (pa_entries pa ++ jlit "],'registers':{"
                            ++ register_entries pairs ++ lit "}}")
                (set_pa_table_count
                   (push_pairs (blank_cmd CMD_WRITE_BULK 0 0)
                               (take MAX_BULK_REGISTERS pairs)) 0))
    end.
    rewrite Hloop. reflexivity.
  - destruct (bulk_command_fields pairs ns) as (Ht & _). fold cmd in Ht.
    now rewrite Ht.
Qed.

(** The array in front of the object: the table that should hold 192
    alone also holds the address 2 and the value 6 of the register. *)
Lemma pa_table_reads_behind_bracket_witness :
  exists cmd,
    protocol_parse_command
      (jlit "{'cmd':'write_bulk','pa_table':[192],'registers':{'2':6}}")
      stale_cmd = Done (true, cmd)
    /\ type cmd = CMD_WRITE_BULK
    /\ bulk_count cmd = 1%nat
    /\ take (bulk_count cmd) (bulk_regs cmd) = [mkPair 2 6]
    /\ pa_table_count cmd = 3%nat
    /\ take (pa_table_count cmd) (pa_table cmd) = [192; 2; 6].
Proof.
  apply (pa_table_reads_behind_bracket [(2, 6)] [192] stale_cmd).
  - discriminate.
  - repeat constructor; vm_compute; discriminate.
  - repeat constructor; vm_compute; discriminate.
Defined.

End PaTableBracket.

(* ================================================================= *)
(** ** Commands and the state of the application *)

Section CommandState.

Variable app : App.
Variable cmd0 : Command.

(** X9.  A line that names ping is answered by the acknowledgment and by
    nothing else: no call into the SubGHz HAL, whether or not the backend
    is initialised and whatever else the line holds; the command is
    counted and the status text says so. *)
Theorem ping_acknowledged (json : list ascii) :
  names_command json (lit "ping") ->
  app_process_command app json cmd0
  = Done (mkApp (uart app) (cc1101 app) (running app)
                ((commands_processed app + 1) mod 2 ^ 32) (lit "Ping OK"),
          [furi_hal_cdc_send (jlit "{'type':'ack','success':true}");
           furi_hal_cdc_send [LF]]).
Proof.
  intros Hn.
  apply names_command_scanned in Hn as (cmd_pos & colon & rest & Hs & Hc & Hv).
  change (skip_space_quote (lit "ping" ++ rest)) with (lit "ping" ++ rest) in Hv.
  unfold app_process_command, protocol_parse_command.
  rewrite Hs, Hc. cbv zeta. rewrite Hv.
  rewrite !strncmp_word by (try reflexivity; repeat constructor; discriminate).
  reflexivity.
Qed.

(** The counts of a command are 0 when the line lacks their keys. *)
Lemma protocol_parse_command_counts (json : list ascii) (ok : bool)
                                    (cmd : Command) :
  protocol_parse_command json cmd0 = Done (ok, cmd) ->
  (strstr json (jlit "'registers'") = None -> bulk_count cmd = 0%nat)
  /\ (strstr json (jlit "'pa_table'") = None -> pa_table_count cmd = 0%nat).
Proof.
  unfold protocol_parse_command.
  pose proof (memset_Command_wf cmd0) as Hz.
  destruct (strstr json (jlit "'cmd'")) as [cmd_pos|];
    [|intros [= <- <-]; auto].
  destruct (strchr cmd_pos ":") as [colon|]; [|intros [= <- <-]; auto].
  destruct (_ =? 0).
  { intros [= <- <-].
    destruct (find_int json (jlit "'addr'")), (find_int json (jlit "'value'"));
      auto. }
  destruct (_ =? 0).
  { set (cmd1 := set_type _ CMD_WRITE_BULK).
    assert (Hwf1 : Command_wf cmd1) by exact Hz.
    destruct (strstr json (jlit "'registers'")) as [regs_pos|] eqn:Er.
    - destruct (strchr regs_pos "{") as [regs_obj|].
      + destruct (parse_registers _ _ _) as [cmd2| |] eqn:Eregs; try discriminate.
        apply parse_registers_inv in Eregs as (W & _ & _ & _ & _ & Hpc); auto.
        intros H. split; [discriminate|]. intros Hp. rewrite Hp in H.
        now inversion H; subst.
      + intros H. split; [discriminate|]. intros Hp. rewrite Hp in H.
        now inversion H; subst.
    - destruct (strstr json (jlit "'pa_table'")) as [pa_pos|];
        [|intros [= <- <-]; auto].
      destruct (strchr pa_pos "[") as [pa_arr|]; [|intros [= <- <-]; auto].
      destruct (parse_pa_table _ _ _) as [cmd3| |] eqn:Epa; try discriminate.
      apply parse_pa_table_inv in Epa as (_ & _ & _ & _ & _ & Hbc).
      + intros [= <- <-]. split; [intros _; exact Hbc | discriminate].
      + exact Hz. }
  destruct (_ =? 0).
  { intros [= <- <-]. destruct (find_int json (jlit "'addr'")); auto. }
  destruct (_ =? 0); intros [= <- <-]; auto.
Qed.

(** X10.  A write_bulk command has no register pair when the line lacks
    the key of the object, and no power-amplifier entry when it lacks the
    key of the array.  A line that lacks both is still carried out on an
    initialised backend: the register load holds the terminator alone, the
    table is not loaded, and the answer is the acknowledgment. *)
Theorem write_bulk_missing_keys (json : list ascii) (cmd : Command) :
  protocol_parse_command json cmd0 = Done (true, cmd) ->
  type cmd = CMD_WRITE_BULK ->
  ((forall b r, json <> b ++ jlit "'registers'" ++ r) -> bulk_count cmd = 0%nat)
  /\ ((forall b r, json <> b ++ jlit "'pa_table'" ++ r) ->
      pa_table_count cmd = 0%nat)
  /\ ((forall b r, json <> b ++ jlit "'registers'" ++ r) ->
      (forall b r, json <> b ++ jlit "'pa_table'" ++ r) ->
      initialized (cc1101 app) = true ->
      app_process_command app json cmd0
      = Done (mkApp (uart app) (cc1101 app) (running app)
                    ((commands_processed app + 1) mod 2 ^ 32)
                    (lit "Bulk: 0 regs"),
              [furi_hal_subghz_load_registers [0; 0];
               furi_hal_cdc_send (jlit "{'type':'ack','success':true}");
               furi_hal_cdc_send [LF]])).
Proof.
  intros Hp Ht.
  destruct (protocol_parse_command_counts json true cmd Hp) as [Hregs Hpa].
  split; [|split].
  - intros Habs. apply Hregs. now apply strstr_absent.
  - intros Habs. apply Hpa. now apply strstr_absent.
  - intros Hr Ha Hi.
    rewrite (app_process_command_parsed _ _ _ _ Hp).
    unfold app_execute, cc1101_write_bulk. rewrite Ht, Hi.
    rewrite (Hregs (strstr_absent _ _ Hr)), (Hpa (strstr_absent _ _ Ha)).
    reflexivity.
Qed.

(** The cases of one request. *)
Lemma app_process_command_cases
    (json : list ascii) (app' : App) (hal : list HalCall) :
  app_process_command app json cmd0 = Done (app', hal) ->
  exists subghz response,
    hal = subghz ++ [furi_hal_cdc_send response; furi_hal_cdc_send [LF]]
    /\ cdc_sent subghz = []
    /\ (((response = jlit "{'type':'ack','success':true}"
          \/ response = jlit "{'type':'data','value':0}")
         /\ uart app' = uart app /\ cc1101 app' = cc1101 app
         /\ running app' = running app
         /\ commands_processed app' = (commands_processed app + 1) mod 2 ^ 32)
        \/ ((response = jlit "{'type':'error','code':1,'msg':'Invalid JSON'}"
             \/ response = jlit "{'type':'error','code':5,'msg':'Write failed'}"
             \/ response
                = jlit "{'type':'error','code':5,'msg':'Bulk write failed'}")
            /\ app' = app)).
Proof.
  unfold app_process_command.
  destruct (protocol_parse_command json cmd0) as [[[] cmd]| |] eqn:Hp;
    try discriminate.
  2:{ intros [= <- <-]. eexists [], _. split; [reflexivity|].
      split; [reflexivity|]. right. auto. }
  apply protocol_parse_command_Done in Hp as (_ & Hok & _).
  unfold app_execute, cc1101_write_register, cc1101_write_bulk,
    cc1101_write_patable.
  destruct (type cmd); [discriminate| | | |].
  - destruct (initialized (cc1101 app)); simpl negb; cbv iota.
    + destruct (_ <? _); intros [= <- <-].
      * eexists [], _. split; [reflexivity|]. split; [reflexivity|]. right. auto.
      * eexists [_], _. split; [reflexivity|]. split; [reflexivity|].
        left. simpl. auto 10.
    + intros [= <- <-].
      eexists [], _. split; [reflexivity|]. split; [reflexivity|]. right. auto.
  - destruct (initialized (cc1101 app)); simpl negb; cbv iota.
    + destruct (bulk_reg_data _ _).
      * destruct (0 <? pa_table_count cmd)%nat; intros [= <- <-].
        -- eexists [_; _], _. split; [reflexivity|]. split; [reflexivity|].
           left. simpl. auto 10.
        -- eexists [_], _. split; [reflexivity|]. split; [reflexivity|].
           left. simpl. auto 10.
      * intros [= <- <-].
        eexists [], _. split; [reflexivity|]. split; [reflexivity|]. right. auto.
    + intros [= <- <-].
      eexists [], _. split; [reflexivity|]. split; [reflexivity|]. right. auto.
  - rewrite cc1101_read_register_zero. intros [= <- <-].
    eexists [], _. split; [reflexivity|]. split; [reflexivity|].
    left. simpl. auto 10.
  - intros [= <- <-].
    eexists [], _. split; [reflexivity|]. split; [reflexivity|].
    left. simpl. auto 10.
Qed.

(** X11.  What one request does.  It is answered by exactly one line, sent
    behind the calls into the SubGHz HAL, and the line is one of five: the
    acknowledgment, the data line with value 0, or the error line with
    code 1 or (with either of two messages) code 5; the codes 2, 3 and 4
    are never sent.  After an error line the application is exactly as it
    was, status text and counter included; after a success the counter has
    grown by one and nothing but the status text has changed besides. *)
Theorem app_process_command_outcome
    (json : list ascii) (app' : App) (hal : list HalCall) :
  app_process_command app json cmd0 = Done (app', hal) ->
  exists subghz response,
    hal = subghz ++ [furi_hal_cdc_send response; furi_hal_cdc_send [LF]]
    /\ cdc_sent subghz = []
    /\ (((response = jlit "{'type':'ack','success':true}"
          \/ response = jlit "{'type':'data','value':0}")
         /\ uart app' = uart app /\ cc1101 app' = cc1101 app
         /\ running app' = running app
         /\ commands_processed app' = (commands_processed app + 1) mod 2 ^ 32)
        \/ ((response = jlit "{'type':'error','code':1,'msg':'Invalid JSON'}"
             \/ response = jlit "{'type':'error','code':5,'msg':'Write failed'}"
             \/ response
                = jlit "{'type':'error','code':5,'msg':'Bulk write failed'}")
            /\ app' = app)).
Proof. apply app_process_command_cases. Qed.

(** X12.  On a backend that is not initialised every write fails before
    any call into the SubGHz HAL: a write_register and a write_bulk command
    are both answered by the error line with code 5 (ERR_WRITE_FAILED, not
    ERR_DEVICE_NOT_AVAILABLE), and the application stays as it was. *)
Theorem uninitialised_backend_rejects_writes (json : list ascii) (cmd : Command) :
  initialized (cc1101 app) = false ->
  protocol_parse_command json cmd0 = Done (true, cmd) ->
  (type cmd = CMD_WRITE_REGISTER ->
   app_process_command app json cmd0
   = Done (app, [furi_hal_cdc_send
                   (jlit "{'type':'error','code':5,'msg':'Write failed'}");
                 furi_hal_cdc_send [LF]]))
  /\ (type cmd = CMD_WRITE_BULK ->
      app_process_command app json cmd0
      = Done (app, [furi_hal_cdc_send
                      (jlit "{'type':'error','code':5,'msg':'Bulk write failed'}");
                    furi_hal_cdc_send [LF]])).
Proof.
  intros Hi Hp. rewrite (app_process_command_parsed _ _ _ _ Hp).
  unfold app_execute, cc1101_write_register, cc1101_write_bulk.
  split; intros ->; now rewrite Hi.
Qed.

End CommandState.

(** A ping with spaces around the colon and a second member. *)
Lemma ping_acknowledged_witness :
  app_process_command app_example (jlit "{ 'cmd' : 'ping', 'id' : 7 }") stale_cmd
  = Done (mkApp (uart app_example) (cc1101 app_example) true 1 (lit "Ping OK"),
          [furi_hal_cdc_send (jlit "{'type':'ack','success':true}");
           furi_hal_cdc_send [LF]]).
Proof.
  apply (ping_acknowledged app_example stale_cmd).
  exact (protocol_parse_command_named (jlit "{ 'cmd' : 'ping', 'id' : 7 }")
           stale_cmd).
Defined.

(** The shortest bulk request. *)
Lemma write_bulk_missing_keys_witness :
  app_process_command app_example (jlit "{'cmd':'write_bulk'}") stale_cmd
  = Done (mkApp (uart app_example) (cc1101 app_example) true 1
                (lit "Bulk: 0 regs"),
          [furi_hal_subghz_load_registers [0; 0];
           furi_hal_cdc_send (jlit "{'type':'ack','success':true}");
           furi_hal_cdc_send [LF]]).
Proof.
  assert (Hr : strstr (jlit "{'cmd':'write_bulk'}") (jlit "'registers'") = None)
    by reflexivity.
  assert (Ha : strstr (jlit "{'cmd':'write_bulk'}") (jlit "'pa_table'") = None)
    by reflexivity.
  apply (proj2 (proj2 (write_bulk_missing_keys app_example stale_cmd
                         (jlit "{'cmd':'write_bulk'}")
                         (blank_cmd CMD_WRITE_BULK 0 0) eq_refl eq_refl))).
  - exact (strstr_None _ _ Hr).
  - exact (strstr_None _ _ Ha).
  - reflexivity.
Defined.

(** A write beyond the last register: the error line, and the application
    as it was. *)
Lemma app_process_command_outcome_witness :
  exists subghz response,
    [furi_hal_cdc_send (jlit "{'type':'error','code':5,'msg':'Write failed'}");
     furi_hal_cdc_send [LF]]
    = subghz ++ [furi_hal_cdc_send response; furi_hal_cdc_send [LF]]
    /\ cdc_sent subghz = []
    /\ (((response = jlit "{'type':'ack','success':true}"
          \/ response = jlit "{'type':'data','value':0}")
         /\ uart app_example = uart app_example
         /\ cc1101 app_example = cc1101 app_example
         /\ running app_example = running app_example
         /\ commands_processed app_example
            = (commands_processed app_example + 1) mod 2 ^ 32)
        \/ ((response = jlit "{'type':'error','code':1,'msg':'Invalid JSON'}"
             \/ response = jlit "{'type':'error','code':5,'msg':'Write failed'}"
             \/ response
                = jlit "{'type':'error','code':5,'msg':'Bulk write failed'}")
            /\ app_example = app_example)).
Proof.
  apply (app_process_command_outcome app_example stale_cmd
           (jlit "{'cmd':'write_register','addr':99,'value':1}")).
  reflexivity.
Defined.

(** A backend that was never initialised. *)
Lemma uninitialised_backend_rejects_writes_witness :
  app_process_command
    (mkApp (uart_init (repeat NUL 1024)) (mkCc1101 false) true 0 [])
    (jlit "{'cmd':'write_register','addr':1,'value':2}") stale_cmd
  = Done (mkApp (uart_init (repeat NUL 1024)) (mkCc1101 false) true 0 [],
          [furi_hal_cdc_send
             (jlit "{'type':'error','code':5,'msg':'Write failed'}");
           furi_hal_cdc_send [LF]]).
Proof.
  apply (proj1 (uninitialised_backend_rejects_writes
                  (mkApp (uart_init (repeat NUL 1024)) (mkCc1101 false) true 0 [])
                  stale_cmd
                  (jlit "{'cmd':'write_register','addr':1,'value':2}")
                  (blank_cmd CMD_WRITE_REGISTER 1 2) eq_refl eq_refl)).
  reflexivity.
Defined.

(* ================================================================= *)
(** ** Sessions: the main loop *)

Section Sessions.

Variable cmd0 : Command.

Lemma set_uart_uart (app : App) : set_uart app (uart app) = app.
Proof. now destruct app. Qed.

Lemma app_process_command_uart (app : App) (ctx : UartContext)
                               (json : list ascii) :
  app_process_command (set_uart app ctx) json cmd0
  = match app_process_command app json cmd0 with
    | Done (app', hal) => Done (set_uart app' ctx, hal)
    | OverRead => OverRead
    | OutOfFuel => OutOfFuel
    end.
Proof.
  unfold app_process_command.
  destruct (protocol_parse_command json cmd0) as [[[] cmd]| |]; try reflexivity.
  unfold app_execute. cbn [cc1101 set_uart].
  destruct (type cmd); try reflexivity.
  - now destruct (cc1101_write_register _ _ _) as [[] hal].
  - destruct (cc1101_write_bulk _ _ _) as [ok hal1].
    now destruct (if ok && _ then _ else _) as [[] hal2].
Qed.

Lemma process_lines_uart (lines : list (list ascii)) :
  forall (app : App) (ctx : UartContext),
  process_lines (set_uart app ctx) lines cmd0
  = match process_lines app lines cmd0 with
    | Done (app', hal) => Done (set_uart app' ctx, hal)
    | OverRead => OverRead
    | OutOfFuel => OutOfFuel
    end.
Proof.
  induction lines as [|line lines IH]; intros app ctx; [reflexivity|].
  cbn [process_lines]. rewrite app_process_command_uart.
  destruct (app_process_command app line cmd0) as [[app1 hal]| |];
    try reflexivity.
  rewrite IH. now destruct (process_lines app1 lines cmd0) as [[app2 hal2]| |].
Qed.

Lemma cdc_sent_app (hal1 hal2 : list HalCall) :
  cdc_sent (hal1 ++ hal2) = cdc_sent hal1 ++ cdc_sent hal2.
Proof.
  induction hal1 as [|[] hal1 IH]; simpl; auto. now rewrite IH.
Qed.

(** One request in the count of the successes. *)
Lemma app_process_command_counted
    (app : App) (json : list ascii) (app' : App) (hal : list HalCall) :
  app_process_command app json cmd0 = Done (app', hal) ->
  length (cdc_sent hal) = 2%nat
  /\ uart app' = uart app /\ cc1101 app' = cc1101 app
  /\ running app' = running app
  /\ ((successes hal = 1%nat
       /\ commands_processed app' = (commands_processed app + 1) mod 2 ^ 32)
      \/ (successes hal = 0%nat
          /\ commands_processed app' = commands_processed app)).
Proof.
  intros H.
  destruct (app_process_command_cases app cmd0 json app' hal H)
    as (subghz & response & -> & Hs & Hcase).
  unfold successes. rewrite cdc_sent_app, Hs. cbn [Datatypes.app cdc_sent length].
  split; [reflexivity|].
  destruct Hcase as [(Hr & Hu & Hc & Hrun & Hn) | (Hr & ->)].
  - repeat (split; [assumption|]). left. split; [|exact Hn].
    now destruct Hr as [-> | ->].
  - repeat (split; [reflexivity|]). right. split; [|reflexivity].
    now destruct Hr as [-> | [-> | ->]].
Qed.

(** With the flag cleared no round is entered. *)
Lemma cc1101_bridge_app_loop_stopped (app : App) (polls : list (list ascii)) :
  running app = false ->
  cc1101_bridge_app_loop app polls cmd0 = Done (app, []).
Proof.
  intros Hrun. destruct polls as [|rx polls]; [reflexivity|].
  cbn [cc1101_bridge_app_loop]. now rewrite Hrun.
Qed.

(** The main loop, entered with the flag set, handles the lines that the
    reassembler delivers, in their order. *)
Lemma cc1101_bridge_app_loop_lines (polls : list (list ascii)) :
  forall app : App,
  running app = true ->
  exists ctx,
    cc1101_bridge_app_loop app polls cmd0
    = match process_lines app (uart_lines (uart app) polls) cmd0 with
      | Done (app', hal) => Done (set_uart app' ctx, hal)
      | OverRead => OverRead
      | OutOfFuel => OutOfFuel
      end.
Proof.
  induction polls as [|rx polls IH]; intros app Hrun.
  - exists (uart app). simpl. now rewrite set_uart_uart.
  - cbn [cc1101_bridge_app_loop uart_lines]. rewrite Hrun.
    destruct (uart_scan (uart app) rx) as [ctx1 [line|]].
    + cbn [process_lines]. rewrite app_process_command_uart.
      destruct (app_process_command app line cmd0) as [[app1 hal]| |] eqn:E1;
        [|now exists ctx1 | now exists ctx1].
      apply app_process_command_counted in E1 as (_ & _ & _ & Hrun1 & _).
      destruct (IH (set_uart app1 ctx1)) as [ctx E].
      { cbn [running set_uart]. now rewrite Hrun1. }
      exists ctx. rewrite E.
      cbn [uart set_uart]. rewrite process_lines_uart.
      now destruct (process_lines app1 _ cmd0) as [[app2 hal2]| |].
    + destruct (IH (set_uart app ctx1)) as [ctx E]; [exact Hrun|].
      exists ctx. rewrite E.
      cbn [uart set_uart]. rewrite process_lines_uart.
      now destruct (process_lines app _ cmd0) as [[app2 hal2]| |].
Qed.

(** X13.  A session, end to end.  Requests that fit the line buffer, hold
    no CR, LF or NUL and arrive each with its line end at the end of a
    chunk are handled one after the other, in the order of their arrival
    and however the transport cuts them: the HAL calls of the main loop
    are those of the requests handled in turn, and so is the state it
    leaves (the UART context apart); lines without a byte are passed
    over. *)
Theorem cc1101_bridge_app_loop_serves
    (mem : list ascii) (ls : list (list ascii))
    (pollss : list (list (list ascii))) :
  length mem = LINE_BUFFER_SIZE ->
  Forall (fun l => no_line_end l /\ (length l < LINE_BUFFER_SIZE)%nat
                   /\ NUL ∉ l) ls ->
  Forall2 brings_line pollss ls ->
  exists ctx,
    cc1101_bridge_app_loop (cc1101_bridge_app_start mem) (concat pollss) cmd0
    = match process_lines (cc1101_bridge_app_start mem)
                          (List.filter nonempty ls) cmd0 with
      | Done (app', hal) => Done (set_uart app' ctx, hal)
      | OverRead => OverRead
      | OutOfFuel => OutOfFuel
      end.
Proof.
  intros Hmem Hls Hpolls.
  destruct (cc1101_bridge_app_loop_lines (concat pollss)
              (cc1101_bridge_app_start mem) eq_refl) as [ctx E].
  exists ctx. rewrite E. cbn [uart cc1101_bridge_app_start].
  rewrite (uart_lines_runs ls pollss);
    [| exact Hpolls | | exact Hmem | reflexivity].
  - rewrite omap_kept_of_fits.
    + replace (map c_str (List.filter nonempty ls)) with (List.filter nonempty ls);
        [reflexivity|].
      clear -Hls. induction Hls as [|l ls (_ & _ & Hn) _ IH]; [reflexivity|].
      simpl. destruct (nonempty l); [|exact IH].
      simpl. now rewrite <- IH, c_str_id.
    + eapply Forall_impl; [exact Hls|]. now intros l (H1 & H2 & _).
  - eapply Forall_impl; [exact Hls|]. now intros l (H1 & _).
Qed.

(** X14.  While the main loop runs, the counter of the application
    counts the requests that were answered with success (acknowledgment or
    data line), modulo 2^32; every line the reassembler delivers is
    answered by exactly one response (two calls of [furi_hal_cdc_send]);
    and the backend context is never touched.  With the flag [running]
    cleared no round is entered: nothing is received or sent, and the
    application stays as it is. *)
Theorem cc1101_bridge_app_loop_counts (polls : list (list ascii)) :
  forall (app app' : App) (hal : list HalCall),
  0 <= commands_processed app < 2 ^ 32 ->
  cc1101_bridge_app_loop app polls cmd0 = Done (app', hal) ->
  commands_processed app'
  = (commands_processed app + Z.of_nat (successes hal)) mod 2 ^ 32
  /\ length (cdc_sent hal)
     = (if running app then 2 * length (uart_lines (uart app) polls) else 0)%nat
  /\ cc1101 app' = cc1101 app
  /\ (running app = false -> app' = app /\ hal = []).
Proof.
  intros app app' hal Hc H.
  destruct (running app) eqn:Hrun.
  2:{ rewrite cc1101_bridge_app_loop_stopped in H by exact Hrun.
      injection H as <- <-. cbn. rewrite Z.add_0_r, Z.mod_small by exact Hc.
      auto. }
  assert (Hgoal : commands_processed app'
                  = (commands_processed app + Z.of_nat (successes hal)) mod 2 ^ 32
                  /\ length (cdc_sent hal)
                     = (2 * length (uart_lines (uart app) polls))%nat
                  /\ cc1101 app' = cc1101 app).
  2:{ destruct Hgoal as (Hn & Hl & Hcc). repeat split; auto; discriminate. }
  revert app app' hal Hc H Hrun.
  induction polls as [|rx polls IH]; intros app app' hal Hc H Hrun.
  - inversion H; subst. cbn. rewrite Z.add_0_r, Z.mod_small by exact Hc. auto.
  - cbn [cc1101_bridge_app_loop uart_lines] in *. rewrite Hrun in H.
    destruct (uart_scan (uart app) rx) as [ctx1 [line|]].
    + destruct (app_process_command (set_uart app ctx1) line cmd0)
        as [[app1 hal1]| |] eqn:E1; try discriminate.
      destruct (cc1101_bridge_app_loop app1 polls cmd0)
        as [[app2 hal2]| |] eqn:E2; try discriminate.
      inversion H; subst. clear H.
      apply app_process_command_counted in E1
        as (Hlen & Hu & Hcc & Hrun1 & Hcount).
      cbn [uart cc1101 running commands_processed set_uart] in *.
      assert (Hc1 : 0 <= commands_processed app1 < 2 ^ 32).
      { destruct Hcount as [[_ ->] | [_ ->]]; [|exact Hc].
        apply Z.mod_pos_bound. lia. }
      destruct (IH app1 app' hal2 Hc1 E2) as (Hn & Hl & Hcc');
        [now rewrite Hrun1|].
      rewrite Hu in Hl.
      unfold successes in *. rewrite cdc_sent_app, List.filter_app, !length_app.
      rewrite Hn, Hl, Hlen, Hcc', Hcc. cbn [length].
      repeat split; try lia.
      destruct Hcount as [[-> ->] | [-> ->]].
      * rewrite Zplus_mod_idemp_l. f_equal. lia.
      * f_equal.
    + destruct (IH (set_uart app ctx1) app' hal Hc H Hrun) as (Hn & Hl & Hcc).
      cbn [uart cc1101 running commands_processed set_uart] in *. auto.
Qed.

(** X15.  What the application sends for a request is one well-formed
    line: the response and a line feed, in two calls, the response free of
    CR, LF and NUL and short enough for a line buffer like its own; a
    reassembler as in [uart_receive_line], fed with the two chunks,
    delivers exactly the response. *)
Theorem responses_are_lines
    (app : App) (json mem : list ascii) (app' : App) (hal : list HalCall) :
  app_process_command app json cmd0 = Done (app', hal) ->
  length mem = LINE_BUFFER_SIZE ->
  exists response,
    response_of hal = Some response
    /\ cdc_sent hal = [response; [LF]]
    /\ uart_lines (uart_init mem) (cdc_sent hal) = [response].
Proof.
  intros H Hmem.
  destruct (app_process_command_cases app cmd0 json app' hal H)
    as (subghz & response & -> & Hs & Hcase).
  exists response. rewrite cdc_sent_app, Hs. cbn [Datatypes.app cdc_sent].
  split; [apply (response_of_send subghz response)|]. split; [reflexivity|].
  assert (Hr : no_line_end response /\ kept_of response = Some response).
  { destruct Hcase as [([-> | ->] & _) | ([-> | [-> | ->]] & _)];
      (split; [repeat constructor | reflexivity]). }
  destruct Hr as [Hno Hkept].
  pose proof (uart_lines_runs [response] [[response; [LF]]] (uart_init mem))
    as Hrun.
  cbn [concat] in Hrun. rewrite !app_nil_r in Hrun. rewrite Hrun.
  - change (omap kept_of [response])
      with (match kept_of response with Some l => [l] | None => [] end).
    now rewrite Hkept.
  - repeat constructor. exists LF. split; [reflexivity|].
    cbn [concat]. now rewrite app_nil_r.
  - now repeat constructor.
  - exact Hmem.
  - reflexivity.
Qed.

End Sessions.

(** A ping in one chunk, then a write request cut in two chunks and closed
    by CR: both are carried out, in this order. *)
Lemma cc1101_bridge_app_loop_serves_witness :
  exists ctx app',
    cc1101_bridge_app_loop app_example
      [jlit "{'cmd':'ping'}" ++ [LF];
       jlit "{'cmd':'write_register',"; jlit "'addr':15,'value':200}" ++ [CR]]
      stale_cmd
    = Done (set_uart app' ctx,
            [furi_hal_cdc_send (jlit "{'type':'ack','success':true}");
             furi_hal_cdc_send [LF];
             furi_hal_subghz_load_registers [15; 200; 0; 0];
             furi_hal_cdc_send (jlit "{'type':'ack','success':true}");
             furi_hal_cdc_send [LF]]).
Proof.
  destruct (cc1101_bridge_app_loop_serves stale_cmd (repeat NUL 1024)
              [jlit "{'cmd':'ping'}";
               jlit "{'cmd':'write_register','addr':15,'value':200}"]
              [[jlit "{'cmd':'ping'}" ++ [LF]];
               [jlit "{'cmd':'write_register',";
                jlit "'addr':15,'value':200}" ++ [CR]]])
    as [ctx E].
  - reflexivity.
  - repeat constructor; try (vm_compute; lia);
      vm_compute; intros H;
      repeat (apply elem_of_cons in H as [H|H]; [discriminate|]);
      now apply elem_of_nil in H.
  - repeat constructor; eexists; (split; [|reflexivity]); reflexivity.
  - exists ctx. eexists. exact E.
Defined.

(** A ping, a line that is no request, and a read: two successes, three
    responses; and the same chunks with the flag cleared. *)
Lemma cc1101_bridge_app_loop_counts_witness :
  (exists app' hal,
     cc1101_bridge_app_loop app_example
       [jlit "{'cmd':'ping'}" ++ [LF]; lit "what?" ++ [LF];
        jlit "{'cmd':'read_register','addr':1}" ++ [CR]] stale_cmd
     = Done (app', hal)
     /\ commands_processed app' = 2
     /\ length (cdc_sent hal) = 6%nat)
  /\ (exists app' hal,
        cc1101_bridge_app_loop
          (mkApp (uart_init (repeat NUL 1024)) (mkCc1101 true) false 0 [])
          [jlit "{'cmd':'ping'}" ++ [LF]; lit "what?" ++ [LF];
           jlit "{'cmd':'read_register','addr':1}" ++ [CR]] stale_cmd
        = Done (app', hal)
        /\ commands_processed app' = 0
        /\ length (cdc_sent hal) = 0%nat).
Proof.
  split.
  - eexists _, _. split; [vm_compute; reflexivity|].
    match goal with
    | |- commands_processed ?a = _ /\ length (cdc_sent ?h) = _ =>
        destruct (cc1101_bridge_app_loop_counts stale_cmd
                    [jlit "{'cmd':'ping'}" ++ [LF]; lit "what?" ++ [LF];
                     jlit "{'cmd':'read_register','addr':1}" ++ [CR]]
                    app_example a h) as (Hn & Hl & _)
    end.
    + vm_compute. split; [discriminate | reflexivity].
    + vm_compute. reflexivity.
    + rewrite Hn, Hl. split; vm_compute; reflexivity.
  - eexists _, _. split; [vm_compute; reflexivity|].
    match goal with
    | |- commands_processed ?a = _ /\ length (cdc_sent ?h) = _ =>
        destruct (cc1101_bridge_app_loop_counts stale_cmd
                    [jlit "{'cmd':'ping'}" ++ [LF]; lit "what?" ++ [LF];
                     jlit "{'cmd':'read_register','addr':1}" ++ [CR]]
                    (mkApp (uart_init (repeat NUL 1024)) (mkCc1101 true) false 0 [])
                    a h) as (Hn & Hl & _)
    end.
    + vm_compute. split; [discriminate | reflexivity].
    + vm_compute. reflexivity.
    + rewrite Hn, Hl. split; vm_compute; reflexivity.
Defined.

(** The answer to a write request, read back as a line. *)
Lemma responses_are_lines_witness :
  exists response,
    response_of [furi_hal_subghz_load_registers [15; 200; 0; 0];
                 furi_hal_cdc_send (jlit "{'type':'ack','success':true}");
                 furi_hal_cdc_send [LF]] = Some response
    /\ cdc_sent [furi_hal_subghz_load_registers [15; 200; 0; 0];
                 furi_hal_cdc_send (jlit "{'type':'ack','success':true}");
                 furi_hal_cdc_send [LF]] = [response; [LF]]
    /\ uart_lines (uart_init (repeat NUL 1024))
         (cdc_sent [furi_hal_subghz_load_registers [15; 200; 0; 0];
                    furi_hal_cdc_send (jlit "{'type':'ack','success':true}");
                    furi_hal_cdc_send [LF]]) = [response].
Proof.
  apply (responses_are_lines stale_cmd app_example
           (jlit "{'cmd':'write_register','addr':15,'value':200}")
           (repeat NUL 1024)
           (fst (app_execute app_example (blank_cmd CMD_WRITE_REGISTER 15 200))));
    reflexivity.
Defined.

(* ================================================================= *)
(** ** What reaches the SubGHz HAL *)

Section HalData.

Lemma bulk_reg_data_inv (regs : list RegisterPair) : forall reg_data data,
  bulk_reg_data regs reg_data = Some data ->
  data = reg_data ++ concat (map (fun r => [reg_addr r; reg_value r]) regs)
  /\ Forall (fun r => reg_addr r <= CC1101_MAX_REGISTER) regs.
Proof.
  induction regs as [|r regs IH]; intros reg_data data; simpl.
  - intros [= <-]. now rewrite app_nil_r.
  - destruct (Z.ltb_spec CC1101_MAX_REGISTER (reg_addr r)) as [|Hle];
      [discriminate|].
    intros Hd. apply IH in Hd as [-> Hall]. rewrite <- app_assoc.
    split; [reflexivity | now constructor].
Qed.

Lemma pairs_data_length (regs : list RegisterPair) :
  length (concat (map (fun r => [reg_addr r; reg_value r]) regs))
  = (2 * length regs)%nat.
Proof. induction regs as [|r regs IH]; simpl; lia. Qed.

Lemma pairs_data_uint8 (regs : list RegisterPair) :
  Forall (fun r => uint8 (reg_addr r) /\ uint8 (reg_value r)) regs ->
  Forall uint8 (concat (map (fun r => [reg_addr r; reg_value r]) regs)).
Proof.
  induction 1 as [|r regs [Ha Hv] _ IH]; simpl; [constructor|].
  constructor; [exact Ha|]. constructor; [exact Hv | exact IH].
Qed.

(** X16.  Whatever the request, the data handed to the SubGHz HAL are in
    bounds.  A register load holds at most 96 bytes, the size of the array
    that [cc1101_write_bulk] fills (its index never passes the end, since
    the scanner stops at 47 pairs): pairs of an address up to 46 and a
    value, then the terminator of two zeros.  A table load holds exactly 8
    bytes.  Every byte is within 0..255. *)
Theorem hal_data_in_bounds
    (app : App) (json : list ascii) (cmd0 : Command)
    (app' : App) (hal : list HalCall) :
  app_process_command app json cmd0 = Done (app', hal) ->
  (forall data, furi_hal_subghz_load_registers data ∈ hal ->
     (length data <= 2 * MAX_BULK_REGISTERS + 2)%nat
     /\ Forall uint8 data
     /\ exists regs,
          data = concat (map (fun r => [reg_addr r; reg_value r]) regs)
                 ++ [0; 0]
          /\ Forall (fun r => 0 <= reg_addr r <= 46) regs)
  /\ (forall data, furi_hal_subghz_load_patable data ∈ hal ->
        length data = 8%nat /\ Forall uint8 data).
Proof.
  unfold app_process_command.
  destruct (protocol_parse_command json cmd0) as [[[] cmd]| |] eqn:Hp;
    try discriminate.
  2:{ intros [= <- <-]. split; intros data Hin;
      repeat (apply elem_of_cons in Hin as [Hin|Hin]; [discriminate|]);
      now apply elem_of_nil in Hin. }
  apply protocol_parse_command_Done in Hp
    as ((Hlen & Hcount & Hplen & Hpcount & Ha & Hv & Hregs & Hpa) & _).
  assert (Hzero : Forall uint8 [0; 0]) by (repeat constructor; lia).
  unfold app_execute.
  destruct (type cmd).
  - intros [= <- <-]. split; intros data Hin;
      repeat (apply elem_of_cons in Hin as [Hin|Hin]; [discriminate|]);
      now apply elem_of_nil in Hin.
  - unfold cc1101_write_register.
    destruct (negb _); [|destruct (Z.ltb_spec CC1101_MAX_REGISTER (addr cmd))];
      intros [= <- <-]; split; intros data Hin;
      repeat (apply elem_of_cons in Hin as [Hin|Hin];
              [try discriminate Hin|]);
      try (now apply elem_of_nil in Hin).
    injection Hin as ->. split; [simpl; lia|]. split.
    + repeat constructor; try apply Ha; try apply Hv; lia.
    + exists [mkPair (addr cmd) (value cmd)]. split; [reflexivity|].
      repeat constructor; simpl; [apply Ha | unfold CC1101_MAX_REGISTER in *; lia].
  - unfold cc1101_write_bulk.
    destruct (initialized (cc1101 app)) eqn:Hi; simpl negb; cbv iota.
    2:{ intros [= <- <-]. split; intros data Hin;
        repeat (apply elem_of_cons in Hin as [Hin|Hin]; [discriminate|]);
        now apply elem_of_nil in Hin. }
    destruct (bulk_reg_data _ _) as [reg_data|] eqn:Eb.
    2:{ intros [= <- <-]. split; intros data Hin;
        repeat (apply elem_of_cons in Hin as [Hin|Hin]; [discriminate|]);
        now apply elem_of_nil in Hin. }
    apply bulk_reg_data_inv in Eb as [-> Hok]. cbn [Datatypes.app] in *.
    assert (Htake : Forall (fun r => uint8 (reg_addr r) /\ uint8 (reg_value r))
                           (take (bulk_count cmd) (bulk_regs cmd)))
      by now apply Forall_take.
    assert (Hload : forall data,
              data = concat (map (fun r => [reg_addr r; reg_value r])
                                 (take (bulk_count cmd) (bulk_regs cmd)))
                     ++ [0; 0] ->
              (length data <= 2 * MAX_BULK_REGISTERS + 2)%nat
              /\ Forall uint8 data
              /\ exists regs,
                   data = concat (map (fun r => [reg_addr r; reg_value r]) regs)
                          ++ [0; 0]
                   /\ Forall (fun r => 0 <= reg_addr r <= 46) regs).
    { intros data ->. split; [|split].
      - rewrite length_app, pairs_data_length, length_take.
        unfold MAX_BULK_REGISTERS in *. cbn [length]. lia.
      - apply Forall_app. split; [now apply pairs_data_uint8 | exact Hzero].
      - eexists. split; [reflexivity|].
        apply Forall_forall. intros r Hr.
        pose proof (proj1 (Forall_forall _ _) Hok r Hr) as H1.
        pose proof (proj1 (Forall_forall _ _) Htake r Hr) as [[H2 _] _].
        unfold CC1101_MAX_REGISTER in H1. lia. }
    destruct (0 <? pa_table_count cmd)%nat; cbn [andb].
    + rewrite cc1101_write_patable_spec by assumption.
      intros [= <- <-]. split; intros data Hin;
        repeat (apply elem_of_cons in Hin as [Hin|Hin];
                [try discriminate Hin|]);
        try (now apply elem_of_nil in Hin).
      * injection Hin as ->. now apply Hload.
      * injection Hin as ->. split.
        -- rewrite length_app, length_take, repeat_length. lia.
        -- apply Forall_app. split; [now apply Forall_take|].
           apply Forall_forall. intros x Hx.
           apply list_elem_of_In, repeat_spec in Hx as ->. unfold uint8. lia.
    + intros [= <- <-]. split; intros data Hin;
        repeat (apply elem_of_cons in Hin as [Hin|Hin];
                [try discriminate Hin|]);
        try (now apply elem_of_nil in Hin).
      injection Hin as ->. now apply Hload.
  - intros [= <- <-]. split; intros data Hin;
      repeat (apply elem_of_cons in Hin as [Hin|Hin]; [discriminate|]);
      now apply elem_of_nil in Hin.
  - intros [= <- <-]. split; intros data Hin;
      repeat (apply elem_of_cons in Hin as [Hin|Hin]; [discriminate|]);
      now apply elem_of_nil in Hin.
Qed.

End HalData.

(** Fifty pairs in one request: 47 of them reach the HAL, in 96 bytes. *)
Lemma hal_data_in_bounds_witness :
  exists app' data,
    app_process_command app_example (write_bulk_line fifty_pairs [192]) stale_cmd
    = Done (app',
            [furi_hal_subghz_load_registers data;
             furi_hal_subghz_load_patable [192; 0; 0; 0; 0; 0; 0; 0];
             furi_hal_cdc_send (jlit "{'type':'ack','success':true}");
             furi_hal_cdc_send [LF]])
    /\ length data = 96%nat /\ Forall uint8 data.
Proof.
  destruct (app_process_command app_example
              (write_bulk_line fifty_pairs [192]) stale_cmd)
    as [[app' hal]| |] eqn:E; [|vm_compute in E; discriminate..].
  destruct (hal_data_in_bounds _ _ _ _ _ E) as [Hload _].
  vm_compute in E. injection E as <- <-.
  eexists _, _. split; [reflexivity|]. split; [reflexivity|].
  apply Hload, list_elem_of_here.
Defined.

(* ================================================================= *)
(** ** Formatted text: status and responses *)

Section FormattedText.

Lemma fmt_digits_length (fuel : nat) (base : Z) (digit : Z -> ascii) :
  forall n acc,
  (length (fmt_digits fuel base digit n acc) <= fuel + length acc)%nat.
Proof.
  induction fuel as [|fuel IH]; intros n acc; simpl; [lia|].
  destruct (n <? base); simpl; [lia|].
  eapply Nat.le_trans; [apply IH|]. simpl. lia.
Qed.

(** A number below 2^k has at most k digits, and at least one. *)
Lemma fmt_u_length (n : Z) (k : nat) :
  0 <= n < 2 ^ Z.of_nat k -> (0 < k)%nat -> (length (fmt_u n) <= k)%nat.
Proof.
  intros Hn Hk. unfold fmt_u.
  eapply Nat.le_trans; [apply fmt_digits_length|]. simpl.
  destruct (Z.eq_dec n 0) as [->|Hne]; [simpl; lia|].
  assert (Z.log2 n < Z.of_nat k) by (apply Z.log2_lt_pow2; lia).
  pose proof (Z.log2_nonneg n). lia.
Qed.

(** [%02X] of a byte: two upper-case hexadecimal digits. *)
Lemma fmt_02X_uint8 (n : Z) : uint8 n -> fmt_02X n = hex2 n.
Proof.
  unfold uint8. intros Hn. unfold fmt_02X, hex2.
  destruct (Z.ltb_spec n 16) as [Hlt|Hge].
  - cbn [fmt_digits]. destruct (Z.ltb_spec n 16); [|lia]. cbn [length Nat.ltb Nat.leb].
    rewrite Z.div_small, Z.mod_small by lia. reflexivity.
  - assert (Hlog : 4 <= Z.log2 n) by (apply Z.log2_le_pow2; lia).
    destruct (Z.to_nat (Z.log2 n)) as [|k] eqn:Ek; [lia|].
    cbn [fmt_digits]. destruct (Z.ltb_spec n 16); [lia|].
    destruct (Z.ltb_spec (n / 16) 16) as [_|Hbig]; [reflexivity|].
    exfalso. assert (n / 16 < 16) by (apply Z.div_lt_upper_bound; lia). lia.
Qed.

(** X17.  The status text after a request carried out with success (a
    request answered by the acknowledgment or by the data line): the text
    of its command in full, bytes as two upper-case hexadecimal digits;
    the 64 characters of [status_text] never cut it short. *)
Theorem status_text_shown
    (app : App) (json : list ascii) (cmd0 cmd : Command)
    (app' : App) (hal : list HalCall) :
  protocol_parse_command json cmd0 = Done (true, cmd) ->
  app_process_command app json cmd0 = Done (app', hal) ->
  response_of hal = Some (jlit "{'type':'ack','success':true}")
  \/ response_of hal = Some (jlit "{'type':'data','value':0}") ->
  status_text app' = status_of cmd
  /\ (length (status_text app') <= 17)%nat.
Proof.
  intros Hp H Hr. rewrite (app_process_command_parsed _ _ _ _ Hp) in H.
  apply protocol_parse_command_Done in Hp
    as ((_ & Hcount & _ & _ & Ha & Hv & _) & _).
  assert (Hfit : forall text, (length text <= 17)%nat ->
                   snprintf 64 text = text /\ (length text <= 17)%nat).
  { intros text Hl. split; [|exact Hl]. unfold snprintf. apply take_ge. simpl. lia. }
  assert (Hbulk : (length (fmt_u (Z.of_nat (bulk_count cmd))) <= 6)%nat).
  { apply fmt_u_length; [|lia]. unfold MAX_BULK_REGISTERS in Hcount.
    change (2 ^ Z.of_nat 6) with 64. lia. }
  assert (Hshow : forall (a : App) (text : list ascii),
            (length text <= 17)%nat ->
            status_text (count_command (set_status_text a (snprintf 64 text)) true)
            = text
            /\ (length (status_text
                          (count_command (set_status_text a (snprintf 64 text))
                                         true)) <= 17)%nat).
  { intros a text Hl. cbn [status_text count_command set_status_text].
    destruct (Hfit text Hl) as [-> _]. now split. }
  unfold app_execute, status_of in *.
  destruct (type cmd).
  - inversion H; subst. destruct Hr as [Hr|Hr]; discriminate Hr.
  - rewrite !fmt_02X_uint8 in H by assumption.
    destruct (cc1101_write_register _ _ _) as [[] hal1];
      inversion H; subst; clear H.
    + apply Hshow. simpl. lia.
    + rewrite response_of_send in Hr. destruct Hr as [Hr|Hr]; discriminate Hr.
  - destruct (cc1101_write_bulk _ _ _) as [ok hal1].
    destruct (if ok && _ then _ else _) as [[] hal2];
      inversion H; subst; clear H.
    + apply Hshow. rewrite !length_app. simpl. lia.
    + rewrite !app_assoc, response_of_send in Hr.
      destruct Hr as [Hr|Hr]; discriminate Hr.
  - rewrite cc1101_read_register_zero, !fmt_02X_uint8 in H
      by (assumption || (unfold uint8; lia)).
    inversion H; subst. apply Hshow. simpl. lia.
  - inversion H; subst. apply Hshow. simpl. lia.
Qed.

(** X18.  The data line for a byte is never cut short by its buffer of 64
    characters, and the number it carries reads back as the byte when the
    line is looked up the way the scanner looks up an integer field. *)
Theorem protocol_generate_data_read_back (v : Z) :
  0 <= v <= 255 ->
  protocol_generate_data v
  = jlit "{'type':'data','value':" ++ fmt_u v ++ lit "}"
  /\ find_int (protocol_generate_data v) (jlit "'value'") = Some v.
Proof.
  intros Hv.
  assert (Hlen : (length (fmt_u v) <= 8)%nat).
  { apply fmt_u_length; [|lia]. change (2 ^ Z.of_nat 8) with 256. lia. }
  assert (E : protocol_generate_data v
              = jlit "{'type':'data','value':" ++ fmt_u v ++ lit "}").
  { unfold protocol_generate_data, snprintf. apply take_ge.
    rewrite !length_app. simpl. lia. }
  split; [exact E|]. rewrite E. unfold find_int.
  cbn -[atoi fmt_u to_uint8].
  rewrite <- fmt_d_nonneg by lia.
  rewrite atoi_fmt_d by (unfold INT_MIN, INT_MAX; try lia; reflexivity).
  unfold to_uint8. rewrite Z.mod_small by lia. reflexivity.
Qed.

(** X19.  The error line and its buffer of 256 characters.  The line
    never has more than 255 characters.  With a message of up to 221
    characters it is complete; with a message of 223 characters or more it
    stops inside the message, so that neither the closing double quote nor
    the closing brace is sent. *)
Theorem protocol_generate_error_cut (code : ErrorCode) (msg : list ascii) :
  (length (protocol_generate_error code msg) <= 255)%nat
  /\ ((length msg <= 221)%nat ->
      protocol_generate_error code msg
      = jlit "{'type':'error','code':" ++ fmt_d (error_code code)
        ++ jlit ",'msg':'" ++ msg ++ jlit "'}")
  /\ ((223 <= length msg)%nat ->
      protocol_generate_error code msg
      = jlit "{'type':'error','code':" ++ fmt_d (error_code code)
        ++ jlit ",'msg':'" ++ take 223 msg).
Proof.
  unfold protocol_generate_error, snprintf.
  assert (Hcode : exists d, fmt_d (error_code code) = [d])
    by (destruct code; eexists; reflexivity).
  destruct Hcode as [d ->].
  split; [|split].
  - rewrite length_take. lia.
  - intros Hl. apply take_ge. rewrite !length_app. simpl. lia.
  - intros Hl.
    change (256 - 1)%nat with (32 + 223)%nat.
    rewrite !app_assoc.
    rewrite <- (app_assoc _ msg).
    rewrite (take_app_add' _ _ 32 223) by reflexivity.
    now rewrite take_app_le by exact Hl.
Qed.

End FormattedText.

(** A write of 200 to register 15. *)
Lemma status_text_shown_witness :
  status_text
    (fst (app_execute app_example (blank_cmd CMD_WRITE_REGISTER 15 200)))
  = lit "Wrote 0x0F->0xC8"
  /\ (length (status_text
                (fst (app_execute app_example
                        (blank_cmd CMD_WRITE_REGISTER 15 200)))) <= 17)%nat.
Proof.
  apply (status_text_shown app_example
           (jlit "{'cmd':'write_register','addr':15,'value':200}") stale_cmd
           (blank_cmd CMD_WRITE_REGISTER 15 200) _
           (snd (app_execute app_example (blank_cmd CMD_WRITE_REGISTER 15 200)))).
  - reflexivity.
  - reflexivity.
  - left. reflexivity.
Defined.

Lemma protocol_generate_data_read_back_witness :
  protocol_generate_data 255 = jlit "{'type':'data','value':255}"
  /\ find_int (protocol_generate_data 255) (jlit "'value'") = Some 255.
Proof.
  apply (protocol_generate_data_read_back 255). lia.
Defined.

(** The longest message that still fits, and one character more than the
    shortest that loses both closing marks. *)
Lemma protocol_generate_error_cut_witness :
  protocol_generate_error ERR_WRITE_FAILED (repeat "m"%char 221)
  = jlit "{'type':'error','code':5,'msg':'" ++ repeat "m"%char 221 ++ jlit "'}"
  /\ protocol_generate_error ERR_WRITE_FAILED (repeat "m"%char 224)
     = jlit "{'type':'error','code':5,'msg':'" ++ repeat "m"%char 223.
Proof.
  destruct (protocol_generate_error_cut ERR_WRITE_FAILED (repeat "m"%char 221))
    as (_ & Hfull & _).
  destruct (protocol_generate_error_cut ERR_WRITE_FAILED (repeat "m"%char 224))
    as (_ & _ & Hcut).
  split.
  - apply Hfull. rewrite repeat_length. lia.
  - apply Hcut. rewrite repeat_length. lia.
Defined.

(* ================================================================= *)
(** ** The table write of the backend *)

Section PaTableWrite.

(** The copy loop on a table of any length that holds the entries it
    reads. *)
Lemma patable_copy_prefix (pa : list Z) (n : nat) : forall i,
  (i + n <= 8)%nat -> (i + n <= length pa)%nat ->
  patable_copy pa (take i pa ++ repeat 0 (8 - i)) i n
  = take (i + n) pa ++ repeat 0 (8 - (i + n)).
Proof.
  induction n as [|n IH]; intros i Hin Hlen; simpl.
  - now rewrite Nat.add_0_r.
  - destruct (lookup_lt_is_Some_2 pa i) as [x Hx]; [lia|].
    rewrite (nth_lookup_Some _ _ _ _ Hx).
    assert (Hstep : <[i := x]> (take i pa ++ repeat 0 (8 - i))
                    = take (S i) pa ++ repeat 0 (8 - S i)).
    { rewrite insert_app_r_alt by (rewrite length_take; lia).
      rewrite length_take, Nat.min_l, Nat.sub_diag by lia.
      replace (8 - i)%nat with (S (8 - S i)) by lia. simpl.
      rewrite (take_S_r _ _ x Hx), <- app_assoc. reflexivity. }
    rewrite Hstep, IH by lia. now rewrite Nat.add_succ_r.
Qed.

(** X20.  [cc1101_write_patable] hands the HAL exactly 8 bytes whatever
    the count it is given: the first [count] entries of the table, at most
    8 of them (a larger count is taken for 8), and zeros behind them.
    Without an initialised backend it fails and calls nothing. *)
Theorem cc1101_write_patable_clamped
    (ctx : Cc1101Context) (pa : list Z) (count : nat) :
  (count `min` 8 <= length pa)%nat ->
  cc1101_write_patable ctx pa count
  = if initialized ctx
    then (true, [furi_hal_subghz_load_patable
                   (take (count `min` 8) pa
                    ++ repeat 0 (8 - count `min` 8))])
    else (false, []).
Proof.
  intros Hlen. unfold cc1101_write_patable.
  destruct (initialized ctx); [|reflexivity]. simpl negb. cbv iota.
  unfold PA_TABLE_SIZE. cbv zeta.
  pose proof (patable_copy_prefix pa (count `min` 8) 0) as Hcopy.
  change (take 0 pa ++ repeat 0 (8 - 0)) with (repeat 0 8) in Hcopy.
  destruct (Nat.ltb_spec 8 count).
  - rewrite Nat.min_r in * by lia. now rewrite Hcopy by lia.
  - rewrite Nat.min_l in * by lia. now rewrite Hcopy by lia.
Qed.

End PaTableWrite.

(** A count of 200 for a table of ten entries, and a count of 2. *)
Lemma cc1101_write_patable_clamped_witness :
  cc1101_write_patable (mkCc1101 true) [1; 2; 3; 4; 5; 6; 7; 8; 9; 10] 200
  = (true, [furi_hal_subghz_load_patable [1; 2; 3; 4; 5; 6; 7; 8]])
  /\ cc1101_write_patable (mkCc1101 true) [192; 3] 2
     = (true, [furi_hal_subghz_load_patable [192; 3; 0; 0; 0; 0; 0; 0]]).
Proof.
  split.
  - apply (cc1101_write_patable_clamped (mkCc1101 true)
             [1; 2; 3; 4; 5; 6; 7; 8; 9; 10] 200). simpl. lia.
  - apply (cc1101_write_patable_clamped (mkCc1101 true) [192; 3] 2). simpl. lia.
Defined.

(* ================================================================= *)
(** ** Members in another order, and signs *)

Section OtherLines.

Variable cmd0 : Command.

Lemma strstr_fmt_d (n : Z) (key rest : list ascii) :
  strstr (fmt_d n ++ rest) (DQUOTE :: key) = strstr rest (DQUOTE :: key).
Proof.
  apply strstr_skip_plain.
  destruct (fmt_d_numchars n) as (d & ds & -> & Hall).
  eapply Forall_impl; [exact Hall|]. intros c Hc. now apply is_numchar_plain.
Qed.

(** X21.  The members of a request may come in any order, since each key
    is looked up from the start of the line: the write_register line with
    its members reversed is scanned into the same command as the line of
    the wire format, for every address and value of type [int]. *)
Theorem write_register_members_reversed (a v : Z) :
  INT_MIN <= a <= INT_MAX -> INT_MIN <= v <= INT_MAX ->
  protocol_parse_command (write_register_line_reversed a v) cmd0
  = Done (true, blank_cmd CMD_WRITE_REGISTER (a mod 256) (v mod 256))
  /\ protocol_parse_command (write_register_line_reversed a v) cmd0
     = protocol_parse_command (write_register_line a v) cmd0.
Proof.
  intros Ha Hv.
  assert (E : protocol_parse_command (write_register_line_reversed a v) cmd0
              = Done (true, blank_cmd CMD_WRITE_REGISTER (a mod 256) (v mod 256))).
  { set (tail := jlit ",'cmd':'write_register'}").
    set (mid := jlit ",'addr':" ++ fmt_d a ++ tail).
    assert (Hcmd : strstr (write_register_line_reversed a v) (jlit "'cmd'")
                   = Some (jlit "'cmd':'write_register'}")).
    { transitivity (strstr (fmt_d v ++ mid) (jlit "'cmd'")); [reflexivity|].
      rewrite (strstr_fmt_d v (lit "cmd" ++ [DQUOTE])).
      transitivity (strstr (fmt_d a ++ tail) (jlit "'cmd'")); [reflexivity|].
      rewrite (strstr_fmt_d a (lit "cmd" ++ [DQUOTE])). reflexivity. }
    assert (Haddr : find_int (write_register_line_reversed a v) (jlit "'addr'")
                    = Some (a mod 256)).
    { unfold find_int.
      assert (Hs : strstr (write_register_line_reversed a v) (jlit "'addr'")
                   = Some (jlit "'addr':" ++ fmt_d a ++ tail)).
      { transitivity (strstr (fmt_d v ++ mid) (jlit "'addr'")); [reflexivity|].
        rewrite (strstr_fmt_d v (lit "addr" ++ [DQUOTE])). reflexivity. }
      rewrite Hs. cbn -[atoi fmt_d to_uint8].
      now rewrite atoi_fmt_d by (assumption || reflexivity). }
    assert (Hvalue : find_int (write_register_line_reversed a v) (jlit "'value'")
                     = Some (v mod 256)).
    { unfold find_int, write_register_line_reversed.
      cbn -[atoi fmt_d to_uint8].
      now rewrite atoi_fmt_d by (assumption || reflexivity). }
    unfold protocol_parse_command. rewrite Hcmd, Haddr, Hvalue. reflexivity. }
  split; [exact E|]. rewrite E. symmetry.
  now apply protocol_parse_command_write_register.
Qed.

(** The characters of an array printed with signs. *)
Lemma pa_entries_signed_chars (pa : list Z) :
  Forall (fun c => c <> DQUOTE) (pa_entries_signed pa).
Proof.
  induction pa as [|v more IH]; [constructor|].
  cbn [pa_entries_signed]. apply Forall_app. split.
  - destruct (fmt_d_numchars v) as (d & ds & -> & Hall).
    eapply Forall_impl; [exact Hall|]. intros c Hc. now apply is_numchar_plain.
  - destruct more; [constructor|]. constructor; [discriminate | exact IH].
Qed.

(** The entries of an array printed with signs, as numbers: the sign is
    a character in front of the number. *)
Lemma pa_entries_signed_items (pa : list Z) (rest : list ascii) :
  pa <> [] ->
  Forall (fun v => - INT_MAX <= v <= INT_MAX) pa ->
  exists items,
    pa_entries_signed pa ++ "]"%char :: rest = numbers_text items ++ rest
    /\ map (fun item => snd (fst item)) items = map Z.abs pa
    /\ Forall pa_item items.
Proof.
  induction pa as [|v more IH]; intros Hne Hall; [congruence|].
  apply Forall_cons in Hall as [Hv Hall].
  assert (Hitem : forall sep, isdigit sep = false ->
            exists junk,
              fmt_d v = junk ++ fmt_u (Z.abs v) /\ pa_item (junk, Z.abs v, sep)).
  { intros sep Hsep. unfold fmt_d. destruct (Z.ltb_spec v 0).
    - exists ["-"%char]. rewrite Z.abs_neq by lia. split; [reflexivity|].
      repeat split; simpl; try lia; try assumption.
      repeat constructor; discriminate.
    - exists []. rewrite Z.abs_eq by lia. split; [reflexivity|].
      repeat split; simpl; try lia; try assumption. constructor. }
  cbn [pa_entries_signed].
  destruct more as [|w more].
  - destruct (Hitem "]"%char eq_refl) as (junk & -> & Hi).
    exists [(junk, Z.abs v, "]"%char)]. cbn [numbers_text map fst snd].
    rewrite <- ?app_assoc. cbn [app]. rewrite <- ?app_assoc.
    repeat split. now constructor.
  - destruct (Hitem ","%char eq_refl) as (junk & -> & Hi).
    destruct IH as (items & Etext & Emap & Hitems); [discriminate | assumption|].
    exists ((junk, Z.abs v, ","%char) :: items). cbn [numbers_text map fst snd].
    rewrite <- ?app_assoc. cbn [app]. rewrite <- ?app_assoc. cbn [app].
    rewrite Etext, Emap. repeat split. now constructor.
Qed.

(** X22.  The entries of the power-amplifier array lose their signs: the
    loop starts each entry at its first digit, so that a minus sign in
    front of it is stepped over and the entry stored is the absolute
    value, reduced modulo 256 (where a register value of -1 is stored as
    255, an array entry of -1 is stored as 1). *)
Theorem pa_table_signs_dropped (pa : list Z) :
  pa <> [] ->
  Forall (fun v => - INT_MAX <= v <= INT_MAX) pa ->
  exists cmd,
    protocol_parse_command
      (jlit "{'cmd':'write_bulk','pa_table':[" ++ pa_entries_signed pa
       ++ lit "]}") cmd0
    = Done (true, cmd)
    /\ type cmd = CMD_WRITE_BULK
    /\ bulk_count cmd = 0%nat
    /\ pa_table_count cmd = (8 `min` length pa)%nat
    /\ take (pa_table_count cmd) (pa_table cmd)
       = map (fun v => to_uint8 (Z.abs v)) (take 8 pa).
Proof.
  intros Hne Hpa.
  set (cmd := push_pas (set_pa_table_count
                          (push_pairs (blank_cmd CMD_WRITE_BULK 0 0)
                                      (take MAX_BULK_REGISTERS [])) 0)
                       (take 8 (map Z.abs pa))).
  destruct (bulk_command_fields [] (map Z.abs pa))
    as (Ht & Hbc & _ & Hpc & Hpt).
  fold cmd in Ht, Hbc, Hpc, Hpt.
  exists cmd. rewrite Ht, Hbc, Hpt, Hpc, length_map, List.firstn_map, map_map.
  repeat split.
  assert (Hregs : strstr (jlit "{'cmd':'write_bulk','pa_table':["
                          ++ pa_entries_signed pa ++ lit "]}")
                         (jlit "'registers'") = None).
  { transitivity (strstr (pa_entries_signed pa ++ lit "]}") (jlit "'registers'"));
      [reflexivity|].
    now rewrite (strstr_skip_plain DQUOTE (lit "registers" ++ [DQUOTE]) _ _
                   (pa_entries_signed_chars pa)). }
  unfold protocol_parse_command. rewrite Hregs.
  cbn -[parse_registers parse_pa_table length pa_entries_signed char_code].
  change (char_code "b" - char_code "r" =? 0) with false. cbv iota.
  cbn -[parse_registers parse_pa_table length pa_entries_signed].
  destruct (pa_entries_signed_items pa ["}"%char] Hne Hpa)
    as (items & Etext & Emap & Hitems).
  change (pa_entries_signed pa ++ ["]"%char; "}"%char])
    with (pa_entries_signed pa ++ "]"%char :: ["}"%char]).
  rewrite Etext.
  rewrite parse_pa_table_numbers;
    [| exact Hitems | repeat constructor; discriminate | simpl; lia].
  rewrite Emap. cbn [pa_table_count set_pa_table_count].
  change (take (8 - 0) (map Z.abs pa)) with (take 8 (map Z.abs pa)).
  change (Done (negb (CommandType_eqb (type cmd) CMD_UNKNOWN), cmd)
          = Done (true, cmd)).
  now rewrite Ht.
Qed.

End OtherLines.

(** A value of 200 for register 15, the members reversed. *)
Lemma write_register_members_reversed_witness :
  protocol_parse_command
    (jlit "{'value':200,'addr':15,'cmd':'write_register'}") stale_cmd
  = Done (true, blank_cmd CMD_WRITE_REGISTER 15 200).
Proof.
  apply (proj1 (write_register_members_reversed stale_cmd 15 200
                  ltac:(vm_compute; split; discriminate)
                  ltac:(vm_compute; split; discriminate))).
Defined.

(** An array that holds -1 and 192. *)
Lemma pa_table_signs_dropped_witness :
  exists cmd,
    protocol_parse_command (jlit "{'cmd':'write_bulk','pa_table':[-1,192]}")
      stale_cmd = Done (true, cmd)
    /\ type cmd = CMD_WRITE_BULK
    /\ bulk_count cmd = 0%nat
    /\ pa_table_count cmd = 2%nat
    /\ take (pa_table_count cmd) (pa_table cmd) = [1; 192].
Proof.
  apply (pa_table_signs_dropped stale_cmd [-1; 192]).
  - discriminate.
  - repeat constructor; vm_compute; discriminate.
Defined.

(* ================================================================= *)
(** ** Numbers in quotes, and requests one after the other *)

Section QuotedAndIndependent.

(** X23.  A number written as a string is read as 0: [atoi] stops at the
    opening double quote.  The write_register line with both numbers in
    quotes is scanned, whatever the numbers, into a write of 0 to register
    0, which an initialised backend carries out and acknowledges. *)
Theorem quoted_numbers_read_as_zero (app : App) (cmd0 : Command) (a v : Z) :
  protocol_parse_command (write_register_line_quoted a v) cmd0
  = Done (true, blank_cmd CMD_WRITE_REGISTER 0 0)
  /\ (initialized (cc1101 app) = true ->
      exists app',
        app_process_command app (write_register_line_quoted a v) cmd0
        = Done (app',
                [furi_hal_subghz_load_registers [0; 0; 0; 0];
                 furi_hal_cdc_send (jlit "{'type':'ack','success':true}");
                 furi_hal_cdc_send [LF]])).
Proof.
  assert (Hvalue : find_int (write_register_line_quoted a v) (jlit "'value'")
                   = Some 0).
  { unfold find_int.
    assert (Hs : strstr (write_register_line_quoted a v) (jlit "'value'")
                 = Some (jlit "'value':'" ++ fmt_d v ++ jlit "'}")).
    { transitivity (strstr (DQUOTE :: fmt_d a ++ jlit "','value':'" ++ fmt_d v
                            ++ jlit "'}") (jlit "'value'")); [reflexivity|].
      pose proof (strstr_fmt_d a (lit "value" ++ [DQUOTE])
                    (jlit "','value':'" ++ fmt_d v ++ jlit "'}")) as Hskip.
      destruct (fmt_d_numchars a) as (d & ds & Ea & Hall).
      rewrite Ea in *. apply Forall_cons in Hall as [Hd _].
      change (jlit "'value'") with (DQUOTE :: "v"%char :: lit "alue" ++ [DQUOTE]).
      cbn [strstr starts_with Datatypes.app]. rewrite Ascii.eqb_refl.
      destruct (Ascii.eqb_spec d "v") as [->|_].
      { destruct Hd as [Hd|Hd]; discriminate Hd. }
      cbn [andb]. exact Hskip. }
    rewrite Hs. reflexivity. }
  assert (Hparse : protocol_parse_command (write_register_line_quoted a v) cmd0
                   = Done (true, blank_cmd CMD_WRITE_REGISTER 0 0)).
  { unfold protocol_parse_command. rewrite Hvalue.
    unfold write_register_line_quoted, find_int. reflexivity. }
  split; [exact Hparse|]. intros Hi.
  rewrite (app_process_command_parsed _ _ _ _ Hparse).
  destruct (app_execute_write_register app (blank_cmd CMD_WRITE_REGISTER 0 0)
              eq_refl Hi) as (app' & _ & E).
  exists app'. now rewrite E.
Qed.

(** The HAL calls of a command depend on the command and on whether the
    backend is initialised. *)
Lemma app_execute_calls (app1 app2 : App) (cmd : Command) :
  initialized (cc1101 app1) = initialized (cc1101 app2) ->
  snd (app_execute app1 cmd) = snd (app_execute app2 cmd).
Proof.
  intros Hi.
  unfold app_execute, cc1101_write_register, cc1101_write_bulk,
    cc1101_write_patable, cc1101_read_register.
  rewrite <- Hi.
  destruct (type cmd); try reflexivity.
  - destruct (initialized (cc1101 app1)); simpl negb; cbv iota; [|reflexivity].
    now destruct (_ <? _).
  - destruct (initialized (cc1101 app1)); simpl negb; cbv iota; [|reflexivity].
    destruct (bulk_reg_data _ _); [|reflexivity].
    now destruct (0 <? pa_table_count cmd)%nat.
Qed.

(** X24.  A request on which the scanner stays inside the line, as it
    does on every line that does not name write_bulk, is answered
    independently of the requests before it: the HAL calls of the request,
    its response among them, are the same from any two states of the
    application in which the backend is initialised alike, whatever the
    counter, the status text, the UART context and the content of the local
    command.  (On a line that makes the scanner read behind its end the
    source reads what earlier lines left there, and nothing is stated.) *)
Theorem requests_independent
    (app1 app2 : App) (cmd1 cmd2 : Command) (json : list ascii) :
  initialized (cc1101 app1) = initialized (cc1101 app2) ->
  (exists ok cmd, protocol_parse_command json cmd1 = Done (ok, cmd))
  \/ ~ names_command json (lit "write_bulk") ->
  exists app1' app2' hal,
    app_process_command app1 json cmd1 = Done (app1', hal)
    /\ app_process_command app2 json cmd2 = Done (app2', hal).
Proof.
  intros Hi H.
  assert (Hdone : exists ok cmd, protocol_parse_command json cmd1 = Done (ok, cmd)).
  { destruct H as [H|H]; [exact H|].
    pose proof (protocol_parse_command_named json cmd1) as Hnamed.
    destruct (protocol_parse_command json cmd1) as [[ok cmd]| |];
      [eauto | contradiction | contradiction]. }
  destruct Hdone as (ok & cmd & E). unfold app_process_command.
  change (protocol_parse_command json cmd2)
    with (protocol_parse_command json cmd1).
  rewrite E. destruct ok.
  - exists (fst (app_execute app1 cmd)), (fst (app_execute app2 cmd)),
      (snd (app_execute app1 cmd)).
    split; [now destruct (app_execute app1 cmd)|].
    rewrite (app_execute_calls app1 app2 cmd Hi).
    now destruct (app_execute app2 cmd).
  - eexists app1, app2, _. split; reflexivity.
Qed.

End QuotedAndIndependent.

(** Register 15 and value 200 in quotes: register 0 is written with 0. *)
Lemma quoted_numbers_read_as_zero_witness :
  exists app',
    app_process_command app_example
      (jlit "{'cmd':'write_register','addr':'15','value':'200'}") stale_cmd
    = Done (app',
            [furi_hal_subghz_load_registers [0; 0; 0; 0];
             furi_hal_cdc_send (jlit "{'type':'ack','success':true}");
             furi_hal_cdc_send [LF]]).
Proof.
  apply (proj2 (quoted_numbers_read_as_zero app_example stale_cmd 15 200)).
  reflexivity.
Defined.

(** The same write request on the fresh application and on one that has
    served a ping. *)
Lemma requests_independent_witness :
  exists app1' app2' hal,
    app_process_command app_example
      (jlit "{'cmd':'write_register','addr':15,'value':200}") stale_cmd
    = Done (app1', hal)
    /\ app_process_command
         (fst (app_execute app_example (blank_cmd CMD_PING 0 0)))
         (jlit "{'cmd':'write_register','addr':15,'value':200}")
         (blank_cmd CMD_PING 0 0)
       = Done (app2', hal).
Proof.
  apply requests_independent; [reflexivity|].
  left. exists true, (blank_cmd CMD_WRITE_REGISTER 15 200).
  vm_compute. reflexivity.
Defined.

(* ================================================================= *)
(** ** The integers of a request *)

Section Integers.

(** The line of a bulk request with signed entries is scanned into the
    first 47 pairs and the absolute values of the first 8 entries. *)
Lemma protocol_parse_command_write_bulk_signed
    (pairs : list (Z * Z)) (pa : list Z) (cmd0 : Command) :
  Forall (fun p => INT_MIN <= fst p <= INT_MAX /\ INT_MIN <= snd p <= INT_MAX)
         pairs ->
  Forall (fun v => - INT_MAX <= v <= INT_MAX) pa ->
  protocol_parse_command (write_bulk_line_signed pairs pa) cmd0
  = Done (true,
          push_pas (set_pa_table_count
                      (push_pairs (blank_cmd CMD_WRITE_BULK 0 0)
                                  (take MAX_BULK_REGISTERS pairs)) 0)
                   (take 8 (map Z.abs pa))).
Proof.
  intros Hpairs Hpa.
  destruct (bulk_command_fields pairs (map Z.abs pa)) as (Ht & _).
  destruct pa as [|v more].
  { change (write_bulk_line_signed pairs []) with (write_bulk_line pairs []).
    now apply protocol_parse_command_write_bulk. }
  set (pa := v :: more) in *.
  unfold write_bulk_line_signed.
  rewrite protocol_parse_command_write_bulk_shape
    by (intros rest; apply strstr_register_entries).
  change (jlit "},'pa_table':[" ++ pa_entries_signed pa ++ lit "]}")
    with ("}"%char :: jlit ",'pa_table':[" ++ pa_entries_signed pa ++ lit "]}").
  rewrite parse_registers_entries by (assumption || lia).
  cbn [bulk_count blank_cmd]. rewrite Nat.sub_0_r.
  destruct (pa_entries_signed_items pa ["}"%char]) as (items & Etext & Emap & Hitems);
    [discriminate | exact Hpa |].
  change (pa_entries_signed pa ++ lit "]}")
    with (pa_entries_signed pa ++ "]"%char :: ["}"%char]).
  rewrite Etext.
  rewrite parse_pa_table_numbers;
    [| exact Hitems | repeat constructor; discriminate | lia].
  rewrite Emap. cbn [pa_table_count set_pa_table_count].
  change (take (8 - 0) (map Z.abs pa)) with (take 8 (map Z.abs pa)).
  cbn zeta in Ht. now rewrite Ht.
Qed.


(** C7 (as amended).  In every command the scanner returns, [addr] and
    [value] are 0 when the line does not hold their quoted key; where the
    command reads them (addr in write_register and read_register, value in
    write_register), the key is in the line and a colon follows it, they
    are the [atoi] of the text right behind that colon, reduced modulo 256,
    and they are 0 in every other case; every integer of the command,
    the register pairs and the power-amplifier entries included, is within
    0..255.  Nothing is rejected for its size or sign: in the lines of the
    wire format, for integers of type [int], the address and the value of
    write_register and read_register and of every register pair of
    write_bulk are stored reduced modulo 256, while an entry of the
    power-amplifier array is read from its first digit on, so that its
    sign is lost and the absolute value is stored, reduced modulo 256. *)
Theorem C7_integers_default_and_narrowed :
  (forall (json : list ascii) (cmd0 : Command) (ok : bool) (cmd : Command),
     protocol_parse_command json cmd0 = Done (ok, cmd) ->
     ((forall b r, json <> b ++ jlit "'addr'" ++ r) -> addr cmd = 0)
     /\ ((forall b r, json <> b ++ jlit "'value'" ++ r) -> value cmd = 0)
     /\ (forall key_pos val,
           type cmd = CMD_WRITE_REGISTER \/ type cmd = CMD_READ_REGISTER ->
           strstr json (jlit "'addr'") = Some key_pos ->
           strchr key_pos ":" = Some val ->
           addr cmd = atoi (tl val) mod 256)
     /\ (forall key_pos val,
           type cmd = CMD_WRITE_REGISTER ->
           strstr json (jlit "'value'") = Some key_pos ->
           strchr key_pos ":" = Some val ->
           value cmd = atoi (tl val) mod 256)
     /\ (forall key_pos,
           strstr json (jlit "'addr'") = Some key_pos ->
           strchr key_pos ":" = None -> addr cmd = 0)
     /\ (forall key_pos,
           strstr json (jlit "'value'") = Some key_pos ->
           strchr key_pos ":" = None -> value cmd = 0)
     /\ (type cmd <> CMD_WRITE_REGISTER -> type cmd <> CMD_READ_REGISTER ->
         addr cmd = 0)
     /\ (type cmd <> CMD_WRITE_REGISTER -> value cmd = 0)
     /\ Command_wf cmd)
  /\ (forall (a v : Z) (cmd0 : Command),
        INT_MIN <= a <= INT_MAX -> INT_MIN <= v <= INT_MAX ->
        protocol_parse_command (write_register_line a v) cmd0
        = Done (true, blank_cmd CMD_WRITE_REGISTER (a mod 256) (v mod 256)))
  /\ (forall (a : Z) (cmd0 : Command),
        INT_MIN <= a <= INT_MAX ->
        protocol_parse_command (read_register_line a) cmd0
        = Done (true, blank_cmd CMD_READ_REGISTER (a mod 256) 0))
  /\ (forall (pairs : list (Z * Z)) (pa : list Z) (cmd0 : Command),
        Forall (fun p => INT_MIN <= fst p <= INT_MAX
                         /\ INT_MIN <= snd p <= INT_MAX) pairs ->
        Forall (fun v => - INT_MAX <= v <= INT_MAX) pa ->
        exists cmd,
          protocol_parse_command (write_bulk_line_signed pairs pa) cmd0
          = Done (true, cmd)
          /\ type cmd = CMD_WRITE_BULK
          /\ bulk_count cmd = (47 `min` length pairs)%nat
          /\ take (bulk_count cmd) (bulk_regs cmd)
             = map (fun p => mkPair (fst p mod 256) (snd p mod 256))
                   (take 47 pairs)
          /\ pa_table_count cmd = (8 `min` length pa)%nat
          /\ take (pa_table_count cmd) (pa_table cmd)
             = map (fun v => Z.abs v mod 256) (take 8 pa)).
Proof.
  split; [|split; [exact protocol_parse_command_write_register
                  |split; [exact protocol_parse_command_read_register|]]].
  - intros json cmd0 ok cmd Hp.
    apply protocol_parse_command_Done in Hp as (Hwf & _ & Haddr & Hvalue).
    repeat match goal with |- _ /\ _ => split end; [..|exact Hwf].
    + intros Habs. rewrite Haddr, (find_int_absent _ _ Habs).
      now destruct (type cmd).
    + intros Habs. rewrite Hvalue, (find_int_absent _ _ Habs).
      now destruct (type cmd).
    + intros key_pos val Ht Hs Hc. rewrite Haddr. unfold find_int.
      rewrite Hs, Hc. now destruct Ht as [-> | ->].
    + intros key_pos val Ht Hs Hc. rewrite Hvalue, Ht. unfold find_int.
      now rewrite Hs, Hc.
    + intros key_pos Hs Hc. rewrite Haddr. unfold find_int. rewrite Hs, Hc.
      now destruct (type cmd).
    + intros key_pos Hs Hc. rewrite Hvalue. unfold find_int. rewrite Hs, Hc.
      now destruct (type cmd).
    + intros Hw Hr. rewrite Haddr. now destruct (type cmd).
    + intros Hw. rewrite Hvalue. now destruct (type cmd).
  - intros pairs pa cmd0 Hpairs Hpa.
    set (cmd := push_pas (set_pa_table_count
                            (push_pairs (blank_cmd CMD_WRITE_BULK 0 0)
                                        (take MAX_BULK_REGISTERS pairs)) 0)
                         (take 8 (map Z.abs pa))).
    destruct (bulk_command_fields pairs (map Z.abs pa))
      as (Ht & Hbc & Hregs & Hpc & Hpt).
    fold cmd in Ht, Hbc, Hregs, Hpc, Hpt.
    exists cmd. split.
    { now apply protocol_parse_command_write_bulk_signed. }
    rewrite Hregs, Hpt, Hbc, Hpc, length_map, List.firstn_map, map_map.
    repeat split. exact Ht.
Qed.

End Integers.

(** An address of 300 and a value of -1 arrive as 44 and 255; a register
    pair of -1 and 256 is stored as 255 and 0, the array entries -1 and
    -300 as 1 and 44. *)
Lemma C7_integers_default_and_narrowed_witness :
  protocol_parse_command
    (jlit "{'cmd':'write_register','addr':300,'value':-1}") stale_cmd
  = Done (true, blank_cmd CMD_WRITE_REGISTER 44 255)
  /\ addr (blank_cmd CMD_PING 0 0) = 0
  /\ exists cmd,
       protocol_parse_command
         (jlit "{'cmd':'write_bulk','registers':{'-1':256},'pa_table':[-1,-300]}")
         stale_cmd = Done (true, cmd)
       /\ type cmd = CMD_WRITE_BULK
       /\ bulk_count cmd = 1%nat
       /\ take (bulk_count cmd) (bulk_regs cmd) = [mkPair 255 0]
       /\ pa_table_count cmd = 2%nat
       /\ take (pa_table_count cmd) (pa_table cmd) = [1; 44].
Proof.
  destruct C7_integers_default_and_narrowed as (Hany & Hwrite & _ & Hbulk).
  split; [|split].
  - apply (Hwrite 300 (-1) stale_cmd); vm_compute; split; discriminate.
  - apply (proj1 (Hany (jlit "{'cmd':'ping'}") stale_cmd true
                       (blank_cmd CMD_PING 0 0) eq_refl)).
    intros b r H.
    assert (Hs : strstr (jlit "{'cmd':'ping'}") (jlit "'addr'") = None)
      by reflexivity.
    exact (strstr_None _ _ Hs b r H).
  - apply (Hbulk [(-1, 256)] [-1; -300] stale_cmd).
    + repeat constructor; vm_compute; discriminate.
    + repeat constructor; vm_compute; discriminate.
Defined.

(** C7 as the specification words it fails on the power-amplifier array:
    the entries -1 and -300 are not stored reduced modulo 256, as 255 and
    212, but as 1 and 44; the value -1 of a register is stored as 255. *)
Lemma C7_counterexample :
  exists cmd,
    protocol_parse_command
      (jlit "{'cmd':'write_bulk','registers':{'1':-1},'pa_table':[-1,-300]}")
      stale_cmd = Done (true, cmd)
    /\ take (bulk_count cmd) (bulk_regs cmd) = [mkPair 1 255]
    /\ take (pa_table_count cmd) (pa_table cmd) = [1; 44]
    /\ take (pa_table_count cmd) (pa_table cmd)
       <> [(-1) mod 256; (-300) mod 256].
Proof.
  eexists. split; [vm_compute; reflexivity|].
  vm_compute. repeat split. discriminate.
Qed.
